(** * Elysium Shield Integration SDK: a shallow embedding of [shieldIntegration.js]

    The SDK is one JavaScript class, [ShieldIntegration], whose methods
    build an HTTP request, wait for the single terminal event of the
    round trip and normalise its outcome.  The development has three
    layers.

    - [Numbers] and [Host]: what the JavaScript engine and Node.js supply
      and the SDK only calls ([JSON.parse], [JSON.stringify], [new URL],
      the wording of engine errors, the IEEE doubles carried by JSON
      payloads).  They are parameters: every theorem holds for every
      engine.
    - The fragment of the language the SDK relies on, written out:
      [ToBoolean], [||], property reads, [ToString], [parseInt],
      [Date.prototype.toISOString].
    - The class itself, method by method, in a state-and-exception monad
      over the client object, the console and the trace of calls to
      [client.request]. *)

From Stdlib Require Import ZArith String Ascii List Lia DecimalString DecimalPos.
From stdpp Require Import base option gmap strings list.

Set Warnings "-register-all".
#[local] Open Scope Z_scope.

(** ** The engine's numbers

    A JSON payload carries IEEE-754 doubles.  The SDK never computes with
    them: it tests them for truthiness, prints them inside messages and
    writes the literal [10000].  These three observations are the
    interface. *)

Class Numbers := {
  number : Type;
  number_of_Z : Z -> number;
  number_truthy : number -> bool;
  number_toString : number -> string;
  (** [ToBoolean] of an integer literal: only zero is falsy. *)
  number_truthy_of_Z : forall z, number_truthy (number_of_Z z) = negb (z =? 0)
}.

(** ** JavaScript values

    The values that reach the SDK: what [JSON.parse] returns and what a
    caller passes as [apiKey], [options], [userId] or [actionData].  An
    object is the finite map of its own properties. *)

Section Values.
Context `{Numbers}.

Inductive value :=
| VUndefined
| VNull
| VBool (b : bool)
| VNum (n : number)
| VStr (s : string)
| VArr (elems : list value)
| VObj (props : gmap string value).

(** The result of [parseInt], a double: [NaN], negative zero, an
    infinity, or [Int z], the double whose value is the integer [z].  The
    values of [Int] that arise are integers a double can hold: all of
    them up to [2^53] in absolute value, and beyond that those with 53
    significant bits. *)
Inductive intnum :=
| NaN
| MinusZero
| Int (z : Z)
| Infinity (negative : bool).

(** [rateLimit], built at lines 83-98.  A property that was never assigned
    is [None]. *)
Record RateLimitInfo := {
  limit : option intnum;
  remaining : option intnum;
  resetAt : option string;
  resetTimestamp : option intnum;
  retryAfter : option intnum
}.

(** The object literals handed to [reject] (lines 110-115, 118-122,
    129-132, 137-140). *)
Record NormalizedError := {
  statusCode : option Z;
  message : value;
  error : value;
  rateLimit : option RateLimitInfo
}.

Inductive error_class := Error | TypeError | RangeError | SyntaxError.

(** What a [throw] or a rejected promise carries: an instance of [Error]
    (or of one of its subclasses) with its [message], or one of the plain
    objects above. *)
Inductive thrown :=
| ErrorObject (cls : error_class) (msg : string)
| PlainObject (e : NormalizedError).

Inductive completion (A : Type) :=
| Normal (a : A)
| Throw (t : thrown).

#[global] Arguments Normal {A} a.
#[global] Arguments Throw {A} t.

Definition bind {A B} (c : completion A) (k : A -> completion B) : completion B :=
  match c with
  | Normal a => k a
  | Throw t => Throw t
  end.

(** [new URL(endpoint, base)] as far as the SDK looks at it. *)
Record URL := {
  href : string;
  protocol : string
}.

End Values.

(** ** The host: Node.js and the engine *)

Class Host `{Numbers} := {
  (** [JSON.parse(body)]: the value, or the [SyntaxError] it throws. *)
  JSON_parse : string -> completion value;
  (** [JSON.stringify(data)] on the values above. *)
  JSON_stringify : value -> string;
  (** [new URL(endpoint, base)]: throws a [TypeError] on an invalid URL. *)
  URL_new : string -> value -> completion URL;
  (** Message of the [TypeError] for reading property [key] of
      [undefined] or [null]. *)
  msg_read_nullish : value -> string -> string;
  (** Message of the [TypeError] for an object with no usable [toString]. *)
  msg_to_primitive : string;
  (** Message of the [RangeError] of [toISOString] on an invalid date. *)
  msg_invalid_time : string;
  (** Message of the error that a request emits once it is destroyed
      with no response. *)
  msg_socket_hang_up : string
}.

(** ** The language fragment *)

Section Language.
Context `{Host}.

Definition ToBoolean (v : value) : bool :=
  match v with
  | VUndefined | VNull => false
  | VBool b => b
  | VNum n => number_truthy n
  | VStr s => negb (String.eqb s "")
  | VArr _ | VObj _ => true
  end.

(** [a || b] *)
Definition or_else (a b : value) : value :=
  if ToBoolean a then a else b.

(** [v.key] and [v[key]] for a [key] that no built-in prototype defines
    and that is neither an index nor [length]: all the SDK reads are
    [apiUrl], [timeout], [debug], [success], [error], [message], [data]
    and the five required fields of an action report. *)
Definition Get (v : value) (key : string) : completion value :=
  match v with
  | VUndefined | VNull => Throw (ErrorObject TypeError (msg_read_nullish v key))
  | VObj props => Normal (default VUndefined (props !! key))
  | VBool _ | VNum _ | VStr _ | VArr _ => Normal VUndefined
  end.

(** [Array.prototype.join] glues the pieces with the separator. *)
Fixpoint join (sep : string) (pieces : list string) : string :=
  match pieces with
  | [] => ""
  | [p] => p
  | p :: rest => p +:+ sep +:+ join sep rest
  end.

Fixpoint sequence {A} (cs : list (completion A)) : completion (list A) :=
  match cs with
  | [] => Normal []
  | c :: rest =>
      bind c (fun a => bind (sequence rest) (fun r => Normal (a :: r)))
  end.

(** [ToString].  A plain object prints as [[object Object]] through
    [Object.prototype.toString], unless an own property shadows
    [toString]: the own property of a data object is not callable, the
    inherited [valueOf] returns the object itself, and the conversion
    throws.  An array joins its elements with a comma, [null] and
    [undefined] printing as the empty string. *)
Fixpoint ToString (v : value) : completion string :=
  match v with
  | VUndefined => Normal "undefined"
  | VNull => Normal "null"
  | VBool true => Normal "true"
  | VBool false => Normal "false"
  | VNum n => Normal (number_toString n)
  | VStr s => Normal s
  | VArr elems =>
      bind (sequence (map (fun e =>
                             match e with
                             | VUndefined | VNull => Normal ""
                             | _ => ToString e
                             end) elems))
           (fun pieces => Normal (join "," pieces))
  | VObj props =>
      match props !! "toString" with
      | Some _ => Throw (ErrorObject TypeError msg_to_primitive)
      | None => Normal "[object Object]"
      end
  end.

(** *** [parseInt(string)] with no radix

    Header values are Latin-1 strings, one character per byte. *)

Definition is_white_space (c : ascii) : bool :=
  let n := Z.of_nat (nat_of_ascii c) in
  (n =? 9) || (n =? 10) || (n =? 11) || (n =? 12) || (n =? 13)
  || (n =? 32) || (n =? 160).

Fixpoint trim_start (s : string) : string :=
  match s with
  | String c rest => if is_white_space c then trim_start rest else s
  | EmptyString => s
  end.

(** The value of [c] as a digit of radix [R], if it is one. *)
Definition digit_of (R : Z) (c : ascii) : option Z :=
  let n := Z.of_nat (nat_of_ascii c) in
  let d := if (48 <=? n) && (n <=? 57) then Some (n - 48)
           else if (97 <=? n) && (n <=? 122) then Some (n - 87)
           else if (65 <=? n) && (n <=? 90) then Some (n - 55)
           else None in
  match d with
  | Some k => if k <? R then Some k else None
  | None => None
  end.

(** The integer denoted by the longest prefix of radix-[R] digits. *)
Fixpoint read_digits (R : Z) (s : string) (acc : Z) : Z :=
  match s with
  | String c rest =>
      match digit_of R c with
      | Some d => read_digits R rest (acc * R + d)
      | None => acc
      end
  | EmptyString => acc
  end.

Definition strip_sign (s : string) : bool * string :=
  match s with
  | String "-" rest => (true, rest)
  | String "+" rest => (false, rest)
  | _ => (false, s)
  end.

Definition strip_prefix (s : string) : Z * string :=
  match s with
  | String "0" (String "x" rest) => (16, rest)
  | String "0" (String "X" rest) => (16, rest)
  | _ => (10, s)
  end.

(** The double nearest to a positive integer, ties to even: an integer
    up to [2^53] is a double; beyond, the 53 leading bits are kept and
    the rest is rounded; a result of [2^1024] or more is an infinity. *)
Definition round_to_double (n : Z) : option Z :=
  if n <=? 2 ^ 53 then Some n
  else
    let e := Z.log2 n - 52 in
    let q := n / 2 ^ e in
    let r := n mod 2 ^ e in
    let half := 2 ^ (e - 1) in
    let q' := if (half <? r) || ((r =? half) && Z.odd q) then q + 1 else q in
    if q' * 2 ^ e <? 2 ^ 1024 then Some (q' * 2 ^ e) else None.

(** The Number value for a mathematical integer. *)
Definition Number_value (z : Z) : intnum :=
  match round_to_double (Z.abs z) with
  | Some v => Int (Z.sgn z * v)
  | None => Infinity (z <? 0)
  end.

Definition parseInt (s : string) : intnum :=
  let '(negative, s1) := strip_sign (trim_start s) in
  let '(R, s2) := strip_prefix s1 in
  match s2 with
  | String c _ =>
      match digit_of R c with
      | Some _ =>
          let mathInt := read_digits R s2 0 in
          if mathInt =? 0 then (if negative then MinusZero else Int 0)
          else Number_value (if negative then - mathInt else mathInt)
      | None => NaN
      end
  | EmptyString => NaN
  end.

(** *** [new Date(seconds * 1000).toISOString()] *)

(** [x * 1000] on the result of [parseInt]: the double nearest to the
    product. *)
Definition times_1000 (x : intnum) : intnum :=
  match x with
  | NaN => NaN
  | MinusZero => MinusZero
  | Int z => Number_value (z * 1000)
  | Infinity negative => Infinity negative
  end.

(** [TimeClip]: the time value of the date, [None] for an invalid date. *)
Definition TimeClip (x : intnum) : option Z :=
  match x with
  | NaN | Infinity _ => None
  | MinusZero => Some 0
  | Int ms => if Z.abs ms <=? 8640000000000000 then Some ms else None
  end.

Definition msPerDay : Z := 86400000.

(** Year, month (1-12) and day of the month of the proleptic Gregorian
    calendar, from the number of days since 1970-01-01. *)
Definition civil_from_days (days : Z) : Z * Z * Z :=
  let z := days + 719468 in
  let era := z / 146097 in
  let doe := z - era * 146097 in
  let yoe := (doe - doe / 1460 + doe / 36524 - doe / 146096) / 365 in
  let doy := doe - (365 * yoe + yoe / 4 - yoe / 100) in
  let mp := (5 * doy + 2) / 153 in
  let d := doy - (153 * mp + 2) / 5 + 1 in
  let m := if mp <? 10 then mp + 3 else mp - 9 in
  let y := yoe + era * 400 + (if m <=? 2 then 1 else 0) in
  (y, m, d).

Definition decimal (n : Z) : string :=
  NilZero.string_of_int (Z.to_int n).

(** The character of a decimal digit. *)
Definition digit_char (d : Z) : ascii :=
  ascii_of_nat (Z.to_nat (48 + d)).

(** The [width] low decimal digits of [n], most significant first: [n]
    padded with zeros on the left when [0 <= n < 10 ^ width], which is
    the case of every field of a date. *)
Fixpoint pad (width : nat) (n : Z) : string :=
  match width with
  | O => ""
  | S w => String (digit_char (n / 10 ^ Z.of_nat w mod 10)) (pad w n)
  end.

(** Four digits for the years 0 to 9999, a sign and six digits beyond. *)
Definition iso_year (y : Z) : string :=
  if (0 <=? y) && (y <=? 9999) then pad 4 y
  else if y <? 0 then "-" +:+ pad 6 (- y)
  else "+" +:+ pad 6 y.

(** The calendar fields of a time value, in UTC. *)
Record date_fields := {
  year : Z;
  month : Z;
  day : Z;
  hours : Z;
  minutes : Z;
  seconds : Z;
  milliseconds : Z
}.

Definition fields_of_time (ms : Z) : date_fields :=
  let '(y, m, d) := civil_from_days (ms / msPerDay) in
  let t := ms mod msPerDay in
  {| year := y;
     month := m;
     day := d;
     hours := t / 3600000;
     minutes := t / 60000 mod 60;
     seconds := t / 1000 mod 60;
     milliseconds := t mod 1000 |}.

(** [YYYY-MM-DDTHH:mm:ss.sssZ] *)
Definition print_iso (f : date_fields) : string :=
  iso_year (year f) +:+ "-" +:+ pad 2 (month f) +:+ "-" +:+ pad 2 (day f) +:+ "T"
  +:+ pad 2 (hours f) +:+ ":" +:+ pad 2 (minutes f) +:+ ":"
  +:+ pad 2 (seconds f) +:+ "." +:+ pad 3 (milliseconds f) +:+ "Z".

Definition iso_format (ms : Z) : string :=
  print_iso (fields_of_time ms).

(** The calendar as ECMA-262 defines it (21.4.1, "Day Number and Time
    within Day" to "Date Number"): the day number of the first of January
    of a year, leap years, and the day within the year at which a month
    starts.  [time_of_fields] is the time value these definitions give to
    a date and a time of day. *)
Definition DayFromYear (y : Z) : Z :=
  365 * (y - 1970) + (y - 1969) / 4 - (y - 1901) / 100 + (y - 1601) / 400.

Definition InLeapYear (y : Z) : bool :=
  (y mod 4 =? 0) && (negb (y mod 100 =? 0) || (y mod 400 =? 0)).

Definition days_before_month (m : Z) (leap : bool) : Z :=
  nth (Z.to_nat (m - 1)) [0; 31; 59; 90; 120; 151; 181; 212; 243; 273; 304; 334] 0
  + (if leap && (2 <? m) then 1 else 0).

Definition days_in_month (m : Z) (leap : bool) : Z :=
  nth (Z.to_nat (m - 1)) [31; 28; 31; 30; 31; 30; 31; 31; 30; 31; 30; 31] 0
  + (if leap && (m =? 2) then 1 else 0).

Definition time_of_fields (f : date_fields) : Z :=
  (DayFromYear (year f)
   + days_before_month (month f) (InLeapYear (year f)) + day f - 1) * msPerDay
  + hours f * 3600000 + minutes f * 60000 + seconds f * 1000 + milliseconds f.

(** Every field is in its range. *)
Definition well_formed (f : date_fields) : Prop :=
  1 <= month f <= 12
  /\ 1 <= day f <= days_in_month (month f) (InLeapYear (year f))
  /\ 0 <= hours f <= 23 /\ 0 <= minutes f <= 59 /\ 0 <= seconds f <= 59
  /\ 0 <= milliseconds f <= 999.

Definition toISOString (tv : option Z) : completion string :=
  match tv with
  | Some ms => Normal (iso_format ms)
  | None => Throw (ErrorObject RangeError msg_invalid_time)
  end.

(** *** The date-time format of ISO 8601, read

    A reader written from the format, not from the printer above:
    [YYYY-MM-DDTHH:mm:ss.sssZ], the year being four digits from 0 to 9999
    and a sign with six digits otherwise ([+] above 9999, [-] below 0),
    each field a fixed number of decimal digits, [T], [Z] and the
    punctuation literal, and nothing after the [Z].  It is what "the
    ISO-8601 encoding" of an instant is measured against. *)

Definition decimal_digit (c : ascii) : option Z :=
  let n := Z.of_nat (nat_of_ascii c) in
  if (48 <=? n) && (n <=? 57) then Some (n - 48) else None.

(** Exactly [width] decimal digits, then the rest. *)
Fixpoint read_fixed (width : nat) (s : string) (acc : Z) : option (Z * string) :=
  match width with
  | O => Some (acc, s)
  | S w =>
      match s with
      | String c rest =>
          match decimal_digit c with
          | Some d => read_fixed w rest (acc * 10 + d)
          | None => None
          end
      | EmptyString => None
      end
  end.

Definition expect (c : ascii) (s : string) : option string :=
  match s with
  | String c' rest => if Ascii.eqb c c' then Some rest else None
  | EmptyString => None
  end.

Definition read_year (s : string) : option (Z * string) :=
  match s with
  | String c rest =>
      if Ascii.eqb c "+"
      then
        match read_fixed 6 rest 0 with
        | Some (y, rest') => if 9999 <? y then Some (y, rest') else None
        | None => None
        end
      else if Ascii.eqb c "-"
      then
        match read_fixed 6 rest 0 with
        | Some (y, rest') => if 0 <? y then Some (- y, rest') else None
        | None => None
        end
      else read_fixed 4 s 0
  | EmptyString => None
  end.

Definition read_iso8601 (s : string) : option date_fields :=
  '(y, s) ← read_year s;
  s ← expect "-" s;
  '(m, s) ← read_fixed 2 s 0;
  s ← expect "-" s;
  '(d, s) ← read_fixed 2 s 0;
  s ← expect "T" s;
  '(h, s) ← read_fixed 2 s 0;
  s ← expect ":" s;
  '(mi, s) ← read_fixed 2 s 0;
  s ← expect ":" s;
  '(sec, s) ← read_fixed 2 s 0;
  s ← expect "." s;
  '(ms, s) ← read_fixed 3 s 0;
  s ← expect "Z" s;
  if String.eqb s ""
  then Some {| year := y; month := m; day := d; hours := h; minutes := mi;
               seconds := sec; milliseconds := ms |}
  else None.

End Language.

(** ** The class [ShieldIntegration] *)

Section Client.
Context `{Host}.

(** The instance: the fields the constructor assigns.  No line of the
    source assigns [_lastRateLimit]; a property that was never assigned
    reads as [undefined], which is [None] here. *)
Record ShieldIntegration := {
  apiKey : value;
  apiUrl : value;
  timeout : value;
  debug : value;
  version : string;
  _lastRateLimit : option RateLimitInfo
}.

(** [res] once its body has arrived: status, lower-cased headers and the
    chunks of the ['data'] events in order. *)
Record IncomingMessage := {
  res_statusCode : Z;
  res_headers : gmap string string;
  res_chunks : list string
}.

(** One call of [client.request(url, options, callback)], with what
    [req.write] sent before [req.end()]. *)
Record ClientRequest := {
  req_https : bool;
  req_url : URL;
  req_method : string;
  req_headers : list (string * value);
  req_timeout : value;
  req_body : option string
}.

(** The event that settles a round trip: the response's ['end'], the
    request's ['error'] with its message, the request's ['timeout'], or
    [client.request] refusing its arguments with a synchronous
    exception. *)
Inductive terminal_event :=
| OnEnd (res : IncomingMessage)
| OnError (msg : string)
| OnTimeout
| Refused (cls : error_class) (msg : string).

(** The parsed body, and the [rateLimit] property line 102 may have
    assigned to it (replacing a property of that name in the body). *)
Record NormalizedResponse := {
  resp_body : value;
  resp_rateLimit : option RateLimitInfo
}.

(** Second argument of [console.log] at each call of [_log]. *)
Inductive log_data :=
| LogInit (url : value)
| LogRequest (data : value)
| LogSuccess (status : Z) (rl : RateLimitInfo)
| LogFailure (status : Z) (response : NormalizedResponse)
| LogError (msg : string).

(** The client object, the lines written to the console and the calls
    made to [client.request], oldest first. *)
Record Machine := {
  this : ShieldIntegration;
  console : list (string * log_data);
  wire : list ClientRequest
}.

(** The remote service and the network: the terminal event of the [n]-th
    call of [client.request], given the request. *)
Variable service : nat -> ClientRequest -> terminal_event.

(** *** The monad of the methods *)

Definition M (A : Type) : Type := Machine -> completion A * Machine.

Definition ret {A} (a : A) : M A := fun m => (Normal a, m).

Definition throw {A} (t : thrown) : M A := fun m => (Throw t, m).

Definition lift {A} (c : completion A) : M A := fun m => (c, m).

Definition mbind {A B} (c : M A) (k : A -> M B) : M B :=
  fun m =>
    match c m with
    | (Normal a, m') => k a m'
    | (Throw t, m') => (Throw t, m')
    end.

(** [try { body } catch (error) { handler }] *)
Definition try_catch {A} (body : M A) (handler : thrown -> M A) : M A :=
  fun m =>
    match body m with
    | (Normal a, m') => (Normal a, m')
    | (Throw t, m') => handler t m'
    end.

Notation "'let*' x ':=' c 'in' k" := (mbind c (fun x => k))
  (at level 10, x name, c at level 100, k at level 200).

Notation "c ';;' k" := (mbind c (fun _ => k))
  (at level 100, k at level 200, right associativity).

(** [new Error(message)]: the constructor converts its argument. *)
Definition new_Error (message : value) : completion thrown :=
  bind (ToString message) (fun s => Normal (ErrorObject Error s)).

(** [error.message] for a caught [error]. *)
Definition thrown_message (t : thrown) : value :=
  match t with
  | ErrorObject _ msg => VStr msg
  | PlainObject e => message e
  end.

(** [error.statusCode] and [error.rateLimit], as a caller reads them. *)
Definition thrown_statusCode (t : thrown) : option Z :=
  match t with
  | ErrorObject _ _ => None
  | PlainObject e => statusCode e
  end.

Definition thrown_rateLimit (t : thrown) : option RateLimitInfo :=
  match t with
  | ErrorObject _ _ => None
  | PlainObject e => rateLimit e
  end.

(** *** [_log] (lines 43-47) *)

Definition _log (message : string) (data : log_data) : M unit :=
  fun m =>
    if ToBoolean (debug (this m))
    then (Normal tt,
          {| this := this m;
             console := console m ++ [("[Shield SDK] " +:+ message, data)];
             wire := wire m |})
    else (Normal tt, m).

(** *** The constructor (lines 25-37)

    [options = {}] replaces a missing argument only.  The new object
    starts with the console and the trace it is given; a constructor that
    throws has touched neither. *)

Definition constructor (apiKey options : value)
    (console0 : list (string * log_data)) (wire0 : list ClientRequest)
    : completion Machine :=
  let options := match options with VUndefined => VObj ∅ | _ => options end in
  if negb (ToBoolean apiKey)
  then Throw (ErrorObject Error
         "Shield API key is required. Get one at https://elysium-online.xyz/profile")
  else
    bind (Get options "apiUrl") (fun url =>
    bind (Get options "timeout") (fun ms =>
    bind (Get options "debug") (fun dbg =>
      let self := {| apiKey := apiKey;
                     apiUrl := or_else url (VStr "https://elysium-online.xyz/api");
                     timeout := or_else ms (VNum (number_of_Z 10000));
                     debug := or_else dbg (VBool false);
                     version := "1.0.0";
                     _lastRateLimit := None |} in
      Normal (snd (_log "Shield Integration initialized" (LogInit (apiUrl self))
                     {| this := self; console := console0; wire := wire0 |}))))).

(** *** [_request] (lines 53-149)

    The promise settles once, on the first of the terminal events.  An
    exception thrown while the executor runs ([new URL] on an invalid
    base, [client.request] on arguments it refuses) rejects the promise
    with that exception. *)

(** [res.headers[name]] when it is truthy: present and not empty. *)
Definition header (headers : gmap string string) (name : string) : option string :=
  match headers !! name with
  | Some s => if String.eqb s "" then None else Some s
  | None => None
  end.

(** Lines 83-98. *)
Definition extract_rate_limit (headers : gmap string string)
    : completion RateLimitInfo :=
  let limit := parseInt <$> header headers "x-ratelimit-limit" in
  let remaining := parseInt <$> header headers "x-ratelimit-remaining" in
  bind (match header headers "x-ratelimit-reset" with
        | Some s =>
            let resetTimestamp := parseInt s in
            bind (toISOString (TimeClip (times_1000 resetTimestamp)))
                 (fun iso => Normal (Some iso, Some resetTimestamp))
        | None => Normal (None, None)
        end)
       (fun reset =>
          Normal {| limit := limit;
                    remaining := remaining;
                    resetAt := fst reset;
                    resetTimestamp := snd reset;
                    retryAfter := parseInt <$> header headers "retry-after" |}).

(** [Object.keys(rateLimit).length > 0] *)
Definition assigned {A} (property : option A) : bool :=
  match property with
  | Some _ => true
  | None => false
  end.

Definition has_keys (rl : RateLimitInfo) : bool :=
  assigned (limit rl) || assigned (remaining rl) || assigned (resetAt rl)
  || assigned (resetTimestamp rl) || assigned (retryAfter rl).

(** [response && typeof response === 'object'] *)
Definition is_object (v : value) : bool :=
  match v with
  | VArr _ | VObj _ => true
  | _ => false
  end.

(** Which of [resolve] and [reject] the handler called. *)
Inductive settlement :=
| Resolve (response : NormalizedResponse)
| Reject (e : NormalizedError).

(** [body += chunk] over the ['data'] events. *)
Definition accumulate (chunks : list string) : string :=
  fold_left String.append chunks "".

(** The [try] block of the ['end'] handler (lines 80-116). *)
Definition on_end_try (res : IncomingMessage) : M settlement :=
  let* response := lift (JSON_parse (accumulate (res_chunks res))) in
  let* rateLimit := lift (extract_rate_limit (res_headers res)) in
  let response' :=
    {| resp_body := response;
       resp_rateLimit := if is_object response && has_keys rateLimit
                         then Some rateLimit else None |} in
  if (200 <=? res_statusCode res) && (res_statusCode res <? 300)
  then
    _log "Request successful" (LogSuccess (res_statusCode res) rateLimit);;
    ret (Resolve response')
  else
    _log "Request failed" (LogFailure (res_statusCode res) response');;
    let* msg := lift (Get response "message") in
    let* err := lift (Get response "error") in
    ret (Reject {| statusCode := Some (res_statusCode res);
                   message := or_else (or_else msg err) (VStr "Request failed");
                   error := or_else err (VStr "Unknown error");
                   rateLimit := Some rateLimit |}).

(** The ['end'] handler with its [catch] (lines 78-124). *)
Definition on_end (res : IncomingMessage) (m : Machine) : settlement * Machine :=
  match on_end_try res m with
  | (Normal s, m') => (s, m')
  | (Throw t, m') =>
      (Reject {| statusCode := Some (res_statusCode res);
                 message := VStr "Failed to parse response";
                 error := thrown_message t;
                 rateLimit := None |}, m')
  end.

Definition settle (s : settlement) : completion NormalizedResponse :=
  match s with
  | Resolve response => Normal response
  | Reject e => Throw (PlainObject e)
  end.

Definition sent (req : ClientRequest) (m : Machine) : Machine :=
  {| this := this m; console := console m; wire := wire m ++ [req] |}.

(** [data = null] replaces a missing argument.  The ['timeout'] handler
    destroys the request and rejects; the destroyed request then emits
    ['error'], whose handler logs (line 128) and rejects a promise that
    is already settled.  Node refuses a [timeout] option that is not a
    number when the request is created, so the ['timeout'] handler only
    ever prints a number; the conversion keeps its error for
    definiteness. *)
Definition _request (method endpoint : string) (data : value)
    : M NormalizedResponse :=
  fun m =>
    let data := match data with VUndefined => VNull | _ => data end in
    match URL_new endpoint (apiUrl (this m)) with
    | Throw t => (Throw t, m)
    | Normal url =>
        let isHttps := String.eqb (protocol url) "https:" in
        let m1 := snd (_log (method +:+ " " +:+ href url) (LogRequest data) m) in
        let req :=
          {| req_https := isHttps;
             req_url := url;
             req_method := method;
             req_headers :=
               [("Content-Type", VStr "application/json");
                ("x-api-key", apiKey (this m));
                ("User-Agent", VStr ("Elysium-Shield-SDK/" +:+ version (this m)))];
             req_timeout := timeout (this m);
             req_body := if ToBoolean data then Some (JSON_stringify data)
                         else None |} in
        let m2 := sent req m1 in
        match service (length (wire m1)) req with
        | OnEnd res =>
            let '(s, m3) := on_end res m2 in (settle s, m3)
        | OnError msg =>
            (Throw (PlainObject {| statusCode := None;
                                   message := VStr "Network error";
                                   error := VStr msg;
                                   rateLimit := None |}),
             snd (_log "Request error" (LogError msg) m2))
        | OnTimeout =>
            match ToString (timeout (this m)) with
            | Normal ms =>
                (Throw (PlainObject
                          {| statusCode := None;
                             message := VStr "Request timeout";
                             error := VStr ("Request exceeded " +:+ ms +:+ "ms");
                             rateLimit := None |}),
                 snd (_log "Request error" (LogError msg_socket_hang_up) m2))
            | Throw t => (Throw t, m2)
            end
        | Refused cls msg => (Throw (ErrorObject cls msg), m2)
        end
    end.

(** *** [getRateLimit] (lines 159-161): [this._lastRateLimit || null] *)

Definition getRateLimit (self : ShieldIntegration) : option RateLimitInfo :=
  match _lastRateLimit self with
  | Some rl => Some rl
  | None => None
  end.

(** *** [checkUser] (lines 174-190) *)

(** [throw new Error(message)] *)
Definition throw_new_Error {A} (message : value) : M A :=
  let* e := lift (new_Error message) in throw e.

(** [throw new Error(`${prefix}${error.message}`)] *)
Definition rethrow {A} (prefix : string) (caught : thrown) : M A :=
  let* text := lift (ToString (thrown_message caught)) in
  throw (ErrorObject Error (prefix +:+ text)).

Definition checkUser (userId : value) : M value :=
  if negb (ToBoolean userId)
  then throw (ErrorObject Error "User ID is required")
  else
    try_catch
      (let* response := _request "POST" "/api/v1/shield/check"
                          (VObj {["userId" := userId]}) in
       let* success := lift (Get (resp_body response) "success") in
       if negb (ToBoolean success)
       then
         let* err := lift (Get (resp_body response) "error") in
         throw_new_Error (or_else err (VStr "Failed to check user"))
       else lift (Get (resp_body response) "data"))
      (rethrow "Failed to check user: ").

(** *** [reportAction] (lines 214-238) *)

Definition required : list string :=
  ["userId"; "guildId"; "actionType"; "reason"; "moderatorId"].

Definition validActions : list string :=
  ["ban"; "kick"; "timeout"; "mute"; "warn"; "unban"; "untimeout"; "unmute";
   "remove_warning"].

(** [validActions.includes(v)]: strict equality with one of the strings. *)
Definition includes (haystack : list string) (v : value) : bool :=
  match v with
  | VStr s => bool_decide (s ∈ haystack)
  | _ => false
  end.

(** The loop of lines 216-220. *)
Fixpoint check_required (fields : list string) (actionData : value) : M unit :=
  match fields with
  | [] => ret tt
  | field :: rest =>
      let* v := lift (Get actionData field) in
      if negb (ToBoolean v)
      then throw (ErrorObject Error (field +:+ " is required"))
      else check_required rest actionData
  end.

Definition reportAction (actionData : value) : M NormalizedResponse :=
  check_required required actionData;;
  let* actionType := lift (Get actionData "actionType") in
  if negb (includes validActions actionType)
  then throw (ErrorObject Error
                ("Invalid action type. Must be one of: " +:+ join ", " validActions))
  else
    try_catch
      (let* response := _request "POST" "/api/v1/shield/report-action" actionData in
       let* success := lift (Get (resp_body response) "success") in
       if negb (ToBoolean success)
       then
         let* err := lift (Get (resp_body response) "error") in
         throw_new_Error (or_else err (VStr "Failed to report action"))
       else ret response)
      (rethrow "Failed to report action: ").

(** *** [getNetworkStats] (lines 248-260) *)

Definition getNetworkStats : M value :=
  try_catch
    (let* response := _request "GET" "/api/v1/shield/stats" VUndefined in
     let* success := lift (Get (resp_body response) "success") in
     if negb (ToBoolean success)
     then
       let* err := lift (Get (resp_body response) "error") in
       throw_new_Error (or_else err (VStr "Failed to get network stats"))
     else lift (Get (resp_body response) "data"))
    (rethrow "Failed to get network stats: ").

(** *** [verifyApiKey] (lines 266-273) *)

Definition verifyApiKey : M bool :=
  try_catch (getNetworkStats;; ret true) (fun _ => ret false).

End Client.

(** ** Sessions: a client and the calls made on it *)

Section Sessions.
Context `{Host}.
Variable service : nat -> ClientRequest -> terminal_event.

Inductive call :=
| CheckUser (userId : value)
| ReportAction (actionData : value)
| GetNetworkStats
| VerifyApiKey.

(** The machine after one call has settled, whatever its outcome. *)
Definition perform (c : call) (m : Machine) : Machine :=
  match c with
  | CheckUser userId => snd (checkUser service userId m)
  | ReportAction actionData => snd (reportAction service actionData m)
  | GetNetworkStats => snd (getNetworkStats service m)
  | VerifyApiKey => snd (verifyApiKey service m)
  end.

Definition perform_all (calls : list call) (m : Machine) : Machine :=
  fold_left (fun m c => perform c m) calls m.

End Sessions.

(** ** Induction on values, through the elements of arrays *)

Section Value_induction.
Context `{Numbers}.
Variable P : value -> Prop.
Hypothesis case_undefined : P VUndefined.
Hypothesis case_null : P VNull.
Hypothesis case_bool : forall b, P (VBool b).
Hypothesis case_num : forall n, P (VNum n).
Hypothesis case_str : forall s, P (VStr s).
Hypothesis case_arr : forall elems, Forall P elems -> P (VArr elems).
Hypothesis case_obj : forall props, P (VObj props).

Fixpoint value_nested_ind (v : value) : P v :=
  match v with
  | VUndefined => case_undefined
  | VNull => case_null
  | VBool b => case_bool b
  | VNum n => case_num n
  | VStr s => case_str s
  | VArr elems =>
      case_arr elems
        ((fix all (l : list value) : Forall P l :=
            match l with
            | [] => @List.Forall_nil _ P
            | e :: rest =>
                @List.Forall_cons _ P e rest (value_nested_ind e) (all rest)
            end) elems)
  | VObj props => case_obj props
  end.

End Value_induction.

(** ** Effects of a computation *)

Section Effects.
Context `{Host}.

(** [c] leaves the machine as it found it. *)
Definition pure {A} (c : M A) : Prop :=
  forall m, snd (c m) = m.

(** [c] never assigns a field of the client object. *)
Definition keeps_this {A} (c : M A) : Prop :=
  forall m, this (snd (c m)) = this m.

(** [c] never calls [client.request]. *)
Definition offline {A} (c : M A) : Prop :=
  forall m, wire (snd (c m)) = wire m.

End Effects.

(** ** Observations on machines *)

Section Observations.
Context `{Host}.

(** [c] writes nothing to the console of a client whose [debug] is
    falsy. *)
Definition hushed {A} (c : M A) : Prop :=
  forall m, ToBoolean (debug (this m)) = false -> console (snd (c m)) = console m.

(** Two machines that differ at most in [debug] and in what the console
    holds. *)
Definition same_setup (m m' : Machine) : Prop :=
  apiKey (this m) = apiKey (this m')
  /\ apiUrl (this m) = apiUrl (this m')
  /\ timeout (this m) = timeout (this m')
  /\ version (this m) = version (this m')
  /\ _lastRateLimit (this m) = _lastRateLimit (this m')
  /\ wire m = wire m'.

(** [c] does the same on two such machines: same outcome, same calls of
    [client.request]. *)
Definition debug_blind {A} (c : M A) : Prop :=
  forall m m',
    same_setup m m' ->
    fst (c m) = fst (c m') /\ same_setup (snd (c m)) (snd (c m')).

(** The headers of every request of a client. *)
Definition request_headers (self : ShieldIntegration) : list (string * value) :=
  [("Content-Type", VStr "application/json");
   ("x-api-key", apiKey self);
   ("User-Agent", VStr ("Elysium-Shield-SDK/" +:+ version self))].

(** The report passes the two validations of [reportAction]. *)
Definition valid_report (actionData : value) : Prop :=
  (forall f, f ∈ required ->
     exists v, Get actionData f = Normal v /\ ToBoolean v = true)
  /\ exists s, Get actionData "actionType" = Normal (VStr s) /\ s ∈ validActions.

(** [c] returns the same result on every machine and leaves it alone. *)
Definition constant {A} (c : M A) : Prop :=
  exists r, forall m, c m = (r, m).

End Observations.

(** ** Two callers from EXAMPLES.md

    [checkUserWithRetry] (section Graceful rate limit handling) and
    [retryWithBackoff] (section Retry with exponential backoff), with
    [maxRetries] a natural number.  The state of a caller is the machine
    of the client, the lines the caller itself prints, in order, and the
    delays it has waited for, in milliseconds. *)

Section Callers.
Context `{Host}.
Variable service : nat -> ClientRequest -> terminal_event.

Inductive notice :=
| RateLimited (retryAfter : intnum) (attempt maxRetries : nat)
| Retry (attempt maxRetries : nat) (delay : Z).

Record App := {
  machine : Machine;
  printed : list notice;
  slept : list intnum
}.

Definition with_machine (m : Machine) (app : App) : App :=
  {| machine := m; printed := printed app; slept := slept app |}.

(** [console.log(...)] of the caller *)
Definition print (line : notice) (app : App) : App :=
  {| machine := machine app;
     printed := printed app ++ [line];
     slept := slept app |}.

(** [await new Promise(resolve => setTimeout(resolve, delay))] *)
Definition sleep (delay : intnum) (app : App) : App :=
  {| machine := machine app;
     printed := printed app;
     slept := slept app ++ [delay] |}.

(** [error.statusCode === code] *)
Definition status_is (error : thrown) (code : Z) : bool :=
  match thrown_statusCode error with
  | Some c => c =? code
  | None => false
  end.

(** [error.rateLimit?.retryAfter || 60] *)
Definition retry_after (error : thrown) : intnum :=
  match thrown_rateLimit error with
  | Some rl =>
      match retryAfter rl with
      | Some (Int z) => if z =? 0 then Int 60 else Int z
      | Some (Infinity negative) => Infinity negative
      | Some NaN | Some MinusZero | None => Int 60
      end
  | None => Int 60
  end.

(** The loop of [checkUserWithRetry], entered with [attempt] and
    [maxRetries + 1 - attempt] iterations to go. *)
Fixpoint attempts_from (togo attempt maxRetries : nat) (userId : value)
    (app : App) : completion value * App :=
  match togo with
  | O => (Normal VUndefined, app)
  | S togo' =>
      match checkUser service userId (machine app) with
      | (Normal result, m') => (Normal result, with_machine m' app)
      | (Throw error, m') =>
          if status_is error 429
          then
            let retryAfter := retry_after error in
            let app' := print (RateLimited retryAfter attempt maxRetries)
                          (with_machine m' app) in
            if (attempt <? maxRetries)%nat
            then attempts_from togo' (S attempt) maxRetries userId
                   (sleep (times_1000 retryAfter) app')
            else (Throw (ErrorObject Error "Max retries reached"), app')
          else (Throw error, with_machine m' app)
      end
  end.

Definition checkUserWithRetry (userId : value) (maxRetries : nat) (app : App)
    : completion value * App :=
  attempts_from maxRetries 1 maxRetries userId app.

(** The loop of [retryWithBackoff], entered with [i] and
    [maxRetries - i] iterations to go.  [fn] is an operation on the
    client. *)
Fixpoint backoff_from (togo i maxRetries : nat) (fn : M value) (app : App)
    : completion value * App :=
  match togo with
  | O => (Normal VUndefined, app)
  | S togo' =>
      match fn (machine app) with
      | (Normal result, m') => (Normal result, with_machine m' app)
      | (Throw error, m') =>
          if (i =? maxRetries - 1)%nat
          then (Throw error, with_machine m' app)
          else
            let delay := 2 ^ Z.of_nat i * 1000 in
            backoff_from togo' (S i) maxRetries fn
              (sleep (Int delay)
                 (print (Retry (S i) maxRetries delay) (with_machine m' app)))
      end
  end.

Definition retryWithBackoff (fn : M value) (maxRetries : nat) (app : App)
    : completion value * App :=
  backoff_from maxRetries 0 maxRetries fn app.

(** The machine after [n] calls of [fn] in a row. *)
Fixpoint repeated (fn : M value) (n : nat) (m : Machine) : Machine :=
  match n with
  | O => m
  | S n' => repeated fn n' (snd (fn m))
  end.

End Callers.

(** ** A test double for the host

    Integers for the numbers, a printer for [JSON.stringify], and a
    [JSON.parse] that recognises the bodies printed from a fixed corpus and
    rejects every other text.  The scenarios below instantiate the
    theorems at concrete round trips. *)

Definition fixture_numbers : Numbers :=
  {| number := Z;
     number_of_Z := fun z => z;
     number_truthy := fun z => negb (z =? 0);
     number_toString := decimal;
     number_truthy_of_Z := fun z => eq_refl |}.

Section Fixture.
#[local] Existing Instance fixture_numbers.

Definition quote : string := String "034"%char "".

Fixpoint render (depth : nat) (v : value) : string :=
  match depth with
  | O => ""
  | S d =>
      match v with
      | VUndefined => ""
      | VNull => "null"
      | VBool true => "true"
      | VBool false => "false"
      | VNum z => decimal z
      | VStr s => quote +:+ s +:+ quote
      | VArr elems => "[" +:+ join "," (map (render d) elems) +:+ "]"
      | VObj props =>
          "{" +:+ join "," (map (fun kv => quote +:+ fst kv +:+ quote +:+ ":"
                                           +:+ render d (snd kv))
                                (map_to_list props)) +:+ "}"
      end
  end.

Definition data_check_ok : value :=
  VObj (<["userId" := VStr "123456789"]>
        (<["flagged" := VBool false]> (<["trustScore" := VNum 50]> ∅))).

Definition body_check_ok : value :=
  VObj (<["success" := VBool true]> (<["data" := data_check_ok]> ∅)).

Definition body_check_refused : value :=
  VObj (<["success" := VBool false]> (<["error" := VStr "User not found"]> ∅)).

Definition body_rate_limited : value :=
  VObj (<["error" := VStr "Rate limit exceeded"]> ∅).

Definition body_unauthorized : value :=
  VObj (<["error" := VStr "Invalid API key"]> ∅).

Definition data_stats : value :=
  VObj (<["participatingServers" := VNum 10]> (<["threatsDetected" := VNum 0]> ∅)).

Definition body_stats : value :=
  VObj (<["success" := VBool true]> (<["data" := data_stats]> ∅)).

Definition corpus : list value :=
  [body_check_ok; body_check_refused; body_rate_limited; body_unauthorized;
   body_stats; VNull].

Definition fixture_parse (text : string) : completion value :=
  match find (fun v => String.eqb (render 4 v) text) corpus with
  | Some v => Normal v
  | None => Throw (ErrorObject SyntaxError "Unexpected token < in JSON at position 0")
  end.

Fixpoint until_slash (s : string) : string :=
  match s with
  | String "/" _ => ""
  | String c rest => String c (until_slash rest)
  | EmptyString => ""
  end.

(** Resolution of an absolute path against an [http] or [https] base. *)
Definition fixture_URL (endpoint : string) (base : value) : completion URL :=
  match base with
  | VStr b =>
      if String.prefix "https://" b
      then Normal {| href := "https://" +:+ until_slash (String.substring 8 (String.length b) b)
                             +:+ endpoint;
                     protocol := "https:" |}
      else if String.prefix "http://" b
      then Normal {| href := "http://" +:+ until_slash (String.substring 7 (String.length b) b)
                             +:+ endpoint;
                     protocol := "http:" |}
      else Throw (ErrorObject TypeError "Invalid URL")
  | _ => Throw (ErrorObject TypeError "Invalid URL")
  end.

Definition fixture_host : Host :=
  {| JSON_parse := fixture_parse;
     JSON_stringify := render 4;
     URL_new := fixture_URL;
     msg_read_nullish := fun v key =>
       "Cannot read properties of "
       +:+ match v with VNull => "null" | _ => "undefined" end
       +:+ " (reading '" +:+ key +:+ "')";
     msg_to_primitive := "Cannot convert object to primitive value";
     msg_invalid_time := "Invalid time value";
     msg_socket_hang_up := "socket hang up" |}.

#[local] Existing Instance fixture_host.

(** A service that answers every request with the same event. *)
Definition always (ev : terminal_event) : nat -> ClientRequest -> terminal_event :=
  fun _ _ => ev.

Definition default_client : ShieldIntegration :=
  {| apiKey := VStr "sk_live_0123456789";
     apiUrl := VStr "https://elysium-online.xyz/api";
     timeout := VNum 10000;
     debug := VBool false;
     version := "1.0.0";
     _lastRateLimit := None |}.

(** The machine right after [new ShieldIntegration('sk_live_0123456789')]. *)
Definition fresh : Machine :=
  {| this := default_client; console := []; wire := [] |}.

(** 429 with [x-ratelimit-remaining: 0], [retry-after: 42] and a JSON body. *)
Definition response_429 : IncomingMessage :=
  {| res_statusCode := 429;
     res_headers := <["x-ratelimit-remaining" := "0"]> (<["retry-after" := "42"]> ∅);
     res_chunks := [render 4 body_rate_limited] |}.

(** The same status and headers in front of a proxy's HTML page. *)
Definition response_429_html : IncomingMessage :=
  {| res_statusCode := 429;
     res_headers := <["x-ratelimit-remaining" := "0"]> (<["retry-after" := "42"]> ∅);
     res_chunks := ["<html><body>"; "429 Too Many Requests</body></html>"] |}.

(** 200 with three rate-limit headers and the statistics body. *)
Definition response_200_stats : IncomingMessage :=
  {| res_statusCode := 200;
     res_headers := <["x-ratelimit-limit" := "30"]>
                    (<["x-ratelimit-remaining" := "27"]>
                     (<["x-ratelimit-reset" := "1763566621"]> ∅));
     res_chunks := [render 4 body_stats] |}.

(** 200 with no rate-limit header. *)
Definition response_200_check : IncomingMessage :=
  {| res_statusCode := 200;
     res_headers := <["content-type" := "application/json"]> ∅;
     res_chunks := [render 4 body_check_ok] |}.

(** 200 around a body that is not JSON. *)
Definition response_200_html : IncomingMessage :=
  {| res_statusCode := 200;
     res_headers := ∅;
     res_chunks := ["<html>"; "maintenance</html>"] |}.

(** 200 with [success: false]. *)
Definition response_200_refused : IncomingMessage :=
  {| res_statusCode := 200;
     res_headers := ∅;
     res_chunks := [render 4 body_check_refused] |}.

(** A complete, valid action report. *)
Definition report_fields : gmap string value :=
  <["userId" := VStr "123456789"]>
  (<["guildId" := VStr "987654321"]>
   (<["actionType" := VStr "ban"]>
    (<["reason" := VStr "Spam"]>
     (<["moderatorId" := VStr "111222333"]> ∅)))).

(** [{ timeout: 0, apiUrl: '', debug: false }] *)
Definition falsy_options : gmap string value :=
  <["timeout" := VNum 0]> (<["apiUrl" := VStr ""]> (<["debug" := VBool false]> ∅)).

(** The fresh client with [debug: true]. *)
Definition verbose : Machine :=
  {| this := {| apiKey := apiKey default_client;
                apiUrl := apiUrl default_client;
                timeout := timeout default_client;
                debug := VBool true;
                version := version default_client;
                _lastRateLimit := None |};
     console := [("[Shield SDK] Shield Integration initialized",
                  LogInit (apiUrl default_client))];
     wire := [] |}.

(** 401 with a JSON body that has an [error] and no [message]. *)
Definition response_401 : IncomingMessage :=
  {| res_statusCode := 401;
     res_headers := ∅;
     res_chunks := [render 4 body_unauthorized] |}.

(** 200 with a good body and a reset header that is not a number. *)
Definition response_200_bad_reset : IncomingMessage :=
  {| res_statusCode := 200;
     res_headers := <["x-ratelimit-reset" := "soon"]> ∅;
     res_chunks := [render 4 body_check_ok] |}.

(** Five calls: a check, a report, the statistics, the probe, and a check
    with an empty [userId]. *)
Definition session : list call :=
  [CheckUser (VStr "123456789"); ReportAction (VObj report_fields);
   GetNetworkStats; VerifyApiKey; CheckUser (VStr "")].

(** A caller that has printed nothing and waited for nothing. *)
Definition app0 : App :=
  {| machine := fresh; printed := []; slept := [] |}.

(** [new ShieldIntegration(key, 5000)]: a number where the options go. *)
Definition number_as_options : value := VNum 5000.

(** 200 with a good body and a reset one second past the range of
    [Date]. *)
Definition response_200_late_reset : IncomingMessage :=
  {| res_statusCode := 200;
     res_headers := <["x-ratelimit-reset" := "8640000000001"]> ∅;
     res_chunks := [render 4 body_check_ok] |}.

(** 429 with the two counters, a JSON body and a reset header that is not
    a number. *)
Definition response_429_bad_reset : IncomingMessage :=
  {| res_statusCode := 429;
     res_headers := <["x-ratelimit-remaining" := "0"]>
                    (<["retry-after" := "42"]>
                     (<["x-ratelimit-reset" := "soon"]> ∅));
     res_chunks := [render 4 body_rate_limited] |}.

(** What the headers of [response_200_stats] say. *)
Definition snapshot_stats : RateLimitInfo :=
  {| limit := Some (Int 30);
     remaining := Some (Int 27);
     resetAt := Some "2025-11-19T15:37:01.000Z";
     resetTimestamp := Some (Int 1763566621);
     retryAfter := None |}.

End Fixture.

(** * Properties *)

Ltac reduce_negb :=
  change (negb true) with false; change (negb false) with true; cbv iota.

Section Monad_laws.
Context `{Host}.

Lemma pure_ret {A} (a : A) : pure (ret a).
Proof. intros m. reflexivity. Qed.

Lemma pure_throw {A} (t : thrown) : pure (@throw _ A t).
Proof. intros m. reflexivity. Qed.

Lemma pure_lift {A} (c : completion A) : pure (lift c).
Proof. intros m. reflexivity. Qed.

Lemma pure_mbind {A B} (c : M A) (k : A -> M B) :
  pure c -> (forall a, pure (k a)) -> pure (mbind c k).
Proof.
  intros Hc Hk m. unfold mbind. specialize (Hc m).
  destruct (c m) as [[a|t] m']; simpl in *; subst; [apply Hk | reflexivity].
Qed.

Lemma pure_throw_new_Error {A} (v : value) : pure (@throw_new_Error _ _ A v).
Proof. apply pure_mbind; [apply pure_lift | intros; apply pure_throw]. Qed.

Lemma pure_rethrow {A} (prefix : string) (t : thrown) :
  pure (@rethrow _ _ A prefix t).
Proof. apply pure_mbind; [apply pure_lift | intros; apply pure_throw]. Qed.

Lemma pure_check_required (fields : list string) (actionData : value) :
  pure (check_required fields actionData).
Proof.
  induction fields as [|f rest IH]; [apply pure_ret |].
  simpl. apply pure_mbind; [apply pure_lift |].
  intros v. destruct (negb (ToBoolean v)); [apply pure_throw | exact IH].
Qed.

Lemma pure_keeps_this {A} (c : M A) : pure c -> keeps_this c.
Proof. intros Hc m. now rewrite Hc. Qed.

Lemma pure_offline {A} (c : M A) : pure c -> offline c.
Proof. intros Hc m. now rewrite Hc. Qed.

Lemma keeps_this_mbind {A B} (c : M A) (k : A -> M B) :
  keeps_this c -> (forall a, keeps_this (k a)) -> keeps_this (mbind c k).
Proof.
  intros Hc Hk m. unfold mbind. specialize (Hc m).
  destruct (c m) as [[a|t] m']; simpl in *; [now rewrite Hk | exact Hc].
Qed.

Lemma keeps_this_try_catch {A} (body : M A) (handler : thrown -> M A) :
  keeps_this body -> (forall t, keeps_this (handler t)) ->
  keeps_this (try_catch body handler).
Proof.
  intros Hb Hh m. unfold try_catch. specialize (Hb m).
  destruct (body m) as [[a|t] m']; simpl in *; [exact Hb | now rewrite Hh].
Qed.

Lemma keeps_this_log (s : string) (d : log_data) : keeps_this (_log s d).
Proof. intros m. unfold _log. now destruct (ToBoolean (debug (this m))). Qed.

Lemma log_result (s : string) (d : log_data) (m : Machine) :
  _log s d m = (Normal tt, snd (_log s d m)).
Proof. unfold _log. now destruct (ToBoolean (debug (this m))). Qed.

Lemma offline_log (s : string) (d : log_data) : offline (_log s d).
Proof. intros m. unfold _log. now destruct (ToBoolean (debug (this m))). Qed.

Lemma keeps_this_on_end_try (res : IncomingMessage) : keeps_this (on_end_try res).
Proof.
  unfold on_end_try.
  apply keeps_this_mbind; [apply pure_keeps_this, pure_lift | intros response].
  apply keeps_this_mbind; [apply pure_keeps_this, pure_lift | intros rl].
  destruct (_ && _).
  - apply keeps_this_mbind; [apply keeps_this_log |].
    intros _. apply pure_keeps_this, pure_ret.
  - apply keeps_this_mbind; [apply keeps_this_log | intros _].
    apply pure_keeps_this.
    apply pure_mbind; [apply pure_lift | intros msg].
    apply pure_mbind; [apply pure_lift | intros err]. apply pure_ret.
Qed.

Lemma offline_on_end_try (res : IncomingMessage) : offline (on_end_try res).
Proof.
  intros m. unfold on_end_try, mbind, lift, ret.
  destruct (JSON_parse _); [|reflexivity].
  destruct (extract_rate_limit _); [|reflexivity].
  destruct (_ && _).
  - pose proof (offline_log "Request successful"
                  (LogSuccess (res_statusCode res) a0) m) as E.
    destruct (_log _ _ m) as [[[]|t] m']; exact E.
  - match goal with |- context [_log ?s ?d m] =>
      pose proof (offline_log s d m) as E; destruct (_log s d m) as [[[]|t] m']
    end; [|exact E].
    destruct (Get a "message"); [|exact E].
    destruct (Get a "error"); exact E.
Qed.

Lemma on_end_this (res : IncomingMessage) (m : Machine) :
  this (snd (on_end res m)) = this m.
Proof.
  unfold on_end. pose proof (keeps_this_on_end_try res m) as E.
  destruct (on_end_try res m) as [[s|t] m']; exact E.
Qed.

Lemma on_end_wire (res : IncomingMessage) (m : Machine) :
  wire (snd (on_end res m)) = wire m.
Proof.
  unfold on_end. pose proof (offline_on_end_try res m) as E.
  destruct (on_end_try res m) as [[s|t] m']; exact E.
Qed.

End Monad_laws.

Section Request_effects.
Context `{Host}.
Variable service : nat -> ClientRequest -> terminal_event.

Lemma keeps_this_request (method endpoint : string) (data : value) :
  keeps_this (_request service method endpoint data).
Proof.
  intros m. unfold _request.
  destruct (URL_new endpoint (apiUrl (this m))) as [url|t]; [|reflexivity].
  match goal with |- context [_log ?s ?d m] =>
    pose proof (keeps_this_log s d m) as E1; set (m1 := snd (_log s d m)) in *
  end.
  match goal with |- context [sent ?r m1] => set (req := r) end.
  destruct (service (length (wire m1)) req) as [res|msg| |cls msg].
  - pose proof (on_end_this res (sent req m1)) as E2.
    destruct (on_end res (sent req m1)) as [s m3]. simpl in *. congruence.
  - simpl. rewrite keeps_this_log. exact E1.
  - destruct (ToString (timeout (this m))); [|exact E1].
    simpl. rewrite keeps_this_log. exact E1.
  - exact E1.
Qed.

(** A call of [_request] whose URL resolves calls [client.request] once,
    whatever the outcome. *)
Lemma request_wire (method endpoint : string) (data : value) (m : Machine)
    (url : URL) :
  URL_new endpoint (apiUrl (this m)) = Normal url ->
  exists req,
    wire (snd (_request service method endpoint data m)) = wire m ++ [req]
    /\ req_method req = method
    /\ req_url req = url
    /\ req_https req = String.eqb (protocol url) "https:"
    /\ req_headers req =
         [("Content-Type", VStr "application/json");
          ("x-api-key", apiKey (this m));
          ("User-Agent", VStr ("Elysium-Shield-SDK/" +:+ version (this m)))]
    /\ req_timeout req = timeout (this m)
    /\ req_body req =
         (let data := match data with VUndefined => VNull | _ => data end in
          if ToBoolean data then Some (JSON_stringify data) else None).
Proof.
  intros Hurl. unfold _request. rewrite Hurl.
  match goal with |- context [_log ?s ?d m] =>
    pose proof (offline_log s d m) as E1; set (m1 := snd (_log s d m)) in *
  end.
  match goal with |- context [sent ?r m1] => set (req := r) end.
  exists req. split; [|repeat split].
  destruct (service (length (wire m1)) req) as [res|msg| |cls msg].
  - pose proof (on_end_wire res (sent req m1)) as E2.
    destruct (on_end res (sent req m1)) as [s m3]. simpl in *. congruence.
  - simpl. rewrite offline_log. simpl. congruence.
  - destruct (ToString (timeout (this m))); simpl; rewrite ?offline_log;
      simpl; congruence.
  - simpl. congruence.
Qed.

(** With a base URL that [new URL] rejects, nothing is sent. *)
Lemma request_invalid_url (method endpoint : string) (data : value)
    (m : Machine) (t : thrown) :
  URL_new endpoint (apiUrl (this m)) = Throw t ->
  _request service method endpoint data m = (Throw t, m).
Proof. intros Hurl. unfold _request. now rewrite Hurl. Qed.

Lemma keeps_this_checkUser (userId : value) :
  keeps_this (checkUser service userId).
Proof.
  unfold checkUser. destruct (negb (ToBoolean userId)).
  - apply pure_keeps_this, pure_throw.
  - apply keeps_this_try_catch.
    + apply keeps_this_mbind; [apply keeps_this_request | intros response].
      apply pure_keeps_this.
      apply pure_mbind; [apply pure_lift | intros success].
      destruct (negb (ToBoolean success)); [|apply pure_lift].
      apply pure_mbind; [apply pure_lift | intros; apply pure_throw_new_Error].
    + intros t. apply pure_keeps_this, pure_rethrow.
Qed.

Lemma keeps_this_reportAction (actionData : value) :
  keeps_this (reportAction service actionData).
Proof.
  unfold reportAction.
  apply keeps_this_mbind; [apply pure_keeps_this, pure_check_required | intros _].
  apply keeps_this_mbind; [apply pure_keeps_this, pure_lift | intros actionType].
  destruct (negb (includes validActions actionType)).
  - apply pure_keeps_this, pure_throw.
  - apply keeps_this_try_catch.
    + apply keeps_this_mbind; [apply keeps_this_request | intros response].
      apply pure_keeps_this.
      apply pure_mbind; [apply pure_lift | intros success].
      destruct (negb (ToBoolean success)); [|apply pure_ret].
      apply pure_mbind; [apply pure_lift | intros; apply pure_throw_new_Error].
    + intros t. apply pure_keeps_this, pure_rethrow.
Qed.

Lemma keeps_this_getNetworkStats : keeps_this (getNetworkStats service).
Proof.
  unfold getNetworkStats. apply keeps_this_try_catch.
  - apply keeps_this_mbind; [apply keeps_this_request | intros response].
    apply pure_keeps_this.
    apply pure_mbind; [apply pure_lift | intros success].
    destruct (negb (ToBoolean success)); [|apply pure_lift].
    apply pure_mbind; [apply pure_lift | intros; apply pure_throw_new_Error].
  - intros t. apply pure_keeps_this, pure_rethrow.
Qed.

Lemma keeps_this_verifyApiKey : keeps_this (verifyApiKey service).
Proof.
  unfold verifyApiKey. apply keeps_this_try_catch.
  - apply keeps_this_mbind; [apply keeps_this_getNetworkStats |].
    intros _. apply pure_keeps_this, pure_ret.
  - intros _. apply pure_keeps_this, pure_ret.
Qed.

Lemma perform_this (c : call) (m : Machine) :
  this (perform service c m) = this m.
Proof.
  destruct c; simpl.
  - apply keeps_this_checkUser.
  - apply keeps_this_reportAction.
  - apply keeps_this_getNetworkStats.
  - apply keeps_this_verifyApiKey.
Qed.

Lemma perform_all_this (calls : list call) (m : Machine) :
  this (perform_all service calls m) = this m.
Proof.
  revert m. induction calls as [|c rest IH]; intros m; [reflexivity |].
  change (perform_all service (c :: rest) m)
    with (perform_all service rest (perform service c m)).
  rewrite IH. apply perform_this.
Qed.

Lemma constructor_lastRateLimit (key options : value)
    (console0 : list (string * log_data)) (wire0 : list ClientRequest)
    (m : Machine) :
  constructor key options console0 wire0 = Normal m ->
  _lastRateLimit (this m) = None.
Proof.
  unfold constructor. destruct (negb (ToBoolean key)); [discriminate |].
  destruct (Get _ "apiUrl"); [|discriminate].
  destruct (Get _ "timeout"); [|discriminate].
  destruct (Get _ "debug"); [|discriminate].
  simpl. intros [= <-]. now rewrite keeps_this_log.
Qed.

End Request_effects.


(** ** The public operations *)

Section Public_operations.
Context `{Host}.
Variable service : nat -> ClientRequest -> terminal_event.

(** After [_request], the rest of a public operation only computes. *)
Lemma tail_machine {A B} (c : M A) (k : A -> M B) (h : thrown -> M B)
    (m : Machine) :
  (forall a, pure (k a)) -> (forall t, pure (h t)) ->
  snd (try_catch (mbind c k) h m) = snd (c m).
Proof.
  intros Hk Hh. unfold try_catch, mbind.
  destruct (c m) as [[a|t] m1]; simpl.
  - specialize (Hk a m1). destruct (k a m1) as [[b|t] m2]; simpl in *.
    + exact Hk.
    + subst. apply Hh.
  - apply Hh.
Qed.

Lemma checkUser_empty (userId : value) (m : Machine) :
  ToBoolean userId = false ->
  checkUser service userId m
  = (Throw (ErrorObject Error "User ID is required"), m).
Proof. intros Hu. unfold checkUser. now rewrite Hu. Qed.

Lemma checkUser_one_request (userId : value) (m : Machine) (url : URL) :
  ToBoolean userId = true ->
  URL_new "/api/v1/shield/check" (apiUrl (this m)) = Normal url ->
  exists req,
    wire (snd (checkUser service userId m)) = wire m ++ [req]
    /\ req_method req = "POST"
    /\ req_url req = url
    /\ req_body req = Some (JSON_stringify (VObj {["userId" := userId]})).
Proof.
  intros Hu Hurl. unfold checkUser. rewrite Hu. reduce_negb.
  rewrite tail_machine.
  - destruct (request_wire service "POST" "/api/v1/shield/check"
                (VObj {["userId" := userId]}) m url Hurl)
      as (req & Hw & Hm & Hq & _ & _ & _ & Hb).
    exists req. repeat split; assumption.
  - intros response. apply pure_mbind; [apply pure_lift | intros success].
    destruct (negb (ToBoolean success)); [|apply pure_lift].
    apply pure_mbind; [apply pure_lift | intros; apply pure_throw_new_Error].
  - intros t. apply pure_rethrow.
Qed.

Lemma checkUser_refused (userId : value) (m m' : Machine)
    (response : NormalizedResponse) (success err : value) (text : string) :
  ToBoolean userId = true ->
  _request service "POST" "/api/v1/shield/check" (VObj {["userId" := userId]}) m
  = (Normal response, m') ->
  Get (resp_body response) "success" = Normal success ->
  ToBoolean success = false ->
  Get (resp_body response) "error" = Normal err ->
  ToString (or_else err (VStr "Failed to check user")) = Normal text ->
  checkUser service userId m
  = (Throw (ErrorObject Error ("Failed to check user: " +:+ text)), m').
Proof.
  intros Hu Hr Hs Hf He Ht. unfold checkUser. rewrite Hu. reduce_negb.
  unfold try_catch, mbind at 1. rewrite Hr.
  unfold mbind at 1, lift at 1. rewrite Hs, Hf. reduce_negb.
  unfold mbind at 1, lift at 1. rewrite He.
  unfold throw_new_Error, mbind, lift, new_Error. rewrite Ht. simpl.
  reflexivity.
Qed.

Lemma checkUser_data (userId : value) (m m' : Machine)
    (response : NormalizedResponse) (success : value) :
  ToBoolean userId = true ->
  _request service "POST" "/api/v1/shield/check" (VObj {["userId" := userId]}) m
  = (Normal response, m') ->
  Get (resp_body response) "success" = Normal success ->
  ToBoolean success = true ->
  exists data,
    Get (resp_body response) "data" = Normal data
    /\ checkUser service userId m = (Normal data, m').
Proof.
  intros Hu Hr Hs Ht.
  assert (Hd : exists data, Get (resp_body response) "data" = Normal data).
  { destruct (resp_body response); try discriminate; simpl; eauto. }
  destruct Hd as [data Hd]. exists data. split; [exact Hd |].
  unfold checkUser. rewrite Hu. reduce_negb.
  unfold try_catch, mbind at 1. rewrite Hr.
  unfold mbind, lift. rewrite Hs, Ht, Hd. reduce_negb. reflexivity.
Qed.

(** With a base URL that [new URL] rejects, [checkUser] fails before
    anything is sent. *)
Lemma checkUser_invalid_url (userId : value) (m : Machine) (cls : error_class)
    (msg : string) :
  ToBoolean userId = true ->
  URL_new "/api/v1/shield/check" (apiUrl (this m)) = Throw (ErrorObject cls msg) ->
  checkUser service userId m
  = (Throw (ErrorObject Error ("Failed to check user: " +:+ msg)), m).
Proof.
  intros Hu Hurl. unfold checkUser. rewrite Hu. reduce_negb.
  unfold try_catch, mbind at 1.
  now rewrite (request_invalid_url service _ _ _ _ _ Hurl).
Qed.


Lemma check_required_first_missing (before : list string) (field : string)
    (after : list string) (props : gmap string value) (m : Machine) :
  (forall f, f ∈ before -> ToBoolean (default VUndefined (props !! f)) = true) ->
  ToBoolean (default VUndefined (props !! field)) = false ->
  check_required (before ++ field :: after) (VObj props) m
  = (Throw (ErrorObject Error (field +:+ " is required")), m).
Proof.
  induction before as [|f rest IH]; intros Hbefore Hfield; simpl.
  - unfold mbind, lift. simpl. now rewrite Hfield.
  - unfold mbind at 1, lift at 1. simpl.
    rewrite (Hbefore f) by constructor. reduce_negb.
    apply IH; [|exact Hfield]. intros g Hg. apply Hbefore. now constructor.
Qed.

Lemma check_required_pass (fields : list string) (actionData : value)
    (m : Machine) :
  (forall f, f ∈ fields ->
     exists v, Get actionData f = Normal v /\ ToBoolean v = true) ->
  check_required fields actionData m = (Normal tt, m).
Proof.
  induction fields as [|f rest IH]; intros Hall; [reflexivity |].
  simpl. unfold mbind at 1, lift at 1.
  destruct (Hall f) as (v & Hv & Ht); [constructor |].
  rewrite Hv, Ht. reduce_negb. apply IH. intros g Hg. apply Hall. now constructor.
Qed.

(** The error names the first required field that is missing or falsy. *)
Lemma reportAction_first_missing (before : list string) (field : string)
    (after : list string) (props : gmap string value) (m : Machine) :
  required = before ++ field :: after ->
  (forall f, f ∈ before -> ToBoolean (default VUndefined (props !! f)) = true) ->
  ToBoolean (default VUndefined (props !! field)) = false ->
  reportAction service (VObj props) m
  = (Throw (ErrorObject Error (field +:+ " is required")), m).
Proof.
  intros Hsplit Hbefore Hfield. unfold reportAction, mbind at 1.
  rewrite Hsplit. now rewrite check_required_first_missing.
Qed.

Lemma NoDup_required : NoDup required.
Proof. apply (bool_decide_unpack _). vm_compute. exact I. Qed.

Lemma reportAction_omitted (props : gmap string value) (field : string)
    (m : Machine) :
  field ∈ required ->
  (forall f, f ∈ required -> f <> field ->
     ToBoolean (default VUndefined (props !! f)) = true) ->
  reportAction service (VObj (delete field props)) m
  = (Throw (ErrorObject Error (field +:+ " is required")), m).
Proof.
  intros Hin Hothers.
  destruct (list_elem_of_split _ _ Hin) as (before & after & Hsplit).
  assert (Hfresh : field ∉ before).
  { pose proof NoDup_required as Hnd. rewrite Hsplit in Hnd.
    apply NoDup_app in Hnd as (_ & Hnd & _). intros Hb.
    apply (Hnd field Hb). constructor. }
  apply (reportAction_first_missing before field after); [exact Hsplit | |].
  - intros f Hf. assert (f <> field) by (intros ->; contradiction).
    rewrite lookup_delete_ne by congruence.
    apply Hothers; [rewrite Hsplit; apply elem_of_app; now left | assumption].
  - now rewrite lookup_delete_eq.
Qed.

Lemma reportAction_invalid_type (actionData : value) (m : Machine) :
  (forall v, Get actionData "actionType" = Normal v ->
     includes validActions v = false) ->
  exists t,
    reportAction service actionData m = (Throw t, m)
    /\ ((forall f, f ∈ required ->
           exists v, Get actionData f = Normal v /\ ToBoolean v = true) ->
        t = ErrorObject Error
              "Invalid action type. Must be one of: ban, kick, timeout, mute, warn, unban, untimeout, unmute, remove_warning").
Proof.
  intros Hbad. unfold reportAction, mbind at 1.
  pose proof (pure_check_required required actionData m) as Hpure.
  destruct (check_required required actionData m) as [[[]|t] m1] eqn:Hcheck;
    simpl in Hpure; subst m1.
  - unfold mbind at 1, lift at 1.
    destruct (Get actionData "actionType") as [v|t] eqn:Hget.
    + rewrite (Hbad v eq_refl). reduce_negb.
      eexists. split; [reflexivity |]. intros _. reflexivity.
    + eexists. split; [reflexivity |]. intros Hall.
      destruct (Hall "actionType") as (v & Hv & _);
        [unfold required; repeat constructor |].
      congruence.
  - eexists. split; [reflexivity |]. intros Hall.
    rewrite (check_required_pass required actionData m Hall) in Hcheck.
    discriminate.
Qed.

(** C4. [reportAction] validates before it sends.  Taking a complete
    report and omitting one of the five required fields ([userId],
    [guildId], [actionType], [reason], [moderatorId]) fails with the error
    naming that field, [<field> is required], and leaves the machine, its
    trace of requests included, untouched.  Whenever [actionType] is not
    one of the nine valid strings the call fails with the machine
    untouched, and when the five required fields are all present the
    error is the one listing the valid set. *)
Theorem reportAction_validates_first (m : Machine) :
  (forall (props : gmap string value) (field : string),
     field ∈ required ->
     (forall f, f ∈ required -> f <> field ->
        ToBoolean (default VUndefined (props !! f)) = true) ->
     reportAction service (VObj (delete field props)) m
     = (Throw (ErrorObject Error (field +:+ " is required")), m))
  /\ (forall actionData : value,
       (forall v, Get actionData "actionType" = Normal v ->
          includes validActions v = false) ->
       exists t,
         reportAction service actionData m = (Throw t, m)
         /\ ((forall f, f ∈ required ->
                exists v, Get actionData f = Normal v /\ ToBoolean v = true) ->
             t = ErrorObject Error
                   "Invalid action type. Must be one of: ban, kick, timeout, mute, warn, unban, untimeout, unmute, remove_warning")).
Proof.
  split.
  - intros props field. apply reportAction_omitted.
  - intros actionData. apply reportAction_invalid_type.
Qed.

(** [verifyApiKey()] completes normally, with [true] when
    [getNetworkStats] resolves and [false] when it throws. *)
Lemma verifyApiKey_outcome (m : Machine) :
  verifyApiKey service m
  = (Normal (match fst (getNetworkStats service m) with
             | Normal _ => true
             | Throw _ => false
             end),
     snd (getNetworkStats service m)).
Proof.
  unfold verifyApiKey, try_catch, mbind, ret.
  destruct (getNetworkStats service m) as [[data|t] m']; reflexivity.
Qed.

(** In particular a rejected request, whatever rejected it, reads as
    [false]. *)
Lemma verifyApiKey_false_on_rejection (m : Machine) (t : thrown) :
  fst (_request service "GET" "/api/v1/shield/stats" VUndefined m) = Throw t ->
  fst (verifyApiKey service m) = Normal false.
Proof.
  intros Hr. unfold verifyApiKey, getNetworkStats, try_catch, mbind at 1 2.
  destruct (_request service "GET" "/api/v1/shield/stats" VUndefined m)
    as [[response|t0] m1]; [discriminate |].
  unfold rethrow, mbind, lift, throw, ret.
  now destruct (ToString (thrown_message t0)).
Qed.

(** *** Every failure of a public operation is an instance of [Error] *)

Lemma ToString_throws (v : value) (t : thrown) :
  ToString v = Throw t -> t = ErrorObject TypeError msg_to_primitive.
Proof.
  revert t. induction v as [| |b|n|s|elems IH|props] using value_nested_ind;
    intros t; simpl; try discriminate.
  - now destruct b.
  - induction IH as [|e rest He _ IHrest]; simpl; [discriminate |].
    destruct (match e with VUndefined | VNull => Normal "" | _ => ToString e end)
      as [piece|t0] eqn:Hpiece; simpl.
    + destruct (sequence _) as [pieces|t1]; simpl; [discriminate |].
      exact IHrest.
    + intros [= <-]. destruct e; try discriminate; exact (He _ Hpiece).
  - destruct (props !! "toString"); [|discriminate]. now intros [= <-].
Qed.

Lemma rethrow_throws {A} (prefix : string) (caught : thrown) (m : Machine) :
  exists cls msg,
    @rethrow _ _ A prefix caught m = (Throw (ErrorObject cls msg), m).
Proof.
  unfold rethrow, mbind, lift, throw.
  destruct (ToString (thrown_message caught)) as [text|t] eqn:E.
  - now exists Error, (prefix +:+ text).
  - apply ToString_throws in E as ->. now exists TypeError, msg_to_primitive.
Qed.

Lemma check_required_throws (fields : list string) (actionData : value)
    (m m' : Machine) (t : thrown) :
  check_required fields actionData m = (Throw t, m') ->
  exists cls msg, t = ErrorObject cls msg.
Proof.
  induction fields as [|f rest IH]; simpl; [discriminate |].
  unfold mbind at 1, lift at 1.
  destruct (Get actionData f) as [v|t0] eqn:E.
  - destruct (negb (ToBoolean v)); [|exact IH].
    intros [= <- _]. now eexists _, _.
  - intros [= <- _]. destruct actionData; try discriminate;
      injection E as <-; now eexists _, _.
Qed.

(** A [try] block whose handler is [rethrow] fails with an [Error]. *)
Lemma try_rethrow_throws {A} (body : M A) (prefix : string) (m : Machine)
    (t : thrown) :
  fst (try_catch body (rethrow prefix) m) = Throw t ->
  exists cls msg, t = ErrorObject cls msg.
Proof.
  unfold try_catch. destruct (body m) as [[a|t0] m1]; simpl; [discriminate |].
  destruct (@rethrow_throws A prefix t0 m1) as (cls & msg & ->).
  intros [= <-]. now exists cls, msg.
Qed.

Lemma checkUser_throws (userId : value) (m : Machine) (t : thrown) :
  fst (checkUser service userId m) = Throw t ->
  exists cls msg, t = ErrorObject cls msg.
Proof.
  unfold checkUser. destruct (negb (ToBoolean userId)).
  - intros [= <-]. now eexists _, _.
  - apply try_rethrow_throws.
Qed.

Lemma reportAction_throws (actionData : value) (m : Machine) (t : thrown) :
  fst (reportAction service actionData m) = Throw t ->
  exists cls msg, t = ErrorObject cls msg.
Proof.
  unfold reportAction, mbind at 1.
  destruct (check_required required actionData m) as [[[]|t0] m1] eqn:Hc.
  - unfold mbind at 1, lift at 1.
    destruct (Get actionData "actionType") as [v|t1] eqn:E.
    + destruct (negb (includes validActions v)).
      * intros [= <-]. now eexists _, _.
      * apply try_rethrow_throws.
    + intros [= <-]. destruct actionData; try discriminate;
        injection E as <-; now eexists _, _.
  - intros [= <-]. exact (check_required_throws _ _ _ _ _ Hc).
Qed.

Lemma getNetworkStats_throws (m : Machine) (t : thrown) :
  fst (getNetworkStats service m) = Throw t ->
  exists cls msg, t = ErrorObject cls msg.
Proof. unfold getNetworkStats. apply try_rethrow_throws. Qed.

(** The wrapper keeps the text of the rejection behind its prefix. *)
Lemma try_rethrow_message {A} (body : M A) (prefix : string) (m m' : Machine)
    (e : NormalizedError) (text : string) :
  body m = (Throw (PlainObject e), m') ->
  message e = VStr text ->
  try_catch body (rethrow prefix) m
  = (Throw (ErrorObject Error (prefix +:+ text)), m').
Proof.
  intros Hb Hm. unfold try_catch. rewrite Hb.
  unfold rethrow, mbind, lift, throw. simpl. now rewrite Hm.
Qed.

Lemma checkUser_wraps (userId : value) (m m' : Machine) (e : NormalizedError)
    (text : string) :
  ToBoolean userId = true ->
  _request service "POST" "/api/v1/shield/check" (VObj {["userId" := userId]}) m
  = (Throw (PlainObject e), m') ->
  message e = VStr text ->
  checkUser service userId m
  = (Throw (ErrorObject Error ("Failed to check user: " +:+ text)), m').
Proof.
  intros Hu Hr Hm. unfold checkUser. rewrite Hu. reduce_negb.
  apply (try_rethrow_message _ _ _ _ e); [|exact Hm].
  unfold mbind. now rewrite Hr.
Qed.

(** C2, as the code has it.  Whatever makes [checkUser], [reportAction]
    or [getNetworkStats] fail, the caller receives an instance of [Error]
    carrying a message only: the object rejected by [_request], with its
    [statusCode] and [rateLimit], is replaced at lines 188, 236 and 258,
    so both properties read as [undefined] on what is thrown. *)
Theorem public_failure_is_a_bare_Error (m : Machine) (t : thrown) :
  (exists userId, fst (checkUser service userId m) = Throw t)
  \/ (exists actionData, fst (reportAction service actionData m) = Throw t)
  \/ fst (getNetworkStats service m) = Throw t ->
  (exists cls msg, t = ErrorObject cls msg)
  /\ thrown_statusCode t = None
  /\ thrown_rateLimit t = None.
Proof.
  intros Hfail.
  assert (Ht : exists cls msg, t = ErrorObject cls msg).
  { destruct Hfail as [[userId Hc]|[[actionData Hr]|Hs]].
    - exact (checkUser_throws _ _ _ Hc).
    - exact (reportAction_throws _ _ _ Hr).
    - exact (getNetworkStats_throws _ _ Hs). }
  split; [exact Ht |]. destruct Ht as (cls & msg & ->). now split.
Qed.

(** C1, as the code has it.  No method assigns [_lastRateLimit]: on a
    client built by the constructor, [getRateLimit()] is [null] after any
    sequence of calls, whatever the responses carried. *)
Theorem getRateLimit_stays_null (key options : value)
    (console0 : list (string * log_data)) (wire0 : list ClientRequest)
    (m0 : Machine) (calls : list call) :
  constructor key options console0 wire0 = Normal m0 ->
  getRateLimit (this (perform_all service calls m0)) = None.
Proof.
  intros Hnew. rewrite perform_all_this. unfold getRateLimit.
  now rewrite (constructor_lastRateLimit _ _ _ _ _ Hnew).
Qed.

End Public_operations.

(** ** Responses: the ['end'] handler *)

Section Responses.
Context `{Host}.
Variable service : nat -> ClientRequest -> terminal_event.

(** What [_request] settles with when the round trip ends in a response. *)
Lemma request_on_end (method endpoint : string) (data : value) (m : Machine)
    (url : URL) (res : IncomingMessage) :
  URL_new endpoint (apiUrl (this m)) = Normal url ->
  (forall n req, service n req = OnEnd res) ->
  exists m1,
    _request service method endpoint data m
    = (settle (fst (on_end res m1)), snd (on_end res m1))
    /\ this m1 = this m.
Proof.
  intros Hurl Hres. unfold _request. rewrite Hurl, Hres.
  match goal with |- context [on_end res ?m2] => exists m2 end.
  split; [now destruct (on_end res _) |].
  simpl. apply keeps_this_log.
Qed.

Lemma on_end_parse_failure (res : IncomingMessage) (m : Machine) (t : thrown) :
  JSON_parse (accumulate (res_chunks res)) = Throw t ->
  on_end res m
  = (Reject {| statusCode := Some (res_statusCode res);
               message := VStr "Failed to parse response";
               error := thrown_message t;
               rateLimit := None |}, m).
Proof.
  intros Hparse. unfold on_end, on_end_try, mbind, lift. now rewrite Hparse.
Qed.

(** C5. A response whose body [JSON.parse] rejects is turned into a
    rejection, whatever its status code, 2xx included: the ['end']
    handler rejects with the status code of the response, the fixed
    message [Failed to parse response] (the literal of line 120) and the
    message of the parse error, and so does [_request]. *)
Theorem unparsable_body_is_rejected (res : IncomingMessage) (m : Machine)
    (cls : error_class) (detail : string) :
  JSON_parse (accumulate (res_chunks res)) = Throw (ErrorObject cls detail) ->
  on_end res m
  = (Reject {| statusCode := Some (res_statusCode res);
               message := VStr "Failed to parse response";
               error := VStr detail;
               rateLimit := None |}, m)
  /\ (forall method endpoint data url,
        URL_new endpoint (apiUrl (this m)) = Normal url ->
        (forall n req, service n req = OnEnd res) ->
        fst (_request service method endpoint data m)
        = Throw (PlainObject {| statusCode := Some (res_statusCode res);
                                message := VStr "Failed to parse response";
                                error := VStr detail;
                                rateLimit := None |})).
Proof.
  intros Hparse. split.
  - now rewrite (on_end_parse_failure _ _ _ Hparse).
  - intros method endpoint data url Hurl Hres.
    destruct (request_on_end method endpoint data m url res Hurl Hres)
      as (m1 & -> & _).
    now rewrite (on_end_parse_failure _ _ _ Hparse).
Qed.

(** *** The rate-limit snapshot *)

Lemma extract_rate_limit_fields (headers : gmap string string)
    (rl : RateLimitInfo) :
  extract_rate_limit headers = Normal rl ->
  limit rl = parseInt <$> header headers "x-ratelimit-limit"
  /\ remaining rl = parseInt <$> header headers "x-ratelimit-remaining"
  /\ resetTimestamp rl = parseInt <$> header headers "x-ratelimit-reset"
  /\ (resetAt rl = None <-> header headers "x-ratelimit-reset" = None)
  /\ retryAfter rl = parseInt <$> header headers "retry-after".
Proof.
  unfold extract_rate_limit.
  destruct (header headers "x-ratelimit-reset") as [s|]; simpl.
  - destruct (toISOString _) as [iso|t]; simpl; [|discriminate].
    intros [= <-]. simpl. repeat split; discriminate.
  - intros [= <-]. simpl. repeat split.
Qed.

Lemma header_lookup (headers : gmap string string) (name s : string) :
  headers !! name = Some s -> s <> "" -> header headers name = Some s.
Proof.
  intros Hl Hs. unfold header. rewrite Hl.
  destruct (String.eqb_spec s ""); [contradiction | reflexivity].
Qed.

Lemma Get_defined (v : value) (key : string) :
  v <> VNull -> v <> VUndefined -> exists w, Get v key = Normal w.
Proof. destruct v; intros Hn Hu; try contradiction; simpl; eauto. Qed.

Lemma has_keys_false (rl : RateLimitInfo) :
  has_keys rl = false <->
  limit rl = None /\ remaining rl = None /\ resetAt rl = None
  /\ resetTimestamp rl = None /\ retryAfter rl = None.
Proof.
  unfold has_keys.
  destruct rl as [[?|] [?|] [?|] [?|] [?|]]; simpl; split; intros Hx;
    try discriminate; try (destruct Hx as (? & ? & ? & ? & ?); discriminate);
    repeat split.
Qed.

Lemma fmap_None_iff {A B} (f : A -> B) (o : option A) :
  f <$> o = None <-> o = None.
Proof. destruct o; simpl; split; intros; congruence. Qed.

(** C9. On a status in [200, 300) the handler resolves with the parsed
    body, to which [rateLimit] is added when the body is an object and
    the snapshot has at least one property, and not otherwise; [_request]
    resolves with the same value.  The snapshot has no property exactly
    when none of the four headers is present (an empty header value reads
    as absent), so without rate-limit headers the response is the parsed
    body and nothing else; and each property of the snapshot is there
    exactly when its header is: an absent header leaves the property out,
    it is not set to zero. *)
Theorem rateLimit_only_when_present (res : IncomingMessage)
    (response : value) (rl : RateLimitInfo) :
  JSON_parse (accumulate (res_chunks res)) = Normal response ->
  extract_rate_limit (res_headers res) = Normal rl ->
  (200 <=? res_statusCode res) && (res_statusCode res <? 300) = true ->
  (let resolved :=
     {| resp_body := response;
        resp_rateLimit := if is_object response && has_keys rl
                          then Some rl else None |} in
   (forall m, fst (on_end res m) = Resolve resolved)
   /\ (forall m method endpoint data url,
         URL_new endpoint (apiUrl (this m)) = Normal url ->
         (forall n req, service n req = OnEnd res) ->
         fst (_request service method endpoint data m) = Normal resolved))
  /\ (has_keys rl = false <->
      header (res_headers res) "x-ratelimit-limit" = None
      /\ header (res_headers res) "x-ratelimit-remaining" = None
      /\ header (res_headers res) "x-ratelimit-reset" = None
      /\ header (res_headers res) "retry-after" = None)
  /\ (limit rl = None <-> header (res_headers res) "x-ratelimit-limit" = None)
  /\ (remaining rl = None <->
      header (res_headers res) "x-ratelimit-remaining" = None)
  /\ (resetAt rl = None <-> header (res_headers res) "x-ratelimit-reset" = None)
  /\ (resetTimestamp rl = None <->
      header (res_headers res) "x-ratelimit-reset" = None)
  /\ (retryAfter rl = None <-> header (res_headers res) "retry-after" = None).
Proof.
  intros Hparse Hrl Hstatus.
  destruct (extract_rate_limit_fields _ _ Hrl) as (Hl & Hr & Ht & Ha & Hy).
  assert (Il : limit rl = None <-> header (res_headers res) "x-ratelimit-limit" = None)
    by (rewrite Hl; apply fmap_None_iff).
  assert (Ir : remaining rl = None <->
               header (res_headers res) "x-ratelimit-remaining" = None)
    by (rewrite Hr; apply fmap_None_iff).
  assert (It : resetTimestamp rl = None <->
               header (res_headers res) "x-ratelimit-reset" = None)
    by (rewrite Ht; apply fmap_None_iff).
  assert (Iy : retryAfter rl = None <-> header (res_headers res) "retry-after" = None)
    by (rewrite Hy; apply fmap_None_iff).
  split; [|split; [|tauto]].
  - assert (Hend : forall m,
              fst (on_end res m)
              = Resolve {| resp_body := response;
                           resp_rateLimit := if is_object response && has_keys rl
                                             then Some rl else None |}).
    { intros m.
      unfold on_end, on_end_try, mbind at 1, lift at 1. rewrite Hparse.
      unfold mbind at 1, lift at 1. rewrite Hrl, Hstatus.
      unfold mbind, ret. now rewrite log_result. }
    split; [exact Hend |].
    intros m method endpoint data url Hurl Hres.
    destruct (request_on_end method endpoint data m url res Hurl Hres)
      as (m1 & -> & _).
    cbn [fst]. now rewrite Hend.
  - rewrite has_keys_false. tauto.
Qed.

End Responses.

(** ** The constructor *)

Section Construction.
Context `{Host}.

Lemma or_else_truthy (a b : value) :
  ToBoolean b = true -> ToBoolean (or_else a b) = true.
Proof. intros Hb. unfold or_else. now destruct (ToBoolean a) eqn:Ha. Qed.

Lemma or_else_falsy (a b : value) : ToBoolean a = false -> or_else a b = b.
Proof. intros Ha. unfold or_else. now rewrite Ha. Qed.

Lemma zero_is_falsy : ToBoolean (VNum (number_of_Z 0)) = false.
Proof. simpl. now rewrite number_truthy_of_Z. Qed.

(** Leaving [options] out is passing an empty object. *)
Lemma constructor_without_options (key : value)
    (console0 : list (string * log_data)) (wire0 : list ClientRequest) :
  constructor key VUndefined console0 wire0
  = constructor key (VObj ∅) console0 wire0.
Proof. reflexivity. Qed.

(** C10. With a non-empty credential and an options object, the
    constructor succeeds and calls [client.request] not once.  A falsy
    [timeout] (the number [0] in particular) is replaced by [10000], a
    falsy [apiUrl] (the empty string in particular) by the default base
    URL, and a falsy [debug] by [false], in which case nothing is written
    to the console either.  Whatever the options, the client ends up with
    a truthy [timeout] and a truthy [apiUrl]: neither [0] nor [''] can be
    configured. *)
Theorem constructor_defaults (key : value) (props : gmap string value)
    (console0 : list (string * log_data)) (wire0 : list ClientRequest) :
  ToBoolean key = true ->
  exists m,
    constructor key (VObj props) console0 wire0 = Normal m
    /\ wire m = wire0
    /\ apiKey (this m) = key
    /\ (ToBoolean (default VUndefined (props !! "timeout")) = false ->
        timeout (this m) = VNum (number_of_Z 10000))
    /\ (props !! "timeout" = Some (VNum (number_of_Z 0)) ->
        timeout (this m) = VNum (number_of_Z 10000))
    /\ (ToBoolean (default VUndefined (props !! "apiUrl")) = false ->
        apiUrl (this m) = VStr "https://elysium-online.xyz/api")
    /\ (props !! "apiUrl" = Some (VStr "") ->
        apiUrl (this m) = VStr "https://elysium-online.xyz/api")
    /\ (ToBoolean (default VUndefined (props !! "debug")) = false ->
        debug (this m) = VBool false /\ console m = console0)
    /\ ToBoolean (timeout (this m)) = true
    /\ ToBoolean (apiUrl (this m)) = true.
Proof.
  intros Hkey. unfold constructor. rewrite Hkey. reduce_negb. simpl bind.
  set (self := {| apiKey := key; apiUrl := _ |}).
  set (m0 := {| this := self; console := console0; wire := wire0 |}).
  exists (snd (_log "Shield Integration initialized" (LogInit (apiUrl self)) m0)).
  split; [reflexivity |].
  rewrite offline_log, keeps_this_log. simpl.
  assert (Htimeout : ToBoolean (default VUndefined (props !! "timeout")) = false ->
                     or_else (default VUndefined (props !! "timeout"))
                       (VNum (number_of_Z 10000)) = VNum (number_of_Z 10000))
    by apply or_else_falsy.
  assert (Hurl : ToBoolean (default VUndefined (props !! "apiUrl")) = false ->
                 or_else (default VUndefined (props !! "apiUrl"))
                   (VStr "https://elysium-online.xyz/api")
                 = VStr "https://elysium-online.xyz/api")
    by apply or_else_falsy.
  split; [reflexivity |]. split; [reflexivity |].
  split; [exact Htimeout |].
  split; [intros Hz; apply Htimeout; rewrite Hz; apply zero_is_falsy |].
  split; [exact Hurl |].
  split; [intros Hz; apply Hurl; now rewrite Hz |].
  split; [|split].
  - intros Hd. split; [now apply or_else_falsy |].
    unfold _log. simpl. now rewrite (or_else_falsy _ (VBool false) Hd).
  - apply or_else_truthy. simpl. now rewrite number_truthy_of_Z.
  - now apply or_else_truthy.
Qed.

End Construction.

(** ** The calendar of [toISOString] *)

Section Calendar.

(** A leap year has one day more. *)
Lemma DayFromYear_succ (y : Z) :
  DayFromYear (y + 1) = DayFromYear y + 365 + (if InLeapYear y then 1 else 0).
Proof.
  unfold DayFromYear, InLeapYear.
  repeat match goal with
         | |- context [?a mod ?b =? 0] => destruct (Z.eqb_spec (a mod b) 0)
         end;
    cbn [andb orb negb]; Z.div_mod_to_equations; lia.
Qed.

(** The year of the algorithm starts in March: the day is [doy] days
    after the first of March of year [yoe + 400 * era]. *)
Lemma march_based (n : Z) :
  let z := n + 719468 in
  let era := z / 146097 in
  let doe := z - era * 146097 in
  let yoe := (doe - doe / 1460 + doe / 36524 - doe / 146096) / 365 in
  let doy := doe - (365 * yoe + yoe / 4 - yoe / 100) in
  n = DayFromYear (yoe + era * 400 + 1) - 306 + doy
  /\ 0 <= doy < DayFromYear (yoe + era * 400 + 2) - DayFromYear (yoe + era * 400 + 1).
Proof. cbv zeta. unfold DayFromYear. Z.div_mod_to_equations. lia. Qed.

(** [civil_from_days] is the calendar of ECMA-262: the date it returns
    exists, and its day number is the one it was given. *)
Lemma civil_from_days_correct (n : Z) :
  let '(y, m, d) := civil_from_days n in
  1 <= m <= 12
  /\ 1 <= d <= days_in_month m (InLeapYear y)
  /\ n = DayFromYear y + days_before_month m (InLeapYear y) + d - 1.
Proof.
  pose proof (march_based n) as Hmarch. unfold civil_from_days.
  cbv zeta in Hmarch.
  set (z := n + 719468) in *.
  set (era := z / 146097) in *.
  set (doe := z - era * 146097) in *.
  set (yoe := (doe - doe / 1460 + doe / 36524 - doe / 146096) / 365) in *.
  set (doy := doe - (365 * yoe + yoe / 4 - yoe / 100)) in *.
  set (mp := (5 * doy + 2) / 153).
  set (y' := yoe + era * 400) in *.
  pose proof (DayFromYear_succ y') as Hthis.
  pose proof (DayFromYear_succ (y' + 1)) as Hnext.
  replace (y' + 1 + 1) with (y' + 2) in Hnext by lia.
  destruct Hmarch as [Hn Hdoy].
  assert (Hmp : 0 <= mp <= 11).
  { subst mp. destruct (InLeapYear (y' + 1)); Z.div_mod_to_equations; lia. }
  assert (Hcases : mp = 0 \/ mp = 1 \/ mp = 2 \/ mp = 3 \/ mp = 4 \/ mp = 5
                   \/ mp = 6 \/ mp = 7 \/ mp = 8 \/ mp = 9 \/ mp = 10 \/ mp = 11)
    by lia.
  assert (Hmonth : 153 * mp <= 5 * doy + 2 < 153 * mp + 153)
    by (subst mp; Z.div_mod_to_equations; lia).
  clearbody mp doy y'. clear z era doe yoe.
  destruct Hcases as [E|[E|[E|[E|[E|[E|[E|[E|[E|[E|[E|E]]]]]]]]]]]; subst mp;
    match goal with
    | |- context [if ?k <? 10 then ?a else ?b] =>
        let v := eval vm_compute in (if k <? 10 then a else b) in
        change (if k <? 10 then a else b) with v
    end;
    match goal with
    | |- context [if ?k <=? 2 then 1 else 0] =>
        let v := eval vm_compute in (if k <=? 2 then 1 else 0) in
        change (if k <=? 2 then 1 else 0) with v
    end;
    match goal with
    | |- context [(153 * ?k + 2) / 5] =>
        let v := eval vm_compute in ((153 * k + 2) / 5) in
        change ((153 * k + 2) / 5) with v
    end;
    rewrite ?Z.add_0_r;
    destruct (InLeapYear y'); destruct (InLeapYear (y' + 1));
    repeat match goal with
           | |- context [days_in_month ?m ?b] =>
               let v := eval vm_compute in (days_in_month m b) in
               change (days_in_month m b) with v
           | |- context [days_before_month ?m ?b] =>
               let v := eval vm_compute in (days_before_month m b) in
               change (days_before_month m b) with v
           end;
    lia.
Qed.

(** The fields printed by [toISOString] denote the time value they were
    computed from, and each is in its range. *)
Lemma fields_of_time_correct (ms : Z) :
  well_formed (fields_of_time ms) /\ time_of_fields (fields_of_time ms) = ms.
Proof.
  unfold fields_of_time, well_formed, time_of_fields.
  pose proof (civil_from_days_correct (ms / msPerDay)) as Hday.
  destruct (civil_from_days (ms / msPerDay)) as [[y m] d]. cbn [year month day
    hours minutes seconds milliseconds].
  destruct Hday as (Hm & Hd & Hn). rewrite <- Hn. unfold msPerDay.
  repeat split; try tauto; Z.div_mod_to_equations; lia.
Qed.

End Calendar.

(** ** The doubles of [parseInt] *)

Section Doubles.

(** An integer up to [2^53] in absolute value is a double. *)
Lemma Number_value_safe (z : Z) :
  Z.abs z <= 9007199254740992 -> Number_value z = Int z.
Proof.
  intros Hz. unfold Number_value, round_to_double.
  change (2 ^ 53) with 9007199254740992.
  destruct (Z.leb_spec (Z.abs z) 9007199254740992); [|lia].
  f_equal. destruct z; reflexivity.
Qed.

(** Beyond, the double is at least [2^53] in absolute value, or an
    infinity. *)
Lemma Number_value_large (z : Z) :
  9007199254740992 < Z.abs z ->
  (exists v, Number_value z = Int v /\ 9007199254740992 <= Z.abs v)
  \/ Number_value z = Infinity (z <? 0).
Proof.
  intros Hz. unfold Number_value, round_to_double.
  change (2 ^ 53) with 9007199254740992.
  destruct (Z.leb_spec (Z.abs z) 9007199254740992) as [|_]; [lia |].
  set (n := Z.abs z) in *.
  set (e := Z.log2 n - 52).
  assert (Hlog : 53 <= Z.log2 n).
  { change 53 with (Z.log2 (2 ^ 53)). apply Z.log2_le_mono.
    change (2 ^ 53) with 9007199254740992. lia. }
  assert (He : 1 <= e) by (subst e; lia).
  assert (Hpow : 2 <= 2 ^ e).
  { change 2 with (2 ^ 1) at 1. apply Z.pow_le_mono_r; lia. }
  assert (Hq : 4503599627370496 <= n / 2 ^ e).
  { apply Z.div_le_lower_bound; [lia |].
    destruct (Z.log2_spec n) as [Hlow _]; [lia |].
    replace (Z.log2 n) with (e + 52) in Hlow by (subst e; lia).
    rewrite Z.pow_add_r in Hlow by lia.
    change (2 ^ 52) with 4503599627370496 in Hlow. lia. }
  set (q := n / 2 ^ e) in *.
  match goal with |- context [if ?c then q + 1 else q] =>
    set (q' := if c then q + 1 else q);
    assert (Hq' : q <= q') by (subst q'; destruct c; lia)
  end.
  destruct (q' * 2 ^ e <? 2 ^ 1024); [left | now right].
  eexists. split; [reflexivity |].
  assert (Hv : 9007199254740992 <= q' * 2 ^ e) by nia.
  destruct z as [|p|p]; cbn [Z.sgn]; [subst n; simpl in Hz; lia | lia | lia].
Qed.

(** The time value of an epoch given in seconds: the epoch times 1000
    when it is within 8 640 000 000 000 seconds of 1970, none beyond. *)
Lemma TimeClip_seconds (t : Z) :
  TimeClip (times_1000 (Int t))
  = if Z.abs t <=? 8640000000000 then Some (t * 1000) else None.
Proof.
  cbn [times_1000].
  destruct (Z.leb_spec (Z.abs t) 8640000000000) as [Hin|Hout].
  - rewrite Number_value_safe by lia. cbn [TimeClip].
    destruct (Z.leb_spec (Z.abs (t * 1000)) 8640000000000000); [reflexivity | lia].
  - destruct (Z.le_gt_cases (Z.abs (t * 1000)) 9007199254740992) as [Hs|Hl].
    + rewrite Number_value_safe by exact Hs. cbn [TimeClip].
      destruct (Z.leb_spec (Z.abs (t * 1000)) 8640000000000000); [lia | reflexivity].
    + destruct (Number_value_large (t * 1000) Hl) as [(v & -> & Hv)| ->];
        [|reflexivity].
      cbn [TimeClip].
      destruct (Z.leb_spec (Z.abs v) 8640000000000000); [lia | reflexivity].
Qed.

End Doubles.

(** ** [parseInt] on decimal numerals *)

Section Numerals.
Context `{Host}.

Lemma read_digits_acc (d : Decimal.uint) (acc : positive) :
  read_digits 10 (NilEmpty.string_of_uint d) (Z.pos acc)
  = Z.pos (Pos.of_uint_acc d acc).
Proof.
  revert acc. induction d; intros acc; [reflexivity | ..].
  all: cbn [NilEmpty.string_of_uint read_digits Pos.of_uint_acc].
  all: match goal with |- context [digit_of 10 ?c] =>
         let v := eval vm_compute in (digit_of 10 c) in
         change (digit_of 10 c) with v
       end.
  all: cbv beta iota; rewrite <- IHd; f_equal; lia.
Qed.

Lemma read_digits_uint (d : Decimal.uint) :
  read_digits 10 (NilEmpty.string_of_uint d) 0 = Z.of_N (Pos.of_uint d).
Proof.
  induction d; simpl; [reflexivity | exact IHd | ..];
    apply (read_digits_acc d).
Qed.

(** A non-empty numeral starts with a digit: there is no white space,
    sign or [0x] prefix for [parseInt] to strip. *)
Lemma numeral_shape (d : Decimal.uint) :
  d <> Decimal.Nil ->
  let s := NilEmpty.string_of_uint d in
  trim_start s = s /\ strip_sign s = (false, s) /\ strip_prefix s = (10, s)
  /\ exists c rest k, s = String c rest /\ digit_of 10 c = Some k.
Proof.
  intros Hd. destruct d as [|d|d|d|d|d|d|d|d|d|d]; [contradiction | ..]; simpl;
    (split; [reflexivity | split; [reflexivity | split]]);
    try (now eexists _, _, _);
    destruct d; reflexivity.
Qed.

Lemma parseInt_numeral (d : Decimal.uint) :
  d <> Decimal.Nil -> Pos.of_uint d <> 0%N ->
  parseInt (NilEmpty.string_of_uint d) = Number_value (Z.of_N (Pos.of_uint d))
  /\ parseInt (String "-" (NilEmpty.string_of_uint d))
     = Number_value (- Z.of_N (Pos.of_uint d)).
Proof.
  intros Hd Hnz.
  destruct (numeral_shape d Hd) as (Htrim & Hsign & Hprefix & c & rest & k & Hs & Hc).
  assert (Hz : (Z.of_N (Pos.of_uint d) =? 0) = false) by (apply Z.eqb_neq; lia).
  split.
  - unfold parseInt. rewrite Htrim, Hsign. cbv beta iota.
    rewrite Hprefix. cbv beta iota.
    rewrite Hs at 1. rewrite Hc, read_digits_uint, Hz. reflexivity.
  - unfold parseInt.
    change (trim_start (String "-" ?s)) with (String "-" s).
    change (strip_sign (String "-" ?s)) with (true, s). cbv beta iota.
    rewrite Hprefix. cbv beta iota.
    rewrite Hs at 1. rewrite Hc, read_digits_uint, Hz. reflexivity.
Qed.

(** [parseInt] reads the decimal numeral of an integer as the double
    nearest to it, *)
Lemma parseInt_decimal (z : Z) : parseInt (decimal z) = Number_value z.
Proof.
  unfold decimal. destruct z as [|p|p]; [reflexivity | |].
  - simpl. unfold NilZero.string_of_uint.
    pose proof (DecimalPos.Unsigned.to_uint_nonnil p) as Hnil.
    pose proof (DecimalPos.Unsigned.of_to p) as Hof.
    destruct (parseInt_numeral (Pos.to_uint p)) as [Hpos _];
      [exact Hnil | rewrite Hof; discriminate |].
    rewrite Hof in Hpos. destruct (Pos.to_uint p); [contradiction | ..]; exact Hpos.
  - simpl. unfold NilZero.string_of_uint.
    pose proof (DecimalPos.Unsigned.to_uint_nonnil p) as Hnil.
    pose proof (DecimalPos.Unsigned.of_to p) as Hof.
    destruct (parseInt_numeral (Pos.to_uint p)) as [_ Hneg];
      [exact Hnil | rewrite Hof; discriminate |].
    rewrite Hof in Hneg. destruct (Pos.to_uint p); [contradiction | ..]; exact Hneg.
Qed.

(** and so reads back every integer up to [2^53] in absolute value. *)
Lemma parseInt_decimal_exact (z : Z) :
  Z.abs z <= 9007199254740992 -> parseInt (decimal z) = Int z.
Proof. intros Hz. rewrite parseInt_decimal. now apply Number_value_safe. Qed.

Lemma decimal_nonempty (z : Z) : decimal z <> "".
Proof.
  unfold decimal. destruct z as [|p|p]; simpl; try discriminate.
  unfold NilZero.string_of_uint.
  pose proof (DecimalPos.Unsigned.to_uint_nonnil p) as Hnil.
  destruct (Pos.to_uint p); [contradiction | ..]; discriminate.
Qed.

End Numerals.

(** ** The date-time format, read back *)

Section Date_time_format.

Lemma append_cons (c : ascii) (s rest : string) :
  String c s +:+ rest = String c (s +:+ rest).
Proof. reflexivity. Qed.

Lemma append_nil (rest : string) : "" +:+ rest = rest.
Proof. reflexivity. Qed.

Lemma decimal_digit_char (d : Z) :
  0 <= d <= 9 -> decimal_digit (digit_char d) = Some d.
Proof.
  intros Hd.
  assert (Hcases : d = 0 \/ d = 1 \/ d = 2 \/ d = 3 \/ d = 4 \/ d = 5
                   \/ d = 6 \/ d = 7 \/ d = 8 \/ d = 9) by lia.
  destruct Hcases as [->|[->|[->|[->|[->|[->|[->|[->|[->| ->]]]]]]]]];
    reflexivity.
Qed.

(** A year of four digits starts with a digit, not with a sign. *)
Lemma read_year_digit (d : Z) (rest : string) :
  0 <= d <= 9 ->
  read_year (String (digit_char d) rest)
  = read_fixed 4 (String (digit_char d) rest) 0.
Proof.
  intros Hd.
  assert (Hcases : d = 0 \/ d = 1 \/ d = 2 \/ d = 3 \/ d = 4 \/ d = 5
                   \/ d = 6 \/ d = 7 \/ d = 8 \/ d = 9) by lia.
  destruct Hcases as [->|[->|[->|[->|[->|[->|[->|[->|[->| ->]]]]]]]]];
    reflexivity.
Qed.

(** Reading [width] digits reads what [pad] printed. *)
Lemma read_fixed_pad (width : nat) (n : Z) (rest : string) (acc : Z) :
  read_fixed width (pad width n +:+ rest) acc
  = Some (acc * 10 ^ Z.of_nat width + n mod 10 ^ Z.of_nat width, rest).
Proof.
  revert acc. induction width as [|w IH]; intros acc.
  - cbn [pad read_fixed]. rewrite append_nil. f_equal. f_equal.
    change (10 ^ Z.of_nat 0) with 1. rewrite Z.mod_1_r. lia.
  - cbn [pad]. rewrite append_cons. cbn [read_fixed].
    assert (Hpow : 0 < 10 ^ Z.of_nat w) by (apply Z.pow_pos_nonneg; lia).
    rewrite decimal_digit_char
      by (pose proof (Z.mod_pos_bound (n / 10 ^ Z.of_nat w) 10); lia).
    rewrite IH. f_equal. f_equal.
    rewrite Nat2Z.inj_succ, Z.pow_succ_r by lia.
    rewrite (Z.mul_comm 10 (10 ^ Z.of_nat w)).
    rewrite (Z.rem_mul_r n (10 ^ Z.of_nat w) 10) by lia.
    ring.
Qed.

Lemma read_field (width : nat) (n : Z) (rest : string) :
  0 <= n < 10 ^ Z.of_nat width ->
  read_fixed width (pad width n +:+ rest) 0 = Some (n, rest).
Proof.
  intros Hn. rewrite read_fixed_pad. f_equal. f_equal.
  rewrite Z.mod_small by exact Hn. lia.
Qed.

Lemma read_year_iso (y : Z) (rest : string) :
  -999999 <= y <= 999999 ->
  read_year (iso_year y +:+ rest) = Some (y, rest).
Proof.
  intros Hy. unfold iso_year.
  destruct (Z.leb_spec 0 y) as [Hpos|Hneg]; cbn [andb].
  - destruct (Z.leb_spec y 9999) as [Hsmall|Hbig].
    + change (pad 4 y) with
        (String (digit_char (y / 10 ^ Z.of_nat 3 mod 10)) (pad 3 y)).
      rewrite append_cons. rewrite read_year_digit
        by (pose proof (Z.mod_pos_bound (y / 10 ^ Z.of_nat 3) 10); lia).
      rewrite <- append_cons.
      change (String (digit_char (y / 10 ^ Z.of_nat 3 mod 10)) (pad 3 y))
        with (pad 4 y).
      apply read_field. change (10 ^ Z.of_nat 4) with 10000. lia.
    + destruct (Z.ltb_spec y 0); [lia |].
      repeat (rewrite append_cons || rewrite append_nil).
      cbn [read_year Ascii.eqb Bool.eqb].
      rewrite read_field by (change (10 ^ Z.of_nat 6) with 1000000; lia).
      destruct (Z.ltb_spec 9999 y); [reflexivity | lia].
  - destruct (Z.ltb_spec y 0); [|lia].
    repeat (rewrite append_cons || rewrite append_nil).
    cbn [read_year Ascii.eqb Bool.eqb].
    rewrite read_field by (change (10 ^ Z.of_nat 6) with 1000000; lia).
    destruct (Z.ltb_spec 0 (- y)); [|lia].
    now rewrite Z.opp_involutive.
Qed.

(** The reader reads back what [toISOString] prints, for every date whose
    fields have the width the format gives them. *)
Lemma read_print_iso (f : date_fields) :
  -999999 <= year f <= 999999 ->
  0 <= month f < 100 -> 0 <= day f < 100 ->
  0 <= hours f < 100 -> 0 <= minutes f < 100 -> 0 <= seconds f < 100 ->
  0 <= milliseconds f < 1000 ->
  read_iso8601 (print_iso f) = Some f.
Proof.
  intros Hy Hm Hd Hh Hmi Hs Hms. unfold read_iso8601, print_iso.
  assert (H2 : 10 ^ Z.of_nat 2 = 100) by reflexivity.
  assert (H3 : 10 ^ Z.of_nat 3 = 1000) by reflexivity.
  rewrite read_year_iso by exact Hy.
  repeat (rewrite append_cons || rewrite append_nil).
  repeat match goal with
         | |- context [Some ?x ≫= ?k] =>
             change (Some x ≫= k) with (k x); cbv beta iota
         | |- context [expect ?c (String ?c ?rest)] =>
             change (expect c (String c rest)) with (Some rest)
         | |- context [read_fixed ?w (pad ?w ?n +:+ ?rest) 0] =>
             rewrite (read_field w n rest) by lia
         end.
  now destruct f.
Qed.

Lemma decimal_digit_inv (c : ascii) (d : Z) :
  decimal_digit c = Some d -> 0 <= d <= 9 /\ c = digit_char d.
Proof.
  unfold decimal_digit, digit_char.
  destruct (Z.leb_spec 48 (Z.of_nat (nat_of_ascii c))); cbn [andb];
    [|discriminate].
  destruct (Z.leb_spec (Z.of_nat (nat_of_ascii c)) 57); [|discriminate].
  intros [= <-]. split; [lia |].
  replace (48 + (Z.of_nat (nat_of_ascii c) - 48)) with (Z.of_nat (nat_of_ascii c))
    by lia.
  now rewrite Nat2Z.id, ascii_nat_embedding.
Qed.

(** The digits [pad] prints do not depend on what is above them. *)
Lemma pad_shift (width : nat) (n k c : Z) :
  pad width (n + k * (10 ^ Z.of_nat width * c)) = pad width n.
Proof.
  revert c. induction width as [|w IH]; intros c; [reflexivity |].
  cbn [pad].
  assert (Hpow : 0 < 10 ^ Z.of_nat w) by (apply Z.pow_pos_nonneg; lia).
  rewrite Nat2Z.inj_succ, Z.pow_succ_r by lia.
  replace (n + k * (10 * 10 ^ Z.of_nat w * c))
    with (n + k * (10 ^ Z.of_nat w * (10 * c))) by ring.
  rewrite IH. f_equal.
  replace (n + k * (10 ^ Z.of_nat w * (10 * c)))
    with (n + (k * c * 10) * 10 ^ Z.of_nat w) by ring.
  rewrite Z.div_add by lia.
  replace (n / 10 ^ Z.of_nat w + k * c * 10)
    with (n / 10 ^ Z.of_nat w + (k * c) * 10) by ring.
  now rewrite Z.mod_add by lia.
Qed.

(** What reads as [width] digits is what [pad] prints. *)
Lemma read_fixed_inv (width : nat) (s rest : string) (acc v : Z) :
  read_fixed width s acc = Some (v, rest) ->
  exists n,
    0 <= n < 10 ^ Z.of_nat width
    /\ v = acc * 10 ^ Z.of_nat width + n
    /\ s = pad width n +:+ rest.
Proof.
  revert s acc. induction width as [|w IH]; intros s acc.
  - cbn [read_fixed]. intros [= <- <-]. exists 0.
    change (10 ^ Z.of_nat 0) with 1. split; [lia |]. split; [lia | reflexivity].
  - cbn [read_fixed]. destruct s as [|c s']; [discriminate |].
    destruct (decimal_digit c) as [d|] eqn:Hc; [|discriminate].
    destruct (decimal_digit_inv c d Hc) as [Hd ->].
    intros Hread. destruct (IH _ _ Hread) as (n' & Hn' & -> & ->).
    assert (Hpow : 0 < 10 ^ Z.of_nat w) by (apply Z.pow_pos_nonneg; lia).
    exists (n' + d * 10 ^ Z.of_nat w).
    rewrite Nat2Z.inj_succ, Z.pow_succ_r by lia.
    split; [nia |]. split; [ring |].
    cbn [pad]. rewrite append_cons. f_equal.
    + f_equal. rewrite Z.div_add by lia. rewrite Z.div_small by lia.
      cbn [Z.add]. now rewrite Z.mod_small by lia.
    + f_equal. replace (n' + d * 10 ^ Z.of_nat w)
        with (n' + d * (10 ^ Z.of_nat w * 1)) by ring.
      symmetry. apply pad_shift.
Qed.

Lemma expect_inv (c : ascii) (s rest : string) :
  expect c s = Some rest -> s = String c rest.
Proof.
  destruct s as [|c' s']; [discriminate |]. cbn [expect].
  destruct (Ascii.eqb_spec c c') as [<-|]; [|discriminate]. now intros [= ->].
Qed.

Lemma read_fixed_inv_0 (width : nat) (s rest : string) (v : Z) :
  read_fixed width s 0 = Some (v, rest) ->
  0 <= v < 10 ^ Z.of_nat width /\ s = pad width v +:+ rest.
Proof.
  intros Hread. destruct (read_fixed_inv _ _ _ _ _ Hread) as (n & Hn & Hv & ->).
  rewrite Z.mul_0_l, Z.add_0_l in Hv. subst v. now split.
Qed.

Lemma read_year_inv (s rest : string) (y : Z) :
  read_year s = Some (y, rest) -> s = iso_year y +:+ rest.
Proof.
  destruct s as [|c s']; [discriminate |]. cbn [read_year].
  destruct (Ascii.eqb_spec c "+") as [->|Hplus].
  - destruct (read_fixed 6 s' 0) as [[y' rest']|] eqn:Hread; [|discriminate].
    destruct (Z.ltb_spec 9999 y'); [|discriminate]. intros [= <- <-].
    destruct (read_fixed_inv_0 _ _ _ _ Hread) as (Hn & ->).
    unfold iso_year.
    destruct (Z.leb_spec 0 y'); [|lia]. destruct (Z.leb_spec y' 9999); [lia |].
    destruct (Z.ltb_spec y' 0); [lia |]. reflexivity.
  - destruct (Ascii.eqb_spec c "-") as [->|Hminus].
    + destruct (read_fixed 6 s' 0) as [[y' rest']|] eqn:Hread; [|discriminate].
      destruct (Z.ltb_spec 0 y'); [|discriminate]. intros [= <- <-].
      destruct (read_fixed_inv_0 _ _ _ _ Hread) as (Hn & ->).
      unfold iso_year.
      destruct (Z.leb_spec 0 (- y')); [lia |]. cbn [andb].
      destruct (Z.ltb_spec (- y') 0); [|lia].
      now rewrite Z.opp_involutive.
    + intros Hread.
      destruct (read_fixed_inv_0 _ _ _ _ Hread) as (Hn & Hs).
      rewrite Hs. unfold iso_year.
      change (10 ^ Z.of_nat 4) with 10000 in Hn.
      destruct (Z.leb_spec 0 y); [|lia]. destruct (Z.leb_spec y 9999); [|lia].
      reflexivity.
Qed.

(** The reader is strict: the only string it reads as [f] is the one
    [toISOString] prints for [f]. *)
Lemma read_iso8601_inv (s : string) (f : date_fields) :
  read_iso8601 s = Some f -> s = print_iso f.
Proof.
  unfold read_iso8601. intros H.
  apply bind_Some in H as ([y s1] & Hy & H). apply read_year_inv in Hy.
  apply bind_Some in H as (s2 & E1 & H). apply expect_inv in E1.
  apply bind_Some in H as ([m s3] & Hm & H).
  apply bind_Some in H as (s4 & E2 & H). apply expect_inv in E2.
  apply bind_Some in H as ([d s5] & Hd & H).
  apply bind_Some in H as (s6 & E3 & H). apply expect_inv in E3.
  apply bind_Some in H as ([h s7] & Hh & H).
  apply bind_Some in H as (s8 & E4 & H). apply expect_inv in E4.
  apply bind_Some in H as ([mi s9] & Hmi & H).
  apply bind_Some in H as (s10 & E5 & H). apply expect_inv in E5.
  apply bind_Some in H as ([sec s11] & Hsec & H).
  apply bind_Some in H as (s12 & E6 & H). apply expect_inv in E6.
  apply bind_Some in H as ([ms s13] & Hms & H).
  apply bind_Some in H as (s14 & E7 & H). apply expect_inv in E7.
  destruct (String.eqb_spec s14 "") as [->|]; [|discriminate].
  injection H as <-.
  destruct (read_fixed_inv_0 _ _ _ _ Hm) as (_ & Hs3).
  destruct (read_fixed_inv_0 _ _ _ _ Hd) as (_ & Hs5).
  destruct (read_fixed_inv_0 _ _ _ _ Hh) as (_ & Hs7).
  destruct (read_fixed_inv_0 _ _ _ _ Hmi) as (_ & Hs9).
  destruct (read_fixed_inv_0 _ _ _ _ Hsec) as (_ & Hs11).
  destruct (read_fixed_inv_0 _ _ _ _ Hms) as (_ & Hs13).
  unfold print_iso.
  cbn [year month day hours minutes seconds milliseconds].
  subst. repeat (rewrite append_cons || rewrite append_nil). reflexivity.
Qed.

(** Hence two strings that read as the same date are the same string. *)
Lemma read_iso8601_injective (s s' : string) (f : date_fields) :
  read_iso8601 s = Some f -> read_iso8601 s' = Some f -> s = s'.
Proof.
  intros Hs Hs'. apply read_iso8601_inv in Hs, Hs'. congruence.
Qed.

End Date_time_format.

(** ** The reset header *)

Section Reset_header.
Context `{Host}.
Variable service : nat -> ClientRequest -> terminal_event.

Lemma days_in_month_le (m : Z) (leap : bool) :
  1 <= m <= 12 -> days_in_month m leap <= 31.
Proof.
  intros Hm.
  assert (Hcases : m = 1 \/ m = 2 \/ m = 3 \/ m = 4 \/ m = 5 \/ m = 6 \/ m = 7
                   \/ m = 8 \/ m = 9 \/ m = 10 \/ m = 11 \/ m = 12) by lia.
  destruct Hcases as [->|[->|[->|[->|[->|[->|[->|[->|[->|[->|[->| ->]]]]]]]]]]];
    destruct leap; apply Z.leb_le; reflexivity.
Qed.

(** The years of the time values of [Date] have at most six digits. *)
Lemma year_of_time (ms : Z) :
  -8640000000000000 <= ms <= 8640000000000000 ->
  -999999 <= year (fields_of_time ms) <= 999999.
Proof.
  intros Hms. unfold fields_of_time, civil_from_days, msPerDay.
  cbv zeta. cbn [year].
  match goal with |- context [if ?c then 1 else 0] =>
    assert (Hc : 0 <= (if c then 1 else 0) <= 1) by (destruct c; lia);
    generalize dependent (if c then 1 else 0)
  end.
  intros carry Hc. Z.div_mod_to_equations. lia.
Qed.

(** What [toISOString] prints for a time value of [Date] reads back, under
    the format, as the date and time of day that denote it. *)
Lemma iso_format_reads_back (ms : Z) :
  -8640000000000000 <= ms <= 8640000000000000 ->
  read_iso8601 (iso_format ms) = Some (fields_of_time ms).
Proof.
  intros Hms. unfold iso_format.
  destruct (fields_of_time_correct ms) as [(Hm & Hd & Hh & Hmi & Hs & Hmil) _].
  pose proof (days_in_month_le _ (InLeapYear (year (fields_of_time ms))) Hm).
  apply read_print_iso; try lia. now apply year_of_time.
Qed.

(** The snapshot can be read when the reset header, if there is one,
    denotes a date. *)
Lemma extract_rate_limit_readable (headers : gmap string string) :
  (forall s, header headers "x-ratelimit-reset" = Some s ->
     parseInt s = MinusZero
     \/ exists t, parseInt s = Int t /\ Z.abs t <= 8640000000000) ->
  exists rl, extract_rate_limit headers = Normal rl.
Proof.
  intros Hreset. unfold extract_rate_limit.
  destruct (header headers "x-ratelimit-reset") as [s|]; [|now eexists].
  destruct (Hreset s eq_refl) as [->|(t & -> & Ht)].
  - now eexists.
  - rewrite TimeClip_seconds.
    destruct (Z.leb_spec (Z.abs t) 8640000000000); [|lia]. now eexists.
Qed.

(** C7, as amended.  When the status is outside [200, 300), the body
    parses to a value other than [null] and the [x-ratelimit-reset]
    header, if there is one, is read by [parseInt] as a number of seconds
    within the range of [Date] (at most 8 640 000 000 000 either side of
    1970), the ['end'] handler rejects with the status, the message taken
    from the body and exactly the [RateLimitInfo] extracted from the
    headers: each counter is [parseInt] of its header; and that object is
    what [_request] is rejected with.  With [x-ratelimit-remaining: 0] the
    snapshot has [remaining = 0] (the header is the non-empty string
    ["0"], which is truthy), and with [retry-after: 42] it has
    [retryAfter = 42]. *)
Theorem error_branch_attaches_rateLimit (res : IncomingMessage)
    (response : value) :
  JSON_parse (accumulate (res_chunks res)) = Normal response ->
  response <> VNull ->
  response <> VUndefined ->
  (forall s, header (res_headers res) "x-ratelimit-reset" = Some s ->
     parseInt s = MinusZero
     \/ exists t, parseInt s = Int t /\ Z.abs t <= 8640000000000) ->
  (200 <=? res_statusCode res) && (res_statusCode res <? 300) = false ->
  exists rl msg err,
    extract_rate_limit (res_headers res) = Normal rl
    /\ limit rl = parseInt <$> header (res_headers res) "x-ratelimit-limit"
    /\ remaining rl = parseInt <$> header (res_headers res) "x-ratelimit-remaining"
    /\ resetTimestamp rl = parseInt <$> header (res_headers res) "x-ratelimit-reset"
    /\ retryAfter rl = parseInt <$> header (res_headers res) "retry-after"
    /\ Get response "message" = Normal msg
    /\ Get response "error" = Normal err
    /\ (let e := {| statusCode := Some (res_statusCode res);
                    message := or_else (or_else msg err) (VStr "Request failed");
                    error := or_else err (VStr "Unknown error");
                    rateLimit := Some rl |} in
        (forall m, fst (on_end res m) = Reject e)
        /\ (forall m method endpoint data url,
              URL_new endpoint (apiUrl (this m)) = Normal url ->
              (forall n req, service n req = OnEnd res) ->
              fst (_request service method endpoint data m)
              = Throw (PlainObject e)))
    /\ (res_headers res !! "x-ratelimit-remaining" = Some "0" ->
        remaining rl = Some (Int 0))
    /\ (res_headers res !! "retry-after" = Some "42" ->
        retryAfter rl = Some (Int 42)).
Proof.
  intros Hparse Hnull Hundef Hreset Hstatus.
  destruct (extract_rate_limit_readable _ Hreset) as [rl Hrl].
  destruct (Get_defined response "message" Hnull Hundef) as [msg Hmsg].
  destruct (Get_defined response "error" Hnull Hundef) as [err Herr].
  destruct (extract_rate_limit_fields _ _ Hrl)
    as (Hlimit & Hrem & Hts & _ & Hretry).
  exists rl, msg, err.
  split; [exact Hrl |]. split; [exact Hlimit |]. split; [exact Hrem |].
  split; [exact Hts |]. split; [exact Hretry |].
  split; [exact Hmsg |]. split; [exact Herr |].
  split; [|split].
  - assert (Hend : forall m,
              fst (on_end res m)
              = Reject {| statusCode := Some (res_statusCode res);
                          message := or_else (or_else msg err) (VStr "Request failed");
                          error := or_else err (VStr "Unknown error");
                          rateLimit := Some rl |}).
    { intros m.
      unfold on_end, on_end_try, mbind at 1, lift at 1. rewrite Hparse.
      unfold mbind at 1, lift at 1. rewrite Hrl, Hstatus.
      unfold mbind at 1. rewrite log_result.
      unfold mbind, lift, ret. rewrite Hmsg, Herr. reflexivity. }
    split; [exact Hend |].
    intros m method endpoint data url Hurl Hres.
    destruct (request_on_end service method endpoint data m url res Hurl Hres)
      as (m1 & -> & _).
    cbn [fst]. now rewrite Hend.
  - intros Hh. rewrite Hrem, (header_lookup _ _ "0" Hh) by discriminate.
    reflexivity.
  - intros Hh. rewrite Hretry, (header_lookup _ _ "42" Hh) by discriminate.
    reflexivity.
Qed.


End Reset_header.


(** ** What a call does to the machine *)

Section Machine_effects.
Context `{Host}.
Variable service : nat -> ClientRequest -> terminal_event.

(** The machine after a public operation: untouched, or what one call of
    [_request] left. *)
Lemma checkUser_machine (userId : value) (m : Machine) :
  snd (checkUser service userId m)
  = if ToBoolean userId
    then snd (_request service "POST" "/api/v1/shield/check"
                (VObj {["userId" := userId]}) m)
    else m.
Proof.
  unfold checkUser. destruct (ToBoolean userId); reduce_negb; [|reflexivity].
  apply tail_machine.
  - intros response. apply pure_mbind; [apply pure_lift | intros success].
    destruct (negb (ToBoolean success)); [|apply pure_lift].
    apply pure_mbind; [apply pure_lift | intros; apply pure_throw_new_Error].
  - intros t. apply pure_rethrow.
Qed.

Lemma getNetworkStats_machine (m : Machine) :
  snd (getNetworkStats service m)
  = snd (_request service "GET" "/api/v1/shield/stats" VUndefined m).
Proof.
  unfold getNetworkStats. apply tail_machine.
  - intros response. apply pure_mbind; [apply pure_lift | intros success].
    destruct (negb (ToBoolean success)); [|apply pure_lift].
    apply pure_mbind; [apply pure_lift | intros; apply pure_throw_new_Error].
  - intros t. apply pure_rethrow.
Qed.

Lemma verifyApiKey_machine (m : Machine) :
  snd (verifyApiKey service m)
  = snd (_request service "GET" "/api/v1/shield/stats" VUndefined m).
Proof.
  rewrite <- getNetworkStats_machine.
  unfold verifyApiKey, try_catch, mbind, ret.
  now destruct (getNetworkStats service m) as [[data|t] m'].
Qed.

Lemma reportAction_machine (actionData : value) (m : Machine) :
  snd (reportAction service actionData m) = m
  \/ snd (reportAction service actionData m)
     = snd (_request service "POST" "/api/v1/shield/report-action" actionData m).
Proof.
  remember (snd (reportAction service actionData m)) as out eqn:E.
  unfold reportAction, mbind at 1 in E.
  pose proof (pure_check_required required actionData m) as Hpure.
  destruct (check_required required actionData m) as [[[]|t] m1];
    simpl in Hpure; subst m1; [|now left].
  unfold mbind at 1, lift at 1 in E.
  destruct (Get actionData "actionType") as [v|t]; [|now left].
  destruct (negb (includes validActions v)); [now left |].
  right. subst out. apply tail_machine.
  - intros response. apply pure_mbind; [apply pure_lift | intros success].
    destruct (negb (ToBoolean success)); [|apply pure_ret].
    apply pure_mbind; [apply pure_lift | intros; apply pure_throw_new_Error].
  - intros t. apply pure_rethrow.
Qed.

Lemma perform_machine (c : call) (m : Machine) :
  perform service c m = m
  \/ exists method endpoint data,
       perform service c m = snd (_request service method endpoint data m).
Proof.
  destruct c as [userId|actionData| |]; cbn [perform].
  - rewrite checkUser_machine. destruct (ToBoolean userId); [right | now left].
    eexists _, _, _. reflexivity.
  - destruct (reportAction_machine actionData m) as [E|E]; [now left | right].
    eexists _, _, _. exact E.
  - right. rewrite getNetworkStats_machine. eexists _, _, _. reflexivity.
  - right. rewrite verifyApiKey_machine. eexists _, _, _. reflexivity.
Qed.

Lemma pure_hushed {A} (c : M A) : pure c -> hushed c.
Proof. intros Hc m _. now rewrite Hc. Qed.

Lemma hushed_mbind {A B} (c : M A) (k : A -> M B) :
  keeps_this c -> hushed c -> (forall a, hushed (k a)) -> hushed (mbind c k).
Proof.
  intros Tc Hc Hk m Hdebug. unfold mbind.
  specialize (Tc m). specialize (Hc m Hdebug).
  destruct (c m) as [[a|t] m1]; cbn [snd] in *; [|exact Hc].
  rewrite Hk by now rewrite Tc. exact Hc.
Qed.

Lemma hushed_log (s : string) (d : log_data) : hushed (_log s d).
Proof. intros m Hdebug. unfold _log. now rewrite Hdebug. Qed.

Lemma hushed_on_end_try (res : IncomingMessage) : hushed (on_end_try res).
Proof.
  unfold on_end_try.
  apply hushed_mbind;
    [apply pure_keeps_this, pure_lift | apply pure_hushed, pure_lift |].
  intros response.
  apply hushed_mbind;
    [apply pure_keeps_this, pure_lift | apply pure_hushed, pure_lift |].
  intros rateLimit.
  destruct (_ && _);
    (apply hushed_mbind; [exact (keeps_this_log _ _) | apply hushed_log |]);
    intros _; apply pure_hushed; [apply pure_ret |].
  apply pure_mbind; [apply pure_lift | intros msg].
  apply pure_mbind; [apply pure_lift | intros err]. apply pure_ret.
Qed.

Lemma on_end_console (res : IncomingMessage) (m : Machine) :
  ToBoolean (debug (this m)) = false ->
  console (snd (on_end res m)) = console m.
Proof.
  intros Hdebug. unfold on_end.
  pose proof (hushed_on_end_try res m Hdebug) as E.
  now destruct (on_end_try res m) as [[s|t] m'].
Qed.

(** What one call of [_request] does to the machine: the client object is
    kept, [client.request] is called at most once, with the headers and
    the timeout of the client, and nothing is printed unless [debug] is
    set. *)
Lemma request_effect (method endpoint : string) (data : value) (m : Machine) :
  let m' := snd (_request service method endpoint data m) in
  this m' = this m
  /\ (wire m' = wire m
      \/ exists req,
           wire m' = wire m ++ [req]
           /\ req_headers req = request_headers (this m)
           /\ req_timeout req = timeout (this m))
  /\ (ToBoolean (debug (this m)) = false -> console m' = console m).
Proof.
  cbv zeta. split; [apply keeps_this_request | split].
  - destruct (URL_new endpoint (apiUrl (this m))) as [url|t] eqn:Hurl.
    + right. destruct (request_wire service method endpoint data m url Hurl)
        as (req & Hw & _ & _ & _ & Hh & Ht & _).
      exists req. repeat split; assumption.
    + left. now rewrite (request_invalid_url service _ _ _ _ _ Hurl).
  - intros Hdebug. unfold _request.
    destruct (URL_new endpoint (apiUrl (this m))) as [url|t]; [|reflexivity].
    match goal with |- context [_log ?s ?d m] =>
      pose proof (hushed_log s d m Hdebug) as E1;
      pose proof (keeps_this_log s d m) as T1;
      set (m1 := snd (_log s d m)) in *
    end.
    match goal with |- context [sent ?r m1] => set (req := r) end.
    assert (Hdebug' : ToBoolean (debug (this (sent req m1))) = false)
      by (cbn [sent this]; now rewrite T1).
    destruct (service (length (wire m1)) req) as [res|msg| |cls msg].
    + pose proof (on_end_console res (sent req m1) Hdebug') as E2.
      destruct (on_end res (sent req m1)) as [s m3]. cbn [snd sent console] in *.
      congruence.
    + cbn [snd]. rewrite hushed_log by exact Hdebug'. exact E1.
    + destruct (ToString (timeout (this m))); [|exact E1].
      cbn [snd]. rewrite hushed_log by exact Hdebug'. exact E1.
    + exact E1.
Qed.

Lemma perform_effect (c : call) (m : Machine) :
  let m' := perform service c m in
  this m' = this m
  /\ (wire m' = wire m
      \/ exists req,
           wire m' = wire m ++ [req]
           /\ req_headers req = request_headers (this m)
           /\ req_timeout req = timeout (this m))
  /\ (ToBoolean (debug (this m)) = false -> console m' = console m).
Proof.
  cbv zeta.
  destruct (perform_machine c m) as [E|(method & endpoint & data & E)];
    rewrite E.
  - split; [reflexivity | split; [now left | reflexivity]].
  - apply request_effect.
Qed.

End Machine_effects.

Section Sessions_facts.
Context `{Host}.
Variable service : nat -> ClientRequest -> terminal_event.

(** X2. Without [debug] the client is silent: whatever calls are made, and
    whatever the service answers, nothing is written to the console. *)
Theorem silent_without_debug (calls : list call) (m : Machine) :
  ToBoolean (debug (this m)) = false ->
  console (perform_all service calls m) = console m.
Proof.
  revert m. induction calls as [|c rest IH]; intros m Hdebug; [reflexivity |].
  change (perform_all service (c :: rest) m)
    with (perform_all service rest (perform service c m)).
  destruct (perform_effect service c m) as (Hthis & _ & Hconsole).
  rewrite IH by now rewrite Hthis. now apply Hconsole.
Qed.

(** X3. No retries: a call of a public operation calls [client.request] at
    most once, so a session of [n] calls leaves the earlier requests in
    place and adds at most [n] to them. *)
Theorem at_most_one_request_per_call (calls : list call) (m : Machine) :
  exists new,
    wire (perform_all service calls m) = wire m ++ new
    /\ (length new <= length calls)%nat.
Proof.
  revert m. induction calls as [|c rest IH]; intros m.
  - exists []. split; [now rewrite app_nil_r | reflexivity].
  - change (perform_all service (c :: rest) m)
      with (perform_all service rest (perform service c m)).
    destruct (IH (perform service c m)) as (new & Hnew & Hlen).
    destruct (perform_effect service c m) as (_ & [Hw|(req & Hw & _)] & _);
      rewrite Hnew, Hw.
    + exists new. split; [reflexivity | simpl; lia].
    + exists (req :: new). split; [now rewrite <- app_assoc | simpl; lia].
Qed.

(** X4. Every request of a session carries the credential: each call of
    [client.request] made by the public operations has exactly the three
    headers [Content-Type: application/json], [x-api-key: <the client's
    key>] and [User-Agent: Elysium-Shield-SDK/<version>], and the client's
    timeout. *)
Theorem every_request_is_authenticated (calls : list call) (m : Machine) :
  exists new,
    wire (perform_all service calls m) = wire m ++ new
    /\ Forall (fun req => req_headers req = request_headers (this m)
                        /\ req_timeout req = timeout (this m)) new.
Proof.
  revert m. induction calls as [|c rest IH]; intros m.
  - exists []. split; [now rewrite app_nil_r | constructor].
  - change (perform_all service (c :: rest) m)
      with (perform_all service rest (perform service c m)).
    destruct (IH (perform service c m)) as (new & Hnew & Hall).
    destruct (perform_effect service c m)
      as (Hthis & [Hw|(req & Hw & Hh & Ht)] & _);
      rewrite Hnew, Hw; rewrite Hthis in Hall.
    + exists new. split; [reflexivity | exact Hall].
    + exists (req :: new). split; [now rewrite <- app_assoc |].
      apply List.Forall_cons; [split; assumption | exact Hall].
Qed.

End Sessions_facts.

(** ** The [debug] option *)

Section Logging.
Context `{Host}.
Variable service : nat -> ClientRequest -> terminal_event.

Lemma constant_ret {A} (a : A) : constant (ret a).
Proof. now exists (Normal a). Qed.

Lemma constant_throw {A} (t : thrown) : constant (throw (A := A) t).
Proof. now exists (Throw t). Qed.

Lemma constant_lift {A} (c : completion A) : constant (lift c).
Proof. now exists c. Qed.

Lemma constant_mbind {A B} (c : M A) (k : A -> M B) :
  constant c -> (forall a, constant (k a)) -> constant (mbind c k).
Proof.
  intros [[a|t] Hc] Hk.
  - destruct (Hk a) as [r Hr]. exists r. intros m. unfold mbind.
    now rewrite Hc, Hr.
  - exists (Throw t). intros m. unfold mbind. now rewrite Hc.
Qed.

Lemma constant_throw_new_Error {A} (v : value) :
  constant (throw_new_Error (A := A) v).
Proof.
  apply constant_mbind; [apply constant_lift | intros; apply constant_throw].
Qed.

Lemma constant_rethrow {A} (prefix : string) (t : thrown) :
  constant (rethrow (A := A) prefix t).
Proof.
  apply constant_mbind; [apply constant_lift | intros; apply constant_throw].
Qed.

Lemma constant_check_required (fields : list string) (actionData : value) :
  constant (check_required fields actionData).
Proof.
  induction fields as [|field rest IH]; [apply constant_ret |].
  cbn [check_required]. apply constant_mbind; [apply constant_lift | intros v].
  destruct (negb (ToBoolean v)); [apply constant_throw | exact IH].
Qed.

Lemma same_setup_refl (m : Machine) : same_setup m m.
Proof. now repeat split. Qed.

Lemma constant_debug_blind {A} (c : M A) : constant c -> debug_blind c.
Proof. intros [r Hr] m m' Hs. now rewrite !Hr. Qed.

Lemma debug_blind_mbind {A B} (c : M A) (k : A -> M B) :
  debug_blind c -> (forall a, debug_blind (k a)) -> debug_blind (mbind c k).
Proof.
  intros Hc Hk m m' Hs. unfold mbind. destruct (Hc m m' Hs) as [E S].
  destruct (c m) as [[a|t] m1], (c m') as [[a'|t'] m1']; cbn [fst snd] in *;
    try discriminate.
  - injection E as <-. now apply Hk.
  - injection E as <-. now split.
Qed.

Lemma debug_blind_try_catch {A} (body : M A) (handler : thrown -> M A) :
  debug_blind body -> (forall t, debug_blind (handler t)) ->
  debug_blind (try_catch body handler).
Proof.
  intros Hb Hh m m' Hs. unfold try_catch. destruct (Hb m m' Hs) as [E S].
  destruct (body m) as [[a|t] m1], (body m') as [[a'|t'] m1'];
    cbn [fst snd] in *; try discriminate.
  - now split.
  - injection E as <-. now apply Hh.
Qed.

Lemma debug_blind_log (s : string) (d : log_data) : debug_blind (_log s d).
Proof.
  intros m m' Hs. rewrite (log_result s d m), (log_result s d m').
  split; [reflexivity |]. cbn [snd]. unfold same_setup.
  now rewrite !keeps_this_log, !offline_log.
Qed.

Lemma debug_blind_on_end_try (res : IncomingMessage) :
  debug_blind (on_end_try res).
Proof.
  unfold on_end_try.
  apply debug_blind_mbind;
    [apply constant_debug_blind, constant_lift | intros response].
  apply debug_blind_mbind;
    [apply constant_debug_blind, constant_lift | intros rateLimit].
  destruct (_ && _);
    (apply debug_blind_mbind; [apply debug_blind_log | intros _]);
    apply constant_debug_blind; [apply constant_ret |].
  apply constant_mbind; [apply constant_lift | intros msg].
  apply constant_mbind; [apply constant_lift | intros err].
  apply constant_ret.
Qed.

Lemma same_setup_sent (req : ClientRequest) (m m' : Machine) :
  same_setup m m' -> same_setup (sent req m) (sent req m').
Proof.
  intros (Hk & Hu & Ht & Hv & Hl & Hw). unfold same_setup, sent. cbn.
  now rewrite Hw.
Qed.

Lemma debug_blind_request (method endpoint : string) (data : value) :
  debug_blind (_request service method endpoint data).
Proof.
  intros m m' Hs. pose proof Hs as (Hk & Hu & Ht & Hv & Hl & Hw).
  unfold _request. rewrite <- Hk, <- Hu, <- Ht, <- Hv.
  destruct (URL_new endpoint (apiUrl (this m))) as [url|t];
    [|now split].
  match goal with |- context [_log ?s ?d m] =>
    destruct (debug_blind_log s d m m' Hs) as [_ S1];
    set (m1 := snd (_log s d m)) in *; set (m1' := snd (_log s d m')) in *
  end.
  match goal with |- context [sent ?r m1] => set (req := r) end.
  pose proof (same_setup_sent req _ _ S1) as S2.
  assert (Hlen : length (wire m1') = length (wire m1))
    by (destruct S1 as (_ & _ & _ & _ & _ & ->); reflexivity).
  rewrite Hlen.
  destruct (service (length (wire m1)) req) as [res|msg| |cls msg].
  - unfold on_end.
    destruct (debug_blind_on_end_try res _ _ S2) as [E S3].
    destruct (on_end_try res (sent req m1)) as [[s|t] m3],
             (on_end_try res (sent req m1')) as [[s'|t'] m3'];
      cbn [fst snd] in *; try discriminate.
    + injection E as <-. now split.
    + injection E as <-. now split.
  - cbn [fst snd]. split; [reflexivity |].
    now apply debug_blind_log.
  - destruct (ToString (timeout (this m))); [|now split].
    cbn [fst snd]. split; [reflexivity |].
    now apply debug_blind_log.
  - now split.
Qed.

Lemma debug_blind_checkUser (userId : value) :
  debug_blind (checkUser service userId).
Proof.
  unfold checkUser. destruct (negb (ToBoolean userId)).
  - apply constant_debug_blind, constant_throw.
  - apply debug_blind_try_catch.
    + apply debug_blind_mbind; [apply debug_blind_request | intros response].
      apply constant_debug_blind.
      apply constant_mbind; [apply constant_lift | intros success].
      destruct (negb (ToBoolean success)); [|apply constant_lift].
      apply constant_mbind;
        [apply constant_lift | intros; apply constant_throw_new_Error].
    + intros t. apply constant_debug_blind, constant_rethrow.
Qed.

Lemma debug_blind_reportAction (actionData : value) :
  debug_blind (reportAction service actionData).
Proof.
  unfold reportAction.
  apply debug_blind_mbind;
    [apply constant_debug_blind, constant_check_required | intros _].
  apply debug_blind_mbind;
    [apply constant_debug_blind, constant_lift | intros actionType].
  destruct (negb (includes validActions actionType)).
  - apply constant_debug_blind, constant_throw.
  - apply debug_blind_try_catch.
    + apply debug_blind_mbind; [apply debug_blind_request | intros response].
      apply constant_debug_blind.
      apply constant_mbind; [apply constant_lift | intros success].
      destruct (negb (ToBoolean success)); [|apply constant_ret].
      apply constant_mbind;
        [apply constant_lift | intros; apply constant_throw_new_Error].
    + intros t. apply constant_debug_blind, constant_rethrow.
Qed.

Lemma debug_blind_getNetworkStats : debug_blind (getNetworkStats service).
Proof.
  unfold getNetworkStats. apply debug_blind_try_catch.
  - apply debug_blind_mbind; [apply debug_blind_request | intros response].
    apply constant_debug_blind.
    apply constant_mbind; [apply constant_lift | intros success].
    destruct (negb (ToBoolean success)); [|apply constant_lift].
    apply constant_mbind;
      [apply constant_lift | intros; apply constant_throw_new_Error].
  - intros t. apply constant_debug_blind, constant_rethrow.
Qed.

Lemma debug_blind_verifyApiKey : debug_blind (verifyApiKey service).
Proof.
  unfold verifyApiKey. apply debug_blind_try_catch.
  - apply debug_blind_mbind; [apply debug_blind_getNetworkStats | intros _].
    apply constant_debug_blind, constant_ret.
  - intros _. apply constant_debug_blind, constant_ret.
Qed.

Lemma same_setup_perform (c : call) (m m' : Machine) :
  same_setup m m' ->
  same_setup (perform service c m) (perform service c m').
Proof.
  intros Hs. destruct c; cbn [perform].
  - now apply debug_blind_checkUser.
  - now apply debug_blind_reportAction.
  - now apply debug_blind_getNetworkStats.
  - now apply debug_blind_verifyApiKey.
Qed.

(** X5. The [debug] option only prints.  Two clients that differ in their
    [debug] option, and in what their consoles hold, behave alike: after
    any session they have made the same requests, and every operation
    gives the same outcome on both, result or error. *)
Theorem debug_only_prints (calls : list call) (m m' : Machine) :
  same_setup m m' ->
  let after := perform_all service calls m in
  let after' := perform_all service calls m' in
  wire after = wire after'
  /\ (forall userId,
        fst (checkUser service userId after)
        = fst (checkUser service userId after'))
  /\ (forall actionData,
        fst (reportAction service actionData after)
        = fst (reportAction service actionData after'))
  /\ fst (getNetworkStats service after) = fst (getNetworkStats service after')
  /\ fst (verifyApiKey service after) = fst (verifyApiKey service after').
Proof.
  intros Hs. cbv zeta.
  assert (Hafter : same_setup (perform_all service calls m)
                     (perform_all service calls m')).
  { revert m m' Hs. induction calls as [|c rest IH]; intros m m' Hs;
      [exact Hs |].
    change (perform_all service (c :: rest) m)
      with (perform_all service rest (perform service c m)).
    change (perform_all service (c :: rest) m')
      with (perform_all service rest (perform service c m')).
    now apply IH, same_setup_perform. }
  split; [apply Hafter |]. split; [|split; [|split]].
  - intros userId. now apply debug_blind_checkUser.
  - intros actionData. now apply debug_blind_reportAction.
  - now apply debug_blind_getNetworkStats.
  - now apply debug_blind_verifyApiKey.
Qed.

End Logging.

(** ** When a request resolves *)

Section Outcomes.
Context `{Host}.
Variable service : nat -> ClientRequest -> terminal_event.

(** How the ['end'] handler settles does not depend on the machine. *)
Lemma on_end_outcome (res : IncomingMessage) (m m' : Machine) :
  fst (on_end res m) = fst (on_end res m').
Proof.
  unfold on_end, on_end_try, mbind, lift, ret.
  destruct (JSON_parse _) as [response|t]; [|reflexivity].
  destruct (extract_rate_limit _) as [rl|t]; [|reflexivity].
  destruct (_ && _).
  - now rewrite (log_result _ _ m), (log_result _ _ m').
  - rewrite (log_result _ _ m), (log_result _ _ m').
    destruct (Get response "message"); [|reflexivity].
    now destruct (Get response "error").
Qed.

(** The handler resolves on a 2xx status whose body and headers are
    readable, and only then. *)
Lemma on_end_resolves (res : IncomingMessage) (m : Machine)
    (response : NormalizedResponse) :
  fst (on_end res m) = Resolve response
  <-> 200 <= res_statusCode res < 300
      /\ JSON_parse (accumulate (res_chunks res)) = Normal (resp_body response)
      /\ exists rl,
           extract_rate_limit (res_headers res) = Normal rl
           /\ resp_rateLimit response
              = if is_object (resp_body response) && has_keys rl
                then Some rl else None.
Proof.
  unfold on_end, on_end_try, mbind, lift, ret.
  destruct (JSON_parse _) as [body|t].
  2:{ split; [discriminate | now intros (_ & [=] & _)]. }
  destruct (extract_rate_limit _) as [rl|t].
  2:{ split; [discriminate | now intros (_ & _ & rl & [=] & _)]. }
  destruct (200 <=? res_statusCode res) eqn:Hlo;
    destruct (res_statusCode res <? 300) eqn:Hhi; cbn [andb];
    rewrite (log_result _ _ m); cbn [fst snd].
  - split.
    + intros [= <-]. cbn [resp_body resp_rateLimit]. split; [lia |].
      split; [reflexivity |]. now exists rl.
    + intros (_ & [= ->] & rl' & [= <-] & Hrl). f_equal.
      destruct response as [b r]. cbn in *. now rewrite Hrl.
  - split; [|lia]. destruct (Get body "message"); [|discriminate].
    destruct (Get body "error"); discriminate.
  - split; [|lia]. destruct (Get body "message"); [|discriminate].
    destruct (Get body "error"); discriminate.
  - split; [|lia]. destruct (Get body "message"); [|discriminate].
    destruct (Get body "error"); discriminate.
Qed.

(** The outcome of [_request] in terms of the request it made and of the
    terminal event of that round trip. *)
Lemma request_outcome (method endpoint : string) (data : value) (m : Machine)
    (url : URL) :
  URL_new endpoint (apiUrl (this m)) = Normal url ->
  exists req,
    wire (snd (_request service method endpoint data m)) = wire m ++ [req]
    /\ fst (_request service method endpoint data m)
       = match service (length (wire m)) req with
         | OnEnd res => settle (fst (on_end res m))
         | OnError msg =>
             Throw (PlainObject {| statusCode := None;
                                   message := VStr "Network error";
                                   error := VStr msg;
                                   rateLimit := None |})
         | OnTimeout =>
             match ToString (timeout (this m)) with
             | Normal ms =>
                 Throw (PlainObject
                          {| statusCode := None;
                             message := VStr "Request timeout";
                             error := VStr ("Request exceeded " +:+ ms +:+ "ms");
                             rateLimit := None |})
             | Throw t => Throw t
             end
         | Refused cls msg => Throw (ErrorObject cls msg)
         end.
Proof.
  intros Hurl. unfold _request. rewrite Hurl.
  match goal with |- context [_log ?s ?d m] =>
    pose proof (offline_log s d m) as E1; set (m1 := snd (_log s d m)) in *
  end.
  match goal with |- context [sent ?r m1] => set (req := r) end.
  exists req. rewrite E1.
  destruct (service (length (wire m)) req) as [res|msg| |cls msg].
  - pose proof (on_end_wire res (sent req m1)) as E2.
    pose proof (on_end_outcome res (sent req m1) m) as E3.
    destruct (on_end res (sent req m1)) as [s m3]. cbn [fst snd sent wire] in *.
    split; congruence.
  - cbn [fst snd]. rewrite offline_log. cbn [sent wire]. split; congruence.
  - destruct (ToString (timeout (this m))); cbn [fst snd];
      rewrite ?offline_log; cbn [sent wire]; split; congruence.
  - cbn [fst snd sent wire]. split; congruence.
Qed.

Lemma request_pair (method endpoint : string) (data : value) (m : Machine) :
  _request service method endpoint data m
  = (fst (_request service method endpoint data m),
     snd (_request service method endpoint data m)).
Proof. now destruct (_request service method endpoint data m). Qed.

Lemma request_resolution (method endpoint : string) (data : value)
    (m : Machine) (response : NormalizedResponse) :
  fst (_request service method endpoint data m) = Normal response
  <-> exists req res rl,
        wire (snd (_request service method endpoint data m)) = wire m ++ [req]
        /\ service (length (wire m)) req = OnEnd res
        /\ 200 <= res_statusCode res < 300
        /\ JSON_parse (accumulate (res_chunks res)) = Normal (resp_body response)
        /\ extract_rate_limit (res_headers res) = Normal rl
        /\ resp_rateLimit response
           = if is_object (resp_body response) && has_keys rl
             then Some rl else None.
Proof.
  destruct (URL_new endpoint (apiUrl (this m))) as [url|t] eqn:Hurl.
  - destruct (request_outcome method endpoint data m url Hurl)
      as (req & Hw & Hout).
    rewrite Hout, Hw. split.
    + intros Hres. exists req.
      destruct (service (length (wire m)) req) as [res|msg| |cls msg];
        [|discriminate| |discriminate].
      * exists res. destruct (fst (on_end res m)) as [r|e] eqn:Hend;
          [|discriminate].
        injection Hres as ->.
        apply on_end_resolves in Hend as (Hst & Hparse & rl & Hrl & Hsnap).
        exists rl. repeat split; try assumption; lia.
      * destruct (ToString (timeout (this m))); discriminate.
    + intros (req' & res & rl & Heq & Hev & Hst & Hparse & Hrl & Hsnap).
      apply app_inj_tail in Heq as [_ <-]. rewrite Hev.
      assert (Hend : fst (on_end res m) = Resolve response).
      { apply on_end_resolves. split; [exact Hst |].
        split; [exact Hparse |]. now exists rl. }
      now rewrite Hend.
  - rewrite (request_invalid_url service _ _ _ _ _ Hurl). cbn [fst snd]. split.
    + destruct t; discriminate.
    + intros (req & _ & _ & Heq & _).
      apply (f_equal (@length _)) in Heq. rewrite length_app in Heq.
      simpl in Heq. lia.
Qed.

(** X6. [_request] resolves only when the service answered: the promise
    resolves exactly when one request went out, the response ended with a
    status in [200, 300), the body parsed as JSON and the rate-limit
    headers could be read; the resolved value is the parsed body, with the
    snapshot when there is one and the body is an object. *)
Theorem request_resolves_iff (method endpoint : string) (data : value)
    (m : Machine) (response : NormalizedResponse) :
  fst (_request service method endpoint data m) = Normal response
  <-> exists req res rl,
        wire (snd (_request service method endpoint data m)) = wire m ++ [req]
        /\ service (length (wire m)) req = OnEnd res
        /\ 200 <= res_statusCode res < 300
        /\ JSON_parse (accumulate (res_chunks res)) = Normal (resp_body response)
        /\ extract_rate_limit (res_headers res) = Normal rl
        /\ resp_rateLimit response
           = if is_object (resp_body response) && has_keys rl
             then Some rl else None.
Proof. apply request_resolution. Qed.

End Outcomes.

(** ** The test of [success] *)

Section Guards.
Context `{Host}.
Variable service : nat -> ClientRequest -> terminal_event.

Lemma not_extended {A} (l : list A) (x : A) : l <> l ++ [x].
Proof.
  intros E. apply (f_equal (@length _)) in E. rewrite length_app in E.
  simpl in E. lia.
Qed.

Lemma Get_truthy (v : value) (key : string) (w : value) :
  Get v key = Normal w -> ToBoolean w = true ->
  exists props, v = VObj props /\ w = default VUndefined (props !! key).
Proof.
  destruct v; simpl; intros [= <-] Hw; try discriminate. now eexists.
Qed.

Lemma try_mbind_normal {A B} (c : M A) (k : A -> M B) (h : thrown -> M B)
    (m m' : Machine) (a : A) :
  c m = (Normal a, m') ->
  try_catch (mbind c k) h m = try_catch (k a) h m'.
Proof. intros E. unfold try_catch, mbind. now rewrite E. Qed.

Lemma try_mbind_throw {A B} (c : M A) (k : A -> M B) (h : thrown -> M B)
    (m m' : Machine) (t : thrown) :
  c m = (Throw t, m') ->
  try_catch (mbind c k) h m = h t m'.
Proof. intros E. unfold try_catch, mbind. now rewrite E. Qed.

Lemma try_rethrow_text {A} (body : M A) (prefix : string) (m m' : Machine)
    (t : thrown) (text : string) :
  body m = (Throw t, m') ->
  ToString (thrown_message t) = Normal text ->
  try_catch body (rethrow prefix) m
  = (Throw (ErrorObject Error (prefix +:+ text)), m').
Proof.
  intros E Ht. unfold try_catch. rewrite E.
  unfold rethrow, mbind, lift, throw. now rewrite Ht.
Qed.

(** The test of [response.success] shared by the public operations: the
    continuation runs on an object whose [success] is truthy, and throws
    on anything else. *)
Lemma success_gate {A} (dflt : string) (final : NormalizedResponse -> M A)
    (response : NormalizedResponse) (m : Machine) :
  let gate :=
    mbind (lift (Get (resp_body response) "success")) (fun success =>
      if negb (ToBoolean success)
      then
        mbind (lift (Get (resp_body response) "error")) (fun err =>
          throw_new_Error (or_else err (VStr dflt)))
      else final response) in
  (exists props,
     resp_body response = VObj props
     /\ ToBoolean (default VUndefined (props !! "success")) = true
     /\ gate m = final response m)
  \/ (exists t,
        gate m = (Throw t, m)
        /\ forall props, resp_body response = VObj props ->
             ToBoolean (default VUndefined (props !! "success")) = false
             /\ t = match new_Error (or_else (default VUndefined (props !! "error"))
                                       (VStr dflt)) with
                    | Normal e | Throw e => e
                    end).
Proof.
  intros gate. remember (gate m) as out eqn:E. subst gate.
  unfold mbind at 1, lift at 1 in E.
  destruct (Get (resp_body response) "success") as [success|t] eqn:Hs.
  - cbv beta iota in E. destruct (ToBoolean success) eqn:Ht;
      change (negb true) with false in E; change (negb false) with true in E;
      cbv iota in E.
    + left. destruct (Get_truthy _ _ _ Hs Ht) as (props & Hb & ->).
      now exists props.
    + right. unfold mbind at 1, lift at 1 in E.
      destruct (Get (resp_body response) "error") as [err|t] eqn:He;
        cbv beta iota in E.
      * unfold throw_new_Error, mbind, lift, throw in E.
        destruct (new_Error (or_else err (VStr dflt))) as [e|t] eqn:Hn.
        -- exists e. split; [exact E |]. intros props Hb.
           rewrite Hb in Hs, He. simpl in Hs, He.
           injection Hs as <-. injection He as <-. now rewrite Hn.
        -- exists t. split; [exact E |]. intros props Hb.
           rewrite Hb in Hs, He. simpl in Hs, He.
           injection Hs as <-. injection He as <-. now rewrite Hn.
      * exists t. split; [exact E |]. intros props Hb.
        rewrite Hb in He. discriminate.
  - right. exists t. split; [exact E |]. intros props Hb.
    rewrite Hb in Hs. discriminate.
Qed.

(** A guarded round trip resolves exactly when the request resolves with
    an object whose [success] is truthy and the continuation returns. *)
Lemma guarded_resolves {A} (dflt prefix method endpoint : string)
    (data : value) (final : NormalizedResponse -> M A) (m : Machine) (a : A) :
  fst (try_catch
         (mbind (_request service method endpoint data) (fun response =>
            mbind (lift (Get (resp_body response) "success")) (fun success =>
              if negb (ToBoolean success)
              then
                mbind (lift (Get (resp_body response) "error")) (fun err =>
                  throw_new_Error (or_else err (VStr dflt)))
              else final response)))
         (rethrow prefix) m) = Normal a
  <-> exists response props,
        fst (_request service method endpoint data m) = Normal response
        /\ resp_body response = VObj props
        /\ ToBoolean (default VUndefined (props !! "success")) = true
        /\ fst (final response (snd (_request service method endpoint data m)))
           = Normal a.
Proof.
  destruct (_request service method endpoint data m) as [[response|t] m']
    eqn:Hreq; cbn [fst snd].
  - rewrite (try_mbind_normal _ _ _ _ _ _ Hreq).
    destruct (success_gate dflt final response m')
      as [(props & Hb & Hs & Hg)|(t & Hg & Hno)]; cbv zeta in Hg.
    + unfold try_catch at 1. rewrite Hg.
      destruct (final response m') as [[a'|t] m''] eqn:Hf; cbn [fst].
      * split.
        -- intros [= ->]. exists response, props. now rewrite Hf.
        -- intros (r & p & [= <-] & _ & _ & Hfa). rewrite Hf in Hfa.
           exact Hfa.
      * destruct (rethrow_throws (A := A) prefix t m'') as (cls & msg & ->).
        split; [discriminate |].
        intros (r & p & [= <-] & _ & _ & Hfa). rewrite Hf in Hfa.
        discriminate.
    + unfold try_catch at 1. rewrite Hg.
      destruct (rethrow_throws (A := A) prefix t m') as (cls & msg & ->).
      split; [discriminate |].
      intros (r & p & [= <-] & Hb & Hs & _).
      destruct (Hno p Hb) as [Hf _]. congruence.
  - rewrite (try_mbind_throw _ _ _ _ _ _ Hreq).
    destruct (rethrow_throws (A := A) prefix t m') as (cls & msg & ->).
    split; [discriminate | now intros (r & p & [=] & _)].
Qed.

End Guards.

Section Resolution.
Context `{Host}.
Variable service : nat -> ClientRequest -> terminal_event.

(** X7. When [checkUser] resolves.  It returns [data] exactly when the
    [userId] is not empty, one request went out, the response ended with
    a 2xx status, a body that parses to a JSON object with a truthy
    [success] and readable rate-limit headers; [data] is then the [data]
    property of that object as parsed: the rate-limit snapshot is not part
    of what the caller gets. *)
Theorem checkUser_resolves_iff (userId : value) (m : Machine) (data : value) :
  fst (checkUser service userId m) = Normal data
  <-> ToBoolean userId = true
      /\ exists req res props rl,
           wire (snd (checkUser service userId m)) = wire m ++ [req]
           /\ service (length (wire m)) req = OnEnd res
           /\ 200 <= res_statusCode res < 300
           /\ JSON_parse (accumulate (res_chunks res)) = Normal (VObj props)
           /\ extract_rate_limit (res_headers res) = Normal rl
           /\ ToBoolean (default VUndefined (props !! "success")) = true
           /\ data = default VUndefined (props !! "data").
Proof.
  rewrite checkUser_machine.
  destruct (ToBoolean userId) eqn:Hu.
  2:{ rewrite checkUser_empty by exact Hu.
      split; [discriminate | now intros [[=] _]]. }
  unfold checkUser. rewrite Hu. reduce_negb.
  rewrite (guarded_resolves service "Failed to check user"
             "Failed to check user: " "POST" "/api/v1/shield/check"
             (VObj {["userId" := userId]})
             (fun response => lift (Get (resp_body response) "data")) m data).
  split.
  - intros (response & props & Hreq & Hb & Hs & Hdata).
    split; [reflexivity |].
    apply request_resolution in Hreq
      as (req & res & rl & Hw & Hev & Hst & Hparse & Hrl & _).
    exists req, res, props, rl. rewrite Hb in Hparse, Hdata.
    cbn in Hdata. injection Hdata as <-. now repeat split.
  - intros (_ & req & res & props & rl & Hw & Hev & Hst & Hparse & Hrl & Hs & ->).
    exists {| resp_body := VObj props;
              resp_rateLimit := if is_object (VObj props) && has_keys rl
                                then Some rl else None |}, props.
    split; [|now repeat split].
    apply request_resolution. exists req, res, rl. now repeat split.
Qed.

(** When the probe says [true]. *)
Lemma verifyApiKey_true_characterised (m : Machine) :
  fst (verifyApiKey service m) = Normal true
  <-> exists req res props rl,
        wire (snd (verifyApiKey service m)) = wire m ++ [req]
        /\ req_method req = "GET"
        /\ service (length (wire m)) req = OnEnd res
        /\ 200 <= res_statusCode res < 300
        /\ JSON_parse (accumulate (res_chunks res)) = Normal (VObj props)
        /\ extract_rate_limit (res_headers res) = Normal rl
        /\ ToBoolean (default VUndefined (props !! "success")) = true.
Proof.
  rewrite verifyApiKey_machine.
  assert (Hprobe : fst (verifyApiKey service m) = Normal true
                   <-> exists data, fst (getNetworkStats service m) = Normal data).
  { unfold verifyApiKey, try_catch, mbind, ret.
    destruct (getNetworkStats service m) as [[data|t] m']; cbn [fst].
    - split; [now exists data | reflexivity].
    - split; [discriminate | now intros [data [=]]]. }
  rewrite Hprobe. unfold getNetworkStats. split.
  - intros [data Hdata].
    apply (guarded_resolves service "Failed to get network stats"
             "Failed to get network stats: " "GET" "/api/v1/shield/stats"
             VUndefined
             (fun response => lift (Get (resp_body response) "data")) m data)
      in Hdata as (response & props & Hreq & Hb & Hs & _).
    apply request_resolution in Hreq
      as (req & res & rl & Hw & Hev & Hst & Hparse & Hrl & _).
    exists req, res, props, rl. rewrite Hb in Hparse.
    repeat split; try assumption; try lia.
    destruct (URL_new "/api/v1/shield/stats" (apiUrl (this m))) as [url|t]
      eqn:Hurl.
    + destruct (request_wire service "GET" "/api/v1/shield/stats" VUndefined
                  m url Hurl) as (req' & Hw' & Hmethod & _).
      rewrite Hw in Hw'. now apply app_inj_tail in Hw' as [_ <-].
    + rewrite (request_invalid_url service _ _ _ _ _ Hurl) in Hw.
      cbn [snd] in Hw. apply (f_equal (@length _)) in Hw.
      rewrite length_app in Hw. simpl in Hw. lia.
  - intros (req & res & props & rl & Hw & _ & Hev & Hst & Hparse & Hrl & Hs).
    exists (default VUndefined (props !! "data")).
    apply (guarded_resolves service "Failed to get network stats"
             "Failed to get network stats: " "GET" "/api/v1/shield/stats"
             VUndefined
             (fun response => lift (Get (resp_body response) "data"))).
    exists {| resp_body := VObj props;
              resp_rateLimit := if is_object (VObj props) && has_keys rl
                                then Some rl else None |}, props.
    split; [|now repeat split].
    apply request_resolution. exists req, res, rl. now repeat split.
Qed.


(** X8. When [verifyApiKey] says [true]: exactly when the statistics
    endpoint was reached and answered with a 2xx status, a JSON object
    with a truthy [success] and rate-limit headers that can be read (an
    [x-ratelimit-reset] header, if there is one, has to denote a date: with
    one that does not, even a 200 with [success: true] reads as [false]).
    Any other outcome of the round trip (a 429, a 5xx, a network error, a
    timeout, a page that is not JSON) reads as [false], whatever the
    key. *)
Theorem verifyApiKey_true_iff (m : Machine) :
  fst (verifyApiKey service m) = Normal true
  <-> exists req res props rl,
        wire (snd (verifyApiKey service m)) = wire m ++ [req]
        /\ req_method req = "GET"
        /\ service (length (wire m)) req = OnEnd res
        /\ 200 <= res_statusCode res < 300
        /\ JSON_parse (accumulate (res_chunks res)) = Normal (VObj props)
        /\ extract_rate_limit (res_headers res) = Normal rl
        /\ ToBoolean (default VUndefined (props !! "success")) = true.
Proof. apply verifyApiKey_true_characterised. Qed.

(** C6. [verifyApiKey()] never throws: it completes normally with a
    boolean, [true] when [getNetworkStats] resolves and [false] when it
    fails, and the error is not propagated.  Failure mode by failure
    mode: a base URL that [new URL] rejects gives [false]; once the
    request is out, an ['error'] event (transport error), a ['timeout'],
    a refusal of [client.request], a response with a status outside
    [200, 300) (a bad credential: 401, 403), a body that is not JSON,
    rate-limit headers that cannot be read, and a body that is not an
    object with a truthy [success] all give [false]; and a 2xx response
    with a JSON object whose [success] is truthy and readable headers
    gives [true]. *)
Theorem verifyApiKey_is_a_probe (m : Machine) :
  (exists b,
     verifyApiKey service m = (Normal b, snd (getNetworkStats service m))
     /\ (b = true <-> exists data, fst (getNetworkStats service m) = Normal data))
  /\ (forall t,
        URL_new "/api/v1/shield/stats" (apiUrl (this m)) = Throw t ->
        verifyApiKey service m = (Normal false, m))
  /\ (forall req,
        wire (snd (verifyApiKey service m)) = wire m ++ [req] ->
        (forall msg,
           service (length (wire m)) req = OnError msg ->
           fst (verifyApiKey service m) = Normal false)
        /\ (service (length (wire m)) req = OnTimeout ->
            fst (verifyApiKey service m) = Normal false)
        /\ (forall cls msg,
              service (length (wire m)) req = Refused cls msg ->
              fst (verifyApiKey service m) = Normal false)
        /\ (forall res,
              service (length (wire m)) req = OnEnd res ->
              (~ 200 <= res_statusCode res < 300 ->
               fst (verifyApiKey service m) = Normal false)
              /\ (forall t,
                    JSON_parse (accumulate (res_chunks res)) = Throw t ->
                    fst (verifyApiKey service m) = Normal false)
              /\ (forall t,
                    extract_rate_limit (res_headers res) = Throw t ->
                    fst (verifyApiKey service m) = Normal false)
              /\ (forall body,
                    JSON_parse (accumulate (res_chunks res)) = Normal body ->
                    (forall props,
                       body = VObj props ->
                       ToBoolean (default VUndefined (props !! "success"))
                       = false) ->
                    fst (verifyApiKey service m) = Normal false)
              /\ (forall props rl,
                    200 <= res_statusCode res < 300 ->
                    JSON_parse (accumulate (res_chunks res))
                    = Normal (VObj props) ->
                    extract_rate_limit (res_headers res) = Normal rl ->
                    ToBoolean (default VUndefined (props !! "success")) = true ->
                    fst (verifyApiKey service m) = Normal true))).
Proof.
  pose proof (verifyApiKey_outcome service m) as Hout.
  pose proof (verifyApiKey_true_characterised m) as Htrue.
  assert (Hbool : fst (verifyApiKey service m) = Normal true
                  \/ fst (verifyApiKey service m) = Normal false).
  { rewrite Hout. cbn [fst].
    destruct (fst (getNetworkStats service m)); [now left | now right]. }
  assert (Hfalse : forall req,
            wire (snd (verifyApiKey service m)) = wire m ++ [req] ->
            (forall res props rl,
               service (length (wire m)) req = OnEnd res ->
               200 <= res_statusCode res < 300 ->
               JSON_parse (accumulate (res_chunks res)) = Normal (VObj props) ->
               extract_rate_limit (res_headers res) = Normal rl ->
               ToBoolean (default VUndefined (props !! "success")) = true ->
               False) ->
            fst (verifyApiKey service m) = Normal false).
  { intros req Hw Hno. destruct Hbool as [Hb|Hb]; [|exact Hb]. exfalso.
    apply Htrue in Hb
      as (req' & res & props & rl & Hw' & _ & Hev & Hst & Hparse & Hrl & Hs).
    rewrite Hw in Hw'. apply app_inj_tail in Hw' as [_ <-].
    exact (Hno res props rl Hev Hst Hparse Hrl Hs). }
  split; [|split].
  - eexists. split; [exact Hout |].
    destruct (fst (getNetworkStats service m)) as [data|t].
    + split; [now exists data | reflexivity].
    + split; [discriminate | now intros [data [=]]].
  - intros t Hurl. rewrite Hout. unfold getNetworkStats.
    rewrite (try_mbind_throw _ _ _ m m t
               (request_invalid_url service _ _ _ _ _ Hurl)).
    destruct (rethrow_throws (A := value) "Failed to get network stats: " t m)
      as (cls & msg & ->).
    reflexivity.
  - intros req Hw. split; [|split; [|split]].
    + intros msg Hev. apply (Hfalse req Hw). intros; congruence.
    + intros Hev. apply (Hfalse req Hw). intros; congruence.
    + intros cls msg Hev. apply (Hfalse req Hw). intros; congruence.
    + intros res Hev. split; [|split; [|split; [|split]]].
      * intros Hst. apply (Hfalse req Hw).
        intros res' props rl Hev'. rewrite Hev in Hev'.
        injection Hev' as <-. intros; lia.
      * intros t Hparse. apply (Hfalse req Hw).
        intros res' props rl Hev'. rewrite Hev in Hev'.
        injection Hev' as <-. intros; congruence.
      * intros t Hrl. apply (Hfalse req Hw).
        intros res' props rl Hev'. rewrite Hev in Hev'.
        injection Hev' as <-. intros; congruence.
      * intros body Hparse Hno. apply (Hfalse req Hw).
        intros res' props rl Hev'. rewrite Hev in Hev'.
        injection Hev' as <-. intros _ Hparse' _ Hs.
        rewrite Hparse in Hparse'. injection Hparse' as ->.
        rewrite (Hno props eq_refl) in Hs. discriminate.
      * intros props rl Hst Hparse Hrl Hs. apply Htrue.
        destruct (URL_new "/api/v1/shield/stats" (apiUrl (this m)))
          as [url|t] eqn:Hurl.
        -- rewrite verifyApiKey_machine in Hw.
           destruct (request_wire service "GET" "/api/v1/shield/stats"
                       VUndefined m url Hurl) as (req' & Hw' & Hmethod & _).
           rewrite Hw in Hw'. apply app_inj_tail in Hw' as [_ <-].
           exists req, res, props, rl. rewrite verifyApiKey_machine.
           now repeat split.
        -- rewrite verifyApiKey_machine,
             (request_invalid_url service _ _ _ _ _ Hurl) in Hw.
           now apply not_extended in Hw.
Qed.

End Resolution.

(** ** [reportAction] and [getNetworkStats] *)

Section Contracts.
Context `{Host}.
Variable service : nat -> ClientRequest -> terminal_event.

Lemma guarded_refused {A} (dflt prefix method endpoint : string)
    (data : value) (final : NormalizedResponse -> M A) (m m' : Machine)
    (response : NormalizedResponse) (props : gmap string value)
    (text : string) :
  _request service method endpoint data m = (Normal response, m') ->
  resp_body response = VObj props ->
  ToBoolean (default VUndefined (props !! "success")) = false ->
  ToString (or_else (default VUndefined (props !! "error")) (VStr dflt))
  = Normal text ->
  try_catch
    (mbind (_request service method endpoint data) (fun response =>
       mbind (lift (Get (resp_body response) "success")) (fun success =>
         if negb (ToBoolean success)
         then
           mbind (lift (Get (resp_body response) "error")) (fun err =>
             throw_new_Error (or_else err (VStr dflt)))
         else final response)))
    (rethrow prefix) m
  = (Throw (ErrorObject Error (prefix +:+ text)), m').
Proof.
  intros Hreq Hb Hs Ht. rewrite (try_mbind_normal _ _ _ _ _ _ Hreq).
  destruct (success_gate dflt final response m')
    as [(props' & Hb' & Hs' & _)|(t & Hg & Hno)].
  - rewrite Hb in Hb'. injection Hb' as <-. congruence.
  - cbv zeta in Hg. destruct (Hno props Hb) as [_ Et].
    apply (try_rethrow_text _ _ _ _ t _ Hg).
    rewrite Et. unfold new_Error. now rewrite Ht.
Qed.

Lemma guarded_rejected {A B} (c : M A) (k : A -> M B) (prefix : string)
    (m m' : Machine) (t : thrown) (text : string) :
  c m = (Throw t, m') ->
  ToString (thrown_message t) = Normal text ->
  try_catch (mbind c k) (rethrow prefix) m
  = (Throw (ErrorObject Error (prefix +:+ text)), m').
Proof.
  intros E Ht. apply try_rethrow_text with (t := t); [|exact Ht].
  unfold mbind. now rewrite E.
Qed.

Lemma check_required_normal (fields : list string) (actionData : value)
    (m m' : Machine) :
  check_required fields actionData m = (Normal tt, m') ->
  forall f, f ∈ fields ->
    exists v, Get actionData f = Normal v /\ ToBoolean v = true.
Proof.
  induction fields as [|field rest IH]; intros Hc f Hf.
  - now apply elem_of_nil in Hf.
  - cbn [check_required] in Hc. unfold mbind at 1, lift at 1 in Hc.
    destruct (Get actionData field) as [v|t] eqn:Hg; [|discriminate].
    cbv beta iota in Hc. destruct (ToBoolean v) eqn:Hv;
      change (negb true) with false in Hc; change (negb false) with true in Hc;
      cbv iota in Hc; [|discriminate].
    apply elem_of_cons in Hf as [->|Hf]; [now exists v | now apply IH].
Qed.

(** The two validations of [reportAction] pass exactly on a valid report;
    a report that is not valid is refused and the machine is untouched. *)
Lemma reportAction_validation (actionData : value) (m : Machine) :
  (valid_report actionData
   /\ reportAction service actionData m
      = try_catch
          (mbind (_request service "POST" "/api/v1/shield/report-action"
                    actionData) (fun response =>
             mbind (lift (Get (resp_body response) "success")) (fun success =>
               if negb (ToBoolean success)
               then
                 mbind (lift (Get (resp_body response) "error")) (fun err =>
                   throw_new_Error (or_else err (VStr "Failed to report action")))
               else ret response)))
          (rethrow "Failed to report action: ") m)
  \/ (~ valid_report actionData
      /\ exists t, reportAction service actionData m = (Throw t, m)).
Proof.
  remember (reportAction service actionData m) as out eqn:E.
  unfold reportAction, mbind at 1 in E.
  pose proof (pure_check_required required actionData m) as Hpure.
  destruct (check_required required actionData m) as [[[]|t] m1] eqn:Hc;
    simpl in Hpure; subst m1.
  - pose proof (check_required_normal _ _ _ _ Hc) as Hall.
    unfold mbind at 1, lift at 1 in E.
    destruct (Get actionData "actionType") as [v|t] eqn:Hg.
    + cbv beta iota in E. destruct (includes validActions v) eqn:Hi;
        change (negb true) with false in E; change (negb false) with true in E;
        cbv iota in E.
      * left. split; [|exact E]. split; [exact Hall |].
        destruct v; try discriminate. exists s. split; [exact Hg |].
        now apply bool_decide_eq_true in Hi.
      * right. split; [|eexists; exact E].
        intros (_ & s & Hs & Hin). rewrite Hs in Hg. injection Hg as <-.
        simpl in Hi. now apply bool_decide_eq_false in Hi.
    + right. split; [|eexists; exact E].
      intros (_ & s & Hs & _). congruence.
  - right. split; [|eexists; exact E].
    intros [Hall _]. rewrite (check_required_pass _ _ _ Hall) in Hc.
    discriminate.
Qed.


(** X10. [getNetworkStats()] on a client whose base URL resolves makes
    exactly one request, a [GET] to [/api/v1/shield/stats] with no body.
    A resolved response whose [success] is falsy fails with
    [Failed to get network stats: ] followed by its [error] (or the
    default text); a truthy [success] returns the response's [data]. *)
Theorem getNetworkStats_contract (m : Machine) (url : URL) :
  URL_new "/api/v1/shield/stats" (apiUrl (this m)) = Normal url ->
  (exists req,
     wire (snd (getNetworkStats service m)) = wire m ++ [req]
     /\ req_method req = "GET"
     /\ req_url req = url
     /\ req_body req = None)
  /\ (forall response m' props,
        _request service "GET" "/api/v1/shield/stats" VUndefined m
        = (Normal response, m') ->
        resp_body response = VObj props ->
        (ToBoolean (default VUndefined (props !! "success")) = false ->
         forall text,
           ToString (or_else (default VUndefined (props !! "error"))
                       (VStr "Failed to get network stats")) = Normal text ->
           getNetworkStats service m
           = (Throw (ErrorObject Error
                       ("Failed to get network stats: " +:+ text)), m'))
        /\ (ToBoolean (default VUndefined (props !! "success")) = true ->
            getNetworkStats service m
            = (Normal (default VUndefined (props !! "data")), m'))).
Proof.
  intros Hurl. split.
  - rewrite getNetworkStats_machine.
    destruct (request_wire service "GET" "/api/v1/shield/stats" VUndefined
                m url Hurl)
      as (req & Hw & Hmethod & Hrurl & _ & _ & _ & Hbody).
    exists req. repeat split; assumption.
  - intros response m' props Hreq Hb. split.
    + intros Hs text Htext. unfold getNetworkStats.
      now apply (guarded_refused _ _ _ _ _ _ _ _ response props).
    + intros Hs. unfold getNetworkStats.
      rewrite (try_mbind_normal _ _ _ _ _ _ Hreq).
      unfold try_catch, mbind, lift. rewrite Hb. cbn [Get].
      rewrite Hs. reflexivity.
Qed.

End Contracts.

(** ** Arguments that are not what the operations expect *)

Section Arguments.
Context `{Host}.
Variable service : nat -> ClientRequest -> terminal_event.

(** X1. When the constructor throws.  An empty key is refused first, with
    the error that says where to get one, whatever the options; with a
    key, [null] for the options is a [TypeError] (the default [{}]
    replaces a missing argument only); anything else constructs a client,
    and options that are not an object (a number, a string, an array) are
    silently the same as no options. *)
Theorem constructor_succeeds_iff (key options : value)
    (console0 : list (string * log_data)) (wire0 : list ClientRequest) :
  (ToBoolean key = false ->
   constructor key options console0 wire0
   = Throw (ErrorObject Error
       "Shield API key is required. Get one at https://elysium-online.xyz/profile"))
  /\ (ToBoolean key = true ->
      constructor key VNull console0 wire0
      = Throw (ErrorObject TypeError (msg_read_nullish VNull "apiUrl")))
  /\ ((exists m, constructor key options console0 wire0 = Normal m)
      <-> ToBoolean key = true /\ options <> VNull)
  /\ (options <> VNull -> (forall props, options <> VObj props) ->
      constructor key options console0 wire0
      = constructor key VUndefined console0 wire0).
Proof.
  split; [|split; [|split]].
  - intros Hk. unfold constructor. now rewrite Hk.
  - intros Hk. unfold constructor. now rewrite Hk.
  - unfold constructor. destruct (ToBoolean key); reduce_negb.
    + destruct options; cbn [Get bind];
        try (split; [intros _; split; [reflexivity | discriminate]
                    | intros _; eexists; reflexivity]).
      split; [now intros [m [=]] | now intros [_ []]].
    + split; [now intros [m [=]] | now intros [[=] _]].
  - intros Hn Ho. destruct options; try reflexivity.
    + now destruct Hn.
    + now destruct (Ho props).
Qed.

(** X11. [reportAction] on an argument that is not a report.  [null] and a
    missing argument fail with the engine's [TypeError] for reading
    [userId] of a nullish value; a boolean, a number, a string or an array
    fails with [userId is required]; in neither case is the machine
    touched. *)
Theorem reportAction_bad_argument (actionData : value) (m : Machine) :
  (forall props, actionData <> VObj props) ->
  reportAction service actionData m
  = (Throw (match actionData with
            | VUndefined | VNull =>
                ErrorObject TypeError (msg_read_nullish actionData "userId")
            | _ => ErrorObject Error "userId is required"
            end), m).
Proof.
  intros Hno. destruct actionData; try reflexivity. now destruct (Hno props).
Qed.

End Arguments.

(** ** Failures of the round trip *)

Section Failures.
Context `{Host}.
Variable service : nat -> ClientRequest -> terminal_event.

(** The outcome of a call of [_request] that reached [client.request]. *)
Lemma request_sent (method endpoint : string) (data : value) (m : Machine)
    (req : ClientRequest) :
  wire (snd (_request service method endpoint data m)) = wire m ++ [req] ->
  fst (_request service method endpoint data m)
  = match service (length (wire m)) req with
    | OnEnd res => settle (fst (on_end res m))
    | OnError msg =>
        Throw (PlainObject {| statusCode := None;
                              message := VStr "Network error";
                              error := VStr msg;
                              rateLimit := None |})
    | OnTimeout =>
        match ToString (timeout (this m)) with
        | Normal ms =>
            Throw (PlainObject
                     {| statusCode := None;
                        message := VStr "Request timeout";
                        error := VStr ("Request exceeded " +:+ ms +:+ "ms");
                        rateLimit := None |})
        | Throw t => Throw t
        end
    | Refused cls msg => Throw (ErrorObject cls msg)
    end.
Proof.
  intros Hw.
  destruct (URL_new endpoint (apiUrl (this m))) as [url|t] eqn:Hurl.
  - destruct (request_outcome service method endpoint data m url Hurl)
      as (req' & Hw' & Hout).
    rewrite Hw in Hw'. apply app_inj_tail in Hw' as [_ <-]. exact Hout.
  - rewrite (request_invalid_url service _ _ _ _ _ Hurl) in Hw.
    now apply not_extended in Hw.
Qed.

Lemma checkUser_sent (userId : value) (m : Machine) (req : ClientRequest) :
  wire (snd (checkUser service userId m)) = wire m ++ [req] ->
  ToBoolean userId = true
  /\ wire (snd (_request service "POST" "/api/v1/shield/check"
                  (VObj {["userId" := userId]}) m)) = wire m ++ [req].
Proof.
  rewrite checkUser_machine. destruct (ToBoolean userId); [now split |].
  intros Hw. now apply not_extended in Hw.
Qed.

(** What [checkUser] throws when its request is rejected. *)
Lemma checkUser_rejected (userId : value) (m : Machine) (t : thrown)
    (text : string) :
  ToBoolean userId = true ->
  fst (_request service "POST" "/api/v1/shield/check"
         (VObj {["userId" := userId]}) m) = Throw t ->
  ToString (thrown_message t) = Normal text ->
  fst (checkUser service userId m)
  = Throw (ErrorObject Error ("Failed to check user: " +:+ text)).
Proof.
  intros Hu Hreq Ht. unfold checkUser. rewrite Hu. reduce_negb.
  rewrite (guarded_rejected _ _ _ m
             (snd (_request service "POST" "/api/v1/shield/check"
                     (VObj {["userId" := userId]}) m)) t text);
    [reflexivity | | exact Ht].
  rewrite <- Hreq. apply request_pair.
Qed.

(** X12. Transport failures.  When the request of [checkUser] ends in an
    ['error'] event, [_request] rejects with the message [Network error]
    and the event's own message under [error]; when it ends in a
    ['timeout'], with [Request timeout] and [Request exceeded <timeout>ms];
    neither has a status code or a rate-limit snapshot.  [checkUser] then
    throws [Failed to check user: Network error], respectively
    [Failed to check user: Request timeout]: the detail under [error] does
    not reach the caller. *)
Theorem transport_failures (userId : value) (m : Machine)
    (req : ClientRequest) :
  wire (snd (checkUser service userId m)) = wire m ++ [req] ->
  (forall msg,
     service (length (wire m)) req = OnError msg ->
     fst (_request service "POST" "/api/v1/shield/check"
            (VObj {["userId" := userId]}) m)
     = Throw (PlainObject {| statusCode := None;
                             message := VStr "Network error";
                             error := VStr msg;
                             rateLimit := None |})
     /\ fst (checkUser service userId m)
        = Throw (ErrorObject Error "Failed to check user: Network error"))
  /\ (forall ms,
        service (length (wire m)) req = OnTimeout ->
        ToString (timeout (this m)) = Normal ms ->
        fst (_request service "POST" "/api/v1/shield/check"
               (VObj {["userId" := userId]}) m)
        = Throw (PlainObject
                   {| statusCode := None;
                      message := VStr "Request timeout";
                      error := VStr ("Request exceeded " +:+ ms +:+ "ms");
                      rateLimit := None |})
        /\ fst (checkUser service userId m)
           = Throw (ErrorObject Error "Failed to check user: Request timeout")).
Proof.
  intros Hw. apply checkUser_sent in Hw as [Hu Hw].
  pose proof (request_sent _ _ _ _ _ Hw) as Hout. split.
  - intros msg Hev. rewrite Hev in Hout. split; [exact Hout |].
    now apply (checkUser_rejected _ _ _ "Network error" Hu Hout).
  - intros ms Hev Hms. rewrite Hev, Hms in Hout. split; [exact Hout |].
    now apply (checkUser_rejected _ _ _ "Request timeout" Hu Hout).
Qed.

(** How the ['end'] handler rejects a status outside [200, 300). *)
Lemma on_end_rejects (res : IncomingMessage) (m : Machine) (body msg err : value)
    (rl : RateLimitInfo) :
  ~ 200 <= res_statusCode res < 300 ->
  JSON_parse (accumulate (res_chunks res)) = Normal body ->
  extract_rate_limit (res_headers res) = Normal rl ->
  Get body "message" = Normal msg ->
  Get body "error" = Normal err ->
  fst (on_end res m)
  = Reject {| statusCode := Some (res_statusCode res);
              message := or_else (or_else msg err) (VStr "Request failed");
              error := or_else err (VStr "Unknown error");
              rateLimit := Some rl |}.
Proof.
  intros Hst Hparse Hrl Hmsg Herr.
  unfold on_end, on_end_try, mbind, lift, ret. rewrite Hparse, Hrl.
  assert (Hcode : (200 <=? res_statusCode res) && (res_statusCode res <? 300)
                  = false).
  { destruct (200 <=? res_statusCode res) eqn:Hlo;
      destruct (res_statusCode res <? 300) eqn:Hhi; try reflexivity. lia. }
  rewrite Hcode, log_result, Hmsg, Herr. reflexivity.
Qed.

(** X13. What the caller sees of an HTTP error.  When the request of
    [checkUser] is answered with a status outside [200, 300), a JSON
    body other than [null] and rate-limit headers that can be read (an
    [x-ratelimit-reset] header, if there is one, has to denote a date;
    with one that does not, the message is [Failed to parse response]
    instead), the call throws [Failed to check user: ] followed by the
    body's [message] if it is truthy, else by its [error] if that is
    truthy, else by [Request failed]; the status code is not part of the
    message. *)
Theorem http_error_message (userId : value) (m : Machine) (req : ClientRequest)
    (res : IncomingMessage) (body msg err : value) (rl : RateLimitInfo)
    (text : string) :
  wire (snd (checkUser service userId m)) = wire m ++ [req] ->
  service (length (wire m)) req = OnEnd res ->
  ~ 200 <= res_statusCode res < 300 ->
  JSON_parse (accumulate (res_chunks res)) = Normal body ->
  extract_rate_limit (res_headers res) = Normal rl ->
  Get body "message" = Normal msg ->
  Get body "error" = Normal err ->
  ToString (or_else (or_else msg err) (VStr "Request failed")) = Normal text ->
  fst (checkUser service userId m)
  = Throw (ErrorObject Error ("Failed to check user: " +:+ text)).
Proof.
  intros Hw Hev Hst Hparse Hrl Hmsg Herr Htext.
  apply checkUser_sent in Hw as [Hu Hw].
  pose proof (request_sent _ _ _ _ _ Hw) as Hout. rewrite Hev in Hout.
  rewrite (on_end_rejects res m body msg err rl Hst Hparse Hrl Hmsg Herr)
    in Hout.
  now apply (checkUser_rejected _ _ _ text Hu Hout).
Qed.

(** The snapshot cannot be read exactly when the reset header is there
    and does not denote a date. *)
Lemma extract_rate_limit_throws (headers : gmap string string) (t : thrown) :
  extract_rate_limit headers = Throw t
  <-> t = ErrorObject RangeError msg_invalid_time
      /\ exists s,
           header headers "x-ratelimit-reset" = Some s
           /\ TimeClip (times_1000 (parseInt s)) = None.
Proof.
  unfold extract_rate_limit.
  destruct (header headers "x-ratelimit-reset") as [s|].
  - destruct (TimeClip (times_1000 (parseInt s))) as [ms|] eqn:Hclip;
      unfold toISOString, bind.
    + split; [discriminate | intros (_ & s' & [= <-] & E); congruence].
    + split.
      * intros [= <-]. split; [reflexivity |]. now exists s.
      * now intros [-> _].
  - unfold bind. split; [discriminate | now intros (_ & s & [=] & _)].
Qed.

(** X14. A reset header that is not a date spoils the response.  When the
    [x-ratelimit-reset] header of the response is present and its
    [parseInt] is [NaN] or a number of seconds beyond the range of [Date]
    (an infinity included), [toISOString] throws inside the [try] block: [_request] rejects with
    [Failed to parse response] although the body parsed, whatever the
    status, 2xx included, and [checkUser] throws
    [Failed to check user: Failed to parse response]. *)
Theorem unusable_reset_header_rejects (userId : value) (m : Machine)
    (req : ClientRequest) (res : IncomingMessage) (body : value) (s : string) :
  wire (snd (checkUser service userId m)) = wire m ++ [req] ->
  service (length (wire m)) req = OnEnd res ->
  JSON_parse (accumulate (res_chunks res)) = Normal body ->
  header (res_headers res) "x-ratelimit-reset" = Some s ->
  (parseInt s = NaN
   \/ (exists t, parseInt s = Int t /\ 8640000000000 < Z.abs t)
   \/ exists negative, parseInt s = Infinity negative) ->
  fst (_request service "POST" "/api/v1/shield/check"
         (VObj {["userId" := userId]}) m)
  = Throw (PlainObject {| statusCode := Some (res_statusCode res);
                          message := VStr "Failed to parse response";
                          error := VStr msg_invalid_time;
                          rateLimit := None |})
  /\ fst (checkUser service userId m)
     = Throw (ErrorObject Error
                "Failed to check user: Failed to parse response").
Proof.
  intros Hw Hev Hparse Hs Hbad.
  apply checkUser_sent in Hw as [Hu Hw].
  pose proof (request_sent _ _ _ _ _ Hw) as Hout. rewrite Hev in Hout.
  assert (Hclip : TimeClip (times_1000 (parseInt s)) = None).
  { destruct Hbad as [->|[(t & -> & Ht)|(negative & ->)]];
      [reflexivity | | reflexivity].
    rewrite TimeClip_seconds.
    destruct (Z.leb_spec (Z.abs t) 8640000000000); [lia | reflexivity]. }
  assert (Hrl : extract_rate_limit (res_headers res)
                = Throw (ErrorObject RangeError msg_invalid_time)).
  { apply extract_rate_limit_throws. split; [reflexivity |]. now exists s. }
  assert (Hend : fst (on_end res m)
                 = Reject {| statusCode := Some (res_statusCode res);
                             message := VStr "Failed to parse response";
                             error := VStr msg_invalid_time;
                             rateLimit := None |}).
  { unfold on_end, on_end_try, mbind, lift. now rewrite Hparse, Hrl. }
  rewrite Hend in Hout. split; [exact Hout |].
  now apply (checkUser_rejected _ _ _ "Failed to parse response" Hu Hout).
Qed.

End Failures.

(** ** The counters of the snapshot *)

Section Counters.
Context `{Host}.

(** X15. The counters of the snapshot are read back exactly.  When the
    headers [x-ratelimit-limit], [x-ratelimit-remaining] and [retry-after]
    are the decimal numerals of three integers of absolute value at most
    [2^53 = 9007199254740992] (the integers that [parseInt] returns
    without rounding) and there is no [x-ratelimit-reset], the snapshot
    has exactly these three integers, zero and negative numbers included,
    and no reset. *)
Theorem counters_round_trip (headers : gmap string string) (l r a : Z) :
  Z.abs l <= 9007199254740992 ->
  Z.abs r <= 9007199254740992 ->
  Z.abs a <= 9007199254740992 ->
  headers !! "x-ratelimit-limit" = Some (decimal l) ->
  headers !! "x-ratelimit-remaining" = Some (decimal r) ->
  headers !! "retry-after" = Some (decimal a) ->
  headers !! "x-ratelimit-reset" = None ->
  extract_rate_limit headers
  = Normal {| limit := Some (Int l);
              remaining := Some (Int r);
              resetAt := None;
              resetTimestamp := None;
              retryAfter := Some (Int a) |}.
Proof.
  intros Hlr Hrr Har Hl Hr Ha Hreset. unfold extract_rate_limit.
  rewrite (header_lookup headers _ _ Hl (decimal_nonempty l)).
  rewrite (header_lookup headers _ _ Hr (decimal_nonempty r)).
  rewrite (header_lookup headers _ _ Ha (decimal_nonempty a)).
  unfold header at 1. rewrite Hreset. cbn [fmap option_fmap option_map bind fst snd].
  now rewrite !parseInt_decimal_exact.
Qed.

End Counters.

(** ** The callers of EXAMPLES.md *)

Section Callers_facts.
Context `{Host}.
Variable service : nat -> ClientRequest -> terminal_event.

Lemma checkUser_status (userId : value) (m : Machine) (t : thrown) (code : Z) :
  fst (checkUser service userId m) = Throw t -> status_is t code = false.
Proof.
  intros Ht. destruct (checkUser_throws service userId m t Ht) as (cls & msg & ->).
  reflexivity.
Qed.

(** X16. [checkUserWithRetry] of EXAMPLES.md never retries.  Whatever the
    service answers, a 429 with a [retry-after] header included, and
    whatever [maxRetries >= 1], the helper calls [checkUser] exactly once,
    prints nothing, waits for nothing and returns or rethrows what that
    one call gave: the error of [checkUser] has no [statusCode], so the
    test [error.statusCode === 429] fails.  With [maxRetries = 0] it
    returns [undefined] without a call. *)
Theorem checkUserWithRetry_never_retries (userId : value) (maxRetries : nat)
    (app : App) :
  checkUserWithRetry service userId maxRetries app
  = match maxRetries with
    | O => (Normal VUndefined, app)
    | S _ =>
        (fst (checkUser service userId (machine app)),
         with_machine (snd (checkUser service userId (machine app))) app)
    end.
Proof.
  unfold checkUserWithRetry. destruct maxRetries as [|n]; [reflexivity |].
  cbn [attempts_from].
  pose proof (checkUser_status userId (machine app)) as Hstatus.
  destruct (checkUser service userId (machine app)) as [[result|error] m'];
    [reflexivity |].
  now rewrite (Hstatus error 429 eq_refl).
Qed.

Lemma repeated_succ (fn : M value) (n : nat) (m : Machine) :
  repeated fn (S n) m = snd (fn (repeated fn n m)).
Proof.
  revert m. induction n as [|n IH]; intros m; [reflexivity |].
  change (repeated fn (S (S n)) m) with (repeated fn (S n) (snd (fn m))).
  now rewrite IH.
Qed.

Lemma backoff_from_spec (fn : M value) (maxRetries togo i : nat) (app : App) :
  (togo + i = maxRetries)%nat ->
  exists k,
    (k <= togo - 1)%nat
    /\ (forall j, (j < k)%nat ->
          exists t, fst (fn (repeated fn j (machine app))) = Throw t)
    /\ (togo <> O ->
        fst (backoff_from togo i maxRetries fn app)
        = fst (fn (repeated fn k (machine app)))
        /\ machine (snd (backoff_from togo i maxRetries fn app))
           = repeated fn (S k) (machine app))
    /\ slept (snd (backoff_from togo i maxRetries fn app))
       = slept app ++ map (fun j => Int (2 ^ Z.of_nat j * 1000)) (seq i k)
    /\ printed (snd (backoff_from togo i maxRetries fn app))
       = printed app
         ++ map (fun j => Retry (S j) maxRetries (2 ^ Z.of_nat j * 1000))
              (seq i k)
    /\ (forall t, fst (backoff_from togo i maxRetries fn app) = Throw t ->
        k = (togo - 1)%nat).
Proof.
  revert i app. induction togo as [|togo IH]; intros i app Hsum.
  - exists O. cbn. rewrite !app_nil_r.
    repeat split; try reflexivity; try lia; try discriminate; now intros [].
  - cbn [backoff_from].
    destruct (fn (machine app)) as [[result|error] m'] eqn:Hfn.
    + exists O. cbn [repeated fst snd with_machine machine slept printed seq map].
      rewrite !app_nil_r, Hfn. cbn [fst snd].
      repeat split; try reflexivity; try lia; discriminate.
    + destruct (i =? maxRetries - 1)%nat eqn:Hlast.
      * apply Nat.eqb_eq in Hlast. exists O.
        cbn [repeated fst snd with_machine machine slept printed seq map].
        rewrite !app_nil_r, Hfn. cbn [fst snd].
        repeat split; try reflexivity; try lia.
      * apply Nat.eqb_neq in Hlast.
        set (app' := sleep _ _).
        destruct (IH (S i) app') as (k & Hk & Hthrows & Hres & Hslept & Hprinted & Hend);
          [lia |].
        assert (Htogo : togo <> O) by lia.
        destruct (Hres Htogo) as [Hfst Hmachine].
        exists (S k). cbn [repeated]. rewrite Hfn. cbn [snd].
        change (machine app') with m' in *.
        split; [lia |]. split; [|split; [|split; [|split]]].
        -- intros [|j] Hj; cbn [repeated].
           ++ rewrite Hfn. now exists error.
           ++ rewrite Hfn. cbn [snd]. apply Hthrows. lia.
        -- intros _. split; [exact Hfst | exact Hmachine].
        -- rewrite Hslept. subst app'. cbn [sleep slept print with_machine seq map].
           now rewrite <- app_assoc.
        -- rewrite Hprinted. subst app'.
           cbn [sleep printed print with_machine seq map].
           now rewrite <- app_assoc.
        -- intros t Ht. rewrite (Hend t Ht). lia.
Qed.


End Callers_facts.

(** * Scenarios

    The theorems at concrete round trips, on the test double. *)

#[local] Existing Instance fixture_numbers.
#[local] Existing Instance fixture_host.

Example parseInt_samples :
  parseInt "42" = Int 42 /\ parseInt "0" = Int 0 /\ parseInt "-0" = MinusZero
  /\ parseInt "  30 " = Int 30 /\ parseInt "12, 12" = Int 12
  /\ parseInt "0x1f" = Int 31 /\ parseInt "soon" = NaN /\ parseInt "-" = NaN.
Proof. vm_compute. repeat split. Qed.

(** Beyond [2^53] the result is the nearest double, ties to even, and
    an infinity from [2^1024] on; hexadecimal digits are read after
    [0x]. *)
Example parseInt_rounds :
  parseInt "9007199254740992" = Int 9007199254740992
  /\ parseInt "9007199254740993" = Int 9007199254740992
  /\ parseInt "9007199254740995" = Int 9007199254740996
  /\ parseInt "-9007199254740993" = Int (-9007199254740992)
  /\ parseInt "0x20000000000001" = Int 9007199254740992
  /\ parseInt (fold_left String.append (repeat "0" 309) "1") = Infinity false
  /\ parseInt (fold_left String.append (repeat "0" 309) "-1") = Infinity true.
Proof. vm_compute. repeat split. Qed.

(** The instant the README uses to illustrate [resetAt]. *)
Example iso_format_readme :
  iso_format (1763566621 * 1000) = "2025-11-19T15:37:01.000Z".
Proof. vm_compute. reflexivity. Qed.

Example iso_format_samples :
  iso_format 0 = "1970-01-01T00:00:00.000Z"
  /\ iso_format (-1000) = "1969-12-31T23:59:59.000Z"
  /\ iso_format 951782400000 = "2000-02-29T00:00:00.000Z"
  /\ iso_format 253402300799999 = "9999-12-31T23:59:59.999Z"
  /\ iso_format 253402300800000 = "+010000-01-01T00:00:00.000Z"
  /\ iso_format (-62167219200001) = "-000001-12-31T23:59:59.999Z"
  /\ iso_format 8640000000000000 = "+275760-09-13T00:00:00.000Z"
  /\ iso_format (-8640000000000000) = "-271821-04-20T00:00:00.000Z".
Proof. vm_compute. repeat split. Qed.

(** An epoch past the range of [Date], or a header that is not a number,
    makes [toISOString] throw inside the [try] block. *)
Example reset_out_of_range :
  extract_rate_limit (<["x-ratelimit-reset" := "8640000000001"]> ∅)
  = Throw (ErrorObject RangeError "Invalid time value")
  /\ extract_rate_limit (<["x-ratelimit-reset" := "soon"]> ∅)
     = Throw (ErrorObject RangeError "Invalid time value").
Proof. vm_compute. split; reflexivity. Qed.

Example ToString_samples :
  ToString (VArr [VNum 1; VNull; VStr "a"; VArr [VBool true; VUndefined]])
  = Normal "1,,a,true,"
  /\ ToString (VObj ∅) = Normal "[object Object]"
  /\ ToString (VObj (<["toString" := VNum 1]> ∅))
     = Throw (ErrorObject TypeError "Cannot convert object to primitive value").
Proof. vm_compute. repeat split. Qed.

Example fresh_is_constructed :
  constructor (VStr "sk_live_0123456789") VUndefined [] [] = Normal fresh.
Proof. vm_compute. reflexivity. Qed.

(** The statistics round trip does carry a snapshot: [_request] resolves
    with the [rateLimit] read from the three headers. *)
Example stats_round_trip_snapshot :
  resp_rateLimit
    <$> (match fst (_request (always (OnEnd response_200_stats)) "GET"
                      "/api/v1/shield/stats" VUndefined fresh) with
         | Normal response => Some response
         | Throw _ => None
         end)
  = Some (Some {| limit := Some (Int 30);
                  remaining := Some (Int 27);
                  resetAt := Some "2025-11-19T15:37:01.000Z";
                  resetTimestamp := Some (Int 1763566621);
                  retryAfter := None |}).
Proof. vm_compute. reflexivity. Qed.

(** C1, witness: after [getNetworkStats()] has resolved on the response
    above, [getRateLimit()] is still [null]. *)
Lemma getRateLimit_stays_null_witness :
  constructor (VStr "sk_live_0123456789") VUndefined [] [] = Normal fresh
  /\ fst (getNetworkStats (always (OnEnd response_200_stats)) fresh)
     = Normal data_stats
  /\ getRateLimit
       (this (perform_all (always (OnEnd response_200_stats))
                [GetNetworkStats] fresh))
     = None.
Proof.
  split; [vm_compute; reflexivity |].
  split; [vm_compute; reflexivity |].
  apply (getRateLimit_stays_null (always (OnEnd response_200_stats))
           (VStr "sk_live_0123456789") VUndefined [] [] fresh [GetNetworkStats]).
  vm_compute. reflexivity.
Defined.

(** C2, witness: on a 429 the rejection of [_request] has the status and
    the snapshot; what [checkUser] throws has neither. *)
Lemma public_failure_is_a_bare_Error_witness :
  fst (_request (always (OnEnd response_429)) "POST" "/api/v1/shield/check"
         (VObj {["userId" := VStr "123456789"]}) fresh)
  = Throw (PlainObject
             {| statusCode := Some 429;
                message := VStr "Rate limit exceeded";
                error := VStr "Rate limit exceeded";
                rateLimit := Some {| limit := None;
                                     remaining := Some (Int 0);
                                     resetAt := None;
                                     resetTimestamp := None;
                                     retryAfter := Some (Int 42) |} |})
  /\ fst (checkUser (always (OnEnd response_429)) (VStr "123456789") fresh)
     = Throw (ErrorObject Error "Failed to check user: Rate limit exceeded")
  /\ thrown_statusCode
       (ErrorObject Error "Failed to check user: Rate limit exceeded") = None
  /\ thrown_rateLimit
       (ErrorObject Error "Failed to check user: Rate limit exceeded") = None.
Proof.
  split; [vm_compute; reflexivity |].
  assert (Hfail : fst (checkUser (always (OnEnd response_429)) (VStr "123456789") fresh)
                  = Throw (ErrorObject Error "Failed to check user: Rate limit exceeded"))
    by (vm_compute; reflexivity).
  split; [exact Hfail |].
  apply (public_failure_is_a_bare_Error (always (OnEnd response_429)) fresh).
  left. exists (VStr "123456789"). exact Hfail.
Defined.


(** The probe on five round trips: a timeout, a refused connection, a
    401, a page that is not JSON, and the statistics. *)
Example verifyApiKey_samples :
  fst (verifyApiKey (always OnTimeout) fresh) = Normal false
  /\ fst (verifyApiKey (always (OnError "connect ECONNREFUSED")) fresh)
     = Normal false
  /\ fst (verifyApiKey
            (always (OnEnd {| res_statusCode := 401;
                              res_headers := ∅;
                              res_chunks := [render 4 body_unauthorized] |}))
            fresh) = Normal false
  /\ fst (verifyApiKey (always (OnEnd response_200_html)) fresh) = Normal false
  /\ fst (verifyApiKey (always (OnEnd response_200_stats)) fresh) = Normal true.
Proof. vm_compute. repeat split. Qed.

(** The request of [verifyApiKey()] on the fresh client. *)
Lemma probe_goes_out (service : nat -> ClientRequest -> terminal_event) :
  exists req,
    wire (snd (verifyApiKey service fresh)) = wire fresh ++ [req].
Proof.
  rewrite verifyApiKey_machine.
  destruct (request_wire service "GET" "/api/v1/shield/stats" VUndefined fresh
              {| href := "https://elysium-online.xyz/api/v1/shield/stats";
                 protocol := "https:" |}) as (req & Hw & _);
    [vm_compute; reflexivity |].
  now exists req.
Defined.

(** C6, witness: a refused connection, a timeout, a 401, a page that is
    not JSON, a 200 with [success: false], and the statistics. *)
Lemma verifyApiKey_is_a_probe_witness :
  fst (verifyApiKey (always (OnError "connect ECONNREFUSED")) fresh)
  = Normal false
  /\ fst (verifyApiKey (always OnTimeout) fresh) = Normal false
  /\ fst (verifyApiKey (always (OnEnd response_401)) fresh) = Normal false
  /\ fst (verifyApiKey (always (OnEnd response_200_html)) fresh) = Normal false
  /\ fst (verifyApiKey (always (OnEnd response_200_refused)) fresh)
     = Normal false
  /\ fst (verifyApiKey (always (OnEnd response_200_stats)) fresh) = Normal true.
Proof.
  split; [|split; [|split; [|split; [|split]]]].
  - destruct (probe_goes_out (always (OnError "connect ECONNREFUSED")))
      as (req & Hw).
    destruct (verifyApiKey_is_a_probe
                (always (OnError "connect ECONNREFUSED")) fresh)
      as (_ & _ & Hsent).
    destruct (Hsent req Hw) as (Herror & _).
    exact (Herror "connect ECONNREFUSED" eq_refl).
  - destruct (probe_goes_out (always OnTimeout)) as (req & Hw).
    destruct (verifyApiKey_is_a_probe (always OnTimeout) fresh)
      as (_ & _ & Hsent).
    destruct (Hsent req Hw) as (_ & Htimeout & _).
    exact (Htimeout eq_refl).
  - destruct (probe_goes_out (always (OnEnd response_401))) as (req & Hw).
    destruct (verifyApiKey_is_a_probe (always (OnEnd response_401)) fresh)
      as (_ & _ & Hsent).
    destruct (Hsent req Hw) as (_ & _ & _ & Hend).
    destruct (Hend response_401 eq_refl) as (Hstatus & _).
    apply Hstatus. cbn [response_401 res_statusCode]. lia.
  - destruct (probe_goes_out (always (OnEnd response_200_html))) as (req & Hw).
    destruct (verifyApiKey_is_a_probe (always (OnEnd response_200_html)) fresh)
      as (_ & _ & Hsent).
    destruct (Hsent req Hw) as (_ & _ & _ & Hend).
    destruct (Hend response_200_html eq_refl) as (_ & Hparse & _).
    apply (Hparse (ErrorObject SyntaxError
                     "Unexpected token < in JSON at position 0")).
    vm_compute. reflexivity.
  - destruct (probe_goes_out (always (OnEnd response_200_refused)))
      as (req & Hw).
    destruct (verifyApiKey_is_a_probe (always (OnEnd response_200_refused))
                fresh) as (_ & _ & Hsent).
    destruct (Hsent req Hw) as (_ & _ & _ & Hend).
    destruct (Hend response_200_refused eq_refl) as (_ & _ & _ & Hrefused & _).
    apply (Hrefused body_check_refused); [vm_compute; reflexivity |].
    intros props [= <-]. vm_compute. reflexivity.
  - destruct (probe_goes_out (always (OnEnd response_200_stats))) as (req & Hw).
    destruct (verifyApiKey_is_a_probe (always (OnEnd response_200_stats)) fresh)
      as (_ & _ & Hsent).
    destruct (Hsent req Hw) as (_ & _ & _ & Hend).
    destruct (Hend response_200_stats eq_refl) as (_ & _ & _ & _ & Htrue).
    apply (Htrue (<["success" := VBool true]> (<["data" := data_stats]> ∅))
             snapshot_stats).
    + cbn [response_200_stats res_statusCode]. lia.
    + vm_compute. reflexivity.
    + vm_compute. reflexivity.
    + vm_compute. reflexivity.
Defined.

(** A client whose base URL lacks its scheme sends nothing, and a 200
    whose body is the JSON text [null] fails on the read of [success]. *)
Example checkUser_edges :
  checkUser (always (OnEnd response_200_check)) (VStr "123456789")
    {| this := {| apiKey := VStr "sk_live_0123456789";
                  apiUrl := VStr "elysium-online.xyz/api";
                  timeout := timeout default_client;
                  debug := VBool false;
                  version := "1.0.0";
                  _lastRateLimit := None |};
       console := [];
       wire := [] |}
  = (Throw (ErrorObject Error "Failed to check user: Invalid URL"),
     {| this := {| apiKey := VStr "sk_live_0123456789";
                   apiUrl := VStr "elysium-online.xyz/api";
                   timeout := timeout default_client;
                   debug := VBool false;
                   version := "1.0.0";
                   _lastRateLimit := None |};
        console := [];
        wire := [] |})
  /\ fst (checkUser (always (OnEnd {| res_statusCode := 200;
                                      res_headers := ∅;
                                      res_chunks := ["null"] |}))
            (VStr "123456789") fresh)
     = Throw (ErrorObject Error
                "Failed to check user: Cannot read properties of null (reading 'success')").
Proof. vm_compute. split; reflexivity. Qed.

(** C4, witness: a complete report without its [reason], and a complete
    report whose [actionType] is [nuke]. *)
Lemma reportAction_validates_first_witness :
  reportAction (always (OnEnd response_200_check))
    (VObj (delete "reason" report_fields)) fresh
  = (Throw (ErrorObject Error "reason is required"), fresh)
  /\ reportAction (always (OnEnd response_200_check))
       (VObj (<["actionType" := VStr "nuke"]> report_fields)) fresh
     = (Throw (ErrorObject Error
                 "Invalid action type. Must be one of: ban, kick, timeout, mute, warn, unban, untimeout, unmute, remove_warning"),
        fresh).
Proof.
  destruct (reportAction_validates_first (always (OnEnd response_200_check)) fresh)
    as [Hmissing Hinvalid].
  split.
  - apply (Hmissing report_fields "reason").
    + unfold required. repeat constructor.
    + intros f Hf Hne. unfold required in Hf.
      repeat (apply elem_of_cons in Hf as [->|Hf];
              [first [reflexivity | contradiction] |]).
      inversion Hf.
  - destruct (Hinvalid (VObj (<["actionType" := VStr "nuke"]> report_fields)))
      as (t & Hfail & Hlisting).
    + intros v Hv. vm_compute in Hv. injection Hv as <-. reflexivity.
    + rewrite Hfail, Hlisting; [reflexivity |].
      intros f Hf. unfold required in Hf.
      repeat (apply elem_of_cons in Hf as [->|Hf];
              [eexists; split; vm_compute; reflexivity |]).
      inversion Hf.
Defined.

(** C5, witness: a 200 whose body is an HTML page. *)
Lemma unparsable_body_is_rejected_witness :
  res_statusCode response_200_html = 200
  /\ JSON_parse (accumulate (res_chunks response_200_html))
     = Throw (ErrorObject SyntaxError "Unexpected token < in JSON at position 0")
  /\ fst (_request (always (OnEnd response_200_html)) "GET" "/api/v1/shield/stats"
            VUndefined fresh)
     = Throw (PlainObject
                {| statusCode := Some 200;
                   message := VStr "Failed to parse response";
                   error := VStr "Unexpected token < in JSON at position 0";
                   rateLimit := None |}).
Proof.
  split; [reflexivity |]. split; [vm_compute; reflexivity |].
  eapply (unparsable_body_is_rejected (always (OnEnd response_200_html))
            response_200_html fresh SyntaxError).
  - vm_compute. reflexivity.
  - vm_compute. reflexivity.
  - reflexivity.
Defined.

(** C7, as stated, fails: a 429 with [x-ratelimit-remaining: 0]
    and [retry-after: 42] whose body is not JSON (the page of a proxy) is
    rejected by the [catch] clause, where [rateLimit] is out of scope;
    the error has no [rateLimit] at all. *)
Lemma rate_limited_page_has_no_rateLimit :
  res_statusCode response_429_html = 429
  /\ res_headers response_429_html !! "x-ratelimit-remaining" = Some "0"
  /\ res_headers response_429_html !! "retry-after" = Some "42"
  /\ fst (_request (always (OnEnd response_429_html)) "POST" "/api/v1/shield/check"
            (VObj {["userId" := VStr "123456789"]}) fresh)
     = Throw (PlainObject
                {| statusCode := Some 429;
                   message := VStr "Failed to parse response";
                   error := VStr "Unexpected token < in JSON at position 0";
                   rateLimit := None |}).
Proof. vm_compute. repeat split. Qed.

(** The same happens, by way of a [TypeError] on [response.message], when
    the body is the JSON text [null]. *)
Example rate_limited_null_has_no_rateLimit :
  fst (on_end {| res_statusCode := 429;
                 res_headers := res_headers response_429;
                 res_chunks := ["null"] |} fresh)
  = Reject {| statusCode := Some 429;
              message := VStr "Failed to parse response";
              error := VStr "Cannot read properties of null (reading 'message')";
              rateLimit := None |}.
Proof. vm_compute. reflexivity. Qed.

(** And by way of a [RangeError], when the body is JSON but the reset
    header does not denote a date. *)
Example rate_limited_bad_reset_has_no_rateLimit :
  fst (_request (always (OnEnd response_429_bad_reset)) "POST"
         "/api/v1/shield/check" (VObj {["userId" := VStr "123456789"]}) fresh)
  = Throw (PlainObject
             {| statusCode := Some 429;
                message := VStr "Failed to parse response";
                error := VStr "Invalid time value";
                rateLimit := None |}).
Proof. vm_compute. reflexivity. Qed.

(** C7 as amended, witness: the same status and headers in front of a
    JSON body, with no reset header. *)
Lemma error_branch_attaches_rateLimit_witness :
  res_statusCode response_429 = 429
  /\ JSON_parse (accumulate (res_chunks response_429)) = Normal body_rate_limited
  /\ header (res_headers response_429) "x-ratelimit-reset" = None
  /\ fst (_request (always (OnEnd response_429)) "POST" "/api/v1/shield/check"
            (VObj {["userId" := VStr "123456789"]}) fresh)
     = Throw (PlainObject
                {| statusCode := Some 429;
                   message := VStr "Rate limit exceeded";
                   error := VStr "Rate limit exceeded";
                   rateLimit := Some {| limit := None;
                                        remaining := Some (Int 0);
                                        resetAt := None;
                                        resetTimestamp := None;
                                        retryAfter := Some (Int 42) |} |}).
Proof.
  split; [reflexivity |]. split; [vm_compute; reflexivity |].
  split; [vm_compute; reflexivity |].
  destruct (error_branch_attaches_rateLimit (always (OnEnd response_429))
              response_429 body_rate_limited)
    as (rl & msg & err & Hrl & _ & _ & _ & _ & Hmsg & Herr & Hreject & _ & _).
  - vm_compute. reflexivity.
  - unfold body_rate_limited. discriminate.
  - unfold body_rate_limited. discriminate.
  - intros s Hs. vm_compute in Hs. discriminate.
  - vm_compute. reflexivity.
  - cbv zeta in Hreject. destruct Hreject as [_ Hreject].
    rewrite (Hreject fresh "POST" "/api/v1/shield/check"
               (VObj {["userId" := VStr "123456789"]})
               {| href := "https://elysium-online.xyz/api/v1/shield/check";
                  protocol := "https:" |});
      [| vm_compute; reflexivity | reflexivity].
    vm_compute in Hrl, Hmsg, Herr.
    injection Hrl as <-. injection Hmsg as <-. injection Herr as <-.
    reflexivity.
Defined.



(** C9, witness: a 200 without rate-limit headers resolves with the body
    alone; a 200 with three of them resolves with the body and the three
    properties, [retryAfter] being left out. *)
Lemma rateLimit_only_when_present_witness :
  fst (_request (always (OnEnd response_200_check)) "POST" "/api/v1/shield/check"
         (VObj {["userId" := VStr "123456789"]}) fresh)
  = Normal {| resp_body := body_check_ok; resp_rateLimit := None |}
  /\ fst (_request (always (OnEnd response_200_stats)) "GET" "/api/v1/shield/stats"
            VUndefined fresh)
     = Normal {| resp_body := body_stats;
                 resp_rateLimit :=
                   Some {| limit := Some (Int 30);
                           remaining := Some (Int 27);
                           resetAt := Some "2025-11-19T15:37:01.000Z";
                           resetTimestamp := Some (Int 1763566621);
                           retryAfter := None |} |}.
Proof.
  split.
  - destruct (rateLimit_only_when_present (always (OnEnd response_200_check))
                response_200_check body_check_ok
                {| limit := None; remaining := None; resetAt := None;
                   resetTimestamp := None; retryAfter := None |})
      as ((_ & Hresolve) & _);
      [vm_compute; reflexivity | vm_compute; reflexivity | reflexivity |].
    rewrite (Hresolve fresh "POST" "/api/v1/shield/check"
               (VObj {["userId" := VStr "123456789"]})
               {| href := "https://elysium-online.xyz/api/v1/shield/check";
                  protocol := "https:" |});
      [reflexivity | vm_compute; reflexivity | reflexivity].
  - destruct (rateLimit_only_when_present (always (OnEnd response_200_stats))
                response_200_stats body_stats
                {| limit := Some (Int 30); remaining := Some (Int 27);
                   resetAt := Some "2025-11-19T15:37:01.000Z";
                   resetTimestamp := Some (Int 1763566621);
                   retryAfter := None |})
      as ((_ & Hresolve) & _);
      [vm_compute; reflexivity | vm_compute; reflexivity | reflexivity |].
    rewrite (Hresolve fresh "GET" "/api/v1/shield/stats" VUndefined
               {| href := "https://elysium-online.xyz/api/v1/shield/stats";
                  protocol := "https:" |});
      [reflexivity | vm_compute; reflexivity | reflexivity].
Defined.

(** C10, witness: [{ timeout: 0, apiUrl: '', debug: false }]. *)
Lemma constructor_defaults_witness :
  exists m,
    constructor (VStr "sk_live_0123456789") (VObj falsy_options) [] [] = Normal m
    /\ wire m = []
    /\ console m = []
    /\ timeout (this m) = VNum 10000
    /\ apiUrl (this m) = VStr "https://elysium-online.xyz/api"
    /\ debug (this m) = VBool false.
Proof.
  destruct (constructor_defaults (VStr "sk_live_0123456789") falsy_options [] [])
    as (m & Hnew & Hwire & _ & Htimeout & _ & Hurl & _ & Hdebug & _);
    [reflexivity |].
  exists m. split; [exact Hnew |]. split; [exact Hwire |].
  destruct Hdebug as [Hdebug Hconsole]; [vm_compute; reflexivity |].
  split; [exact Hconsole |].
  split; [apply Htimeout; vm_compute; reflexivity |].
  split; [apply Hurl; vm_compute; reflexivity | exact Hdebug].
Defined.

Example verbose_is_constructed :
  constructor (VStr "sk_live_0123456789") (VObj (<["debug" := VBool true]> ∅)) [] []
  = Normal verbose.
Proof. vm_compute. reflexivity. Qed.

(** X1, witness: no key; [null] for the options; a number for the options. *)
Lemma constructor_succeeds_iff_witness :
  constructor (VStr "") (VObj falsy_options) [] []
  = Throw (ErrorObject Error
      "Shield API key is required. Get one at https://elysium-online.xyz/profile")
  /\ constructor (VStr "sk_live_0123456789") VNull [] []
     = Throw (ErrorObject TypeError
                "Cannot read properties of null (reading 'apiUrl')")
  /\ constructor (VStr "sk_live_0123456789") number_as_options [] [] = Normal fresh.
Proof.
  split; [|split].
  - destruct (constructor_succeeds_iff (VStr "") (VObj falsy_options) [] [])
      as (Hkey & _).
    apply Hkey. reflexivity.
  - destruct (constructor_succeeds_iff (VStr "sk_live_0123456789") VNull [] [])
      as (_ & Hnull & _).
    apply Hnull. reflexivity.
  - destruct (constructor_succeeds_iff (VStr "sk_live_0123456789") number_as_options
                [] []) as (_ & _ & _ & Hignored).
    rewrite Hignored; [vm_compute; reflexivity | discriminate |].
    intros props. discriminate.
Defined.

(** X2, witness: the five calls on the fresh client, against a service
    that answers 429. *)
Lemma silent_without_debug_witness :
  console (perform_all (always (OnEnd response_429)) session fresh) = [].
Proof.
  apply (silent_without_debug (always (OnEnd response_429)) session fresh).
  reflexivity.
Defined.

(** The same five calls make four requests, with the key of the client. *)
Example session_requests :
  map (fun req => (req_method req, href (req_url req), req_headers req))
    (wire (perform_all (always (OnEnd response_200_check)) session fresh))
  = [("POST", "https://elysium-online.xyz/api/v1/shield/check",
      request_headers default_client);
     ("POST", "https://elysium-online.xyz/api/v1/shield/report-action",
      request_headers default_client);
     ("GET", "https://elysium-online.xyz/api/v1/shield/stats",
      request_headers default_client);
     ("GET", "https://elysium-online.xyz/api/v1/shield/stats",
      request_headers default_client)]
  /\ request_headers default_client
     = [("Content-Type", VStr "application/json");
        ("x-api-key", VStr "sk_live_0123456789");
        ("User-Agent", VStr "Elysium-Shield-SDK/1.0.0")].
Proof. vm_compute. split; reflexivity. Qed.

(** X5, witness: the fresh client and the verbose one on the five calls;
    the verbose one has printed. *)
Lemma debug_only_prints_witness :
  wire (perform_all (always (OnEnd response_200_stats)) session fresh)
  = wire (perform_all (always (OnEnd response_200_stats)) session verbose)
  /\ fst (getNetworkStats (always (OnEnd response_200_stats))
            (perform_all (always (OnEnd response_200_stats)) session fresh))
     = fst (getNetworkStats (always (OnEnd response_200_stats))
              (perform_all (always (OnEnd response_200_stats)) session verbose))
  /\ console (perform_all (always (OnEnd response_200_stats)) session fresh)
     = []
  /\ length (console (perform_all (always (OnEnd response_200_stats)) session
                        verbose)) = 9%nat.
Proof.
  destruct (debug_only_prints (always (OnEnd response_200_stats)) session
              fresh verbose) as (Hwire & _ & _ & Hstats & _).
  - repeat split.
  - split; [exact Hwire |]. split; [exact Hstats |].
    split; vm_compute; reflexivity.
Defined.

(** X6, witness: the statistics round trip resolves, so the service
    answered 2xx with that body. *)
Lemma request_resolves_iff_witness :
  exists req res rl,
    wire (snd (_request (always (OnEnd response_200_stats)) "GET"
                 "/api/v1/shield/stats" VUndefined fresh)) = wire fresh ++ [req]
    /\ always (OnEnd response_200_stats) (length (wire fresh)) req = OnEnd res
    /\ 200 <= res_statusCode res < 300
    /\ JSON_parse (accumulate (res_chunks res)) = Normal body_stats
    /\ extract_rate_limit (res_headers res) = Normal rl
    /\ Some snapshot_stats
       = if is_object body_stats && has_keys rl then Some rl else None.
Proof.
  apply (request_resolves_iff (always (OnEnd response_200_stats)) "GET"
           "/api/v1/shield/stats" VUndefined fresh
           {| resp_body := body_stats; resp_rateLimit := Some snapshot_stats |}).
  vm_compute. reflexivity.
Defined.

(** X7, witness: the check resolves with the [data] of the body. *)
Lemma checkUser_resolves_iff_witness :
  ToBoolean (VStr "123456789") = true
  /\ exists req res props rl,
       wire (snd (checkUser (always (OnEnd response_200_check))
                    (VStr "123456789") fresh)) = wire fresh ++ [req]
       /\ always (OnEnd response_200_check) (length (wire fresh)) req = OnEnd res
       /\ 200 <= res_statusCode res < 300
       /\ JSON_parse (accumulate (res_chunks res)) = Normal (VObj props)
       /\ extract_rate_limit (res_headers res) = Normal rl
       /\ ToBoolean (default VUndefined (props !! "success")) = true
       /\ data_check_ok = default VUndefined (props !! "data").
Proof.
  apply (checkUser_resolves_iff (always (OnEnd response_200_check))
           (VStr "123456789") fresh data_check_ok).
  vm_compute. reflexivity.
Defined.

(** X8, witness: the probe says [true] on the statistics. *)
Lemma verifyApiKey_true_iff_witness :
  exists req res props rl,
    wire (snd (verifyApiKey (always (OnEnd response_200_stats)) fresh))
    = wire fresh ++ [req]
    /\ req_method req = "GET"
    /\ always (OnEnd response_200_stats) (length (wire fresh)) req = OnEnd res
    /\ 200 <= res_statusCode res < 300
    /\ JSON_parse (accumulate (res_chunks res)) = Normal (VObj props)
    /\ extract_rate_limit (res_headers res) = Normal rl
    /\ ToBoolean (default VUndefined (props !! "success")) = true.
Proof.
  apply (verifyApiKey_true_iff (always (OnEnd response_200_stats)) fresh).
  vm_compute. reflexivity.
Defined.

Lemma report_fields_valid : valid_report (VObj report_fields).
Proof.
  split.
  - intros f Hf. unfold required in Hf.
    repeat (apply elem_of_cons in Hf as [->|Hf];
            [eexists; split; vm_compute; reflexivity |]).
    inversion Hf.
  - exists "ban". split; [reflexivity |]. unfold validActions.
    repeat constructor.
Defined.


(** X10, witness: the statistics. *)
Lemma getNetworkStats_contract_witness :
  (exists req,
     wire (snd (getNetworkStats (always (OnEnd response_200_stats)) fresh))
     = wire fresh ++ [req]
     /\ req_method req = "GET"
     /\ req_url req = {| href := "https://elysium-online.xyz/api/v1/shield/stats";
                         protocol := "https:" |}
     /\ req_body req = None)
  /\ fst (getNetworkStats (always (OnEnd response_200_stats)) fresh)
     = Normal data_stats
  /\ fst (getNetworkStats (always (OnEnd response_200_refused)) fresh)
     = Throw (ErrorObject Error "Failed to get network stats: User not found").
Proof.
  split; [|split].
  - apply (getNetworkStats_contract (always (OnEnd response_200_stats)) fresh
             {| href := "https://elysium-online.xyz/api/v1/shield/stats";
                protocol := "https:" |}).
    vm_compute. reflexivity.
  - set (svc := always (OnEnd response_200_stats)).
    destruct (getNetworkStats_contract svc fresh
                {| href := "https://elysium-online.xyz/api/v1/shield/stats";
                   protocol := "https:" |}) as (_ & Hresolved);
      [vm_compute; reflexivity |].
    destruct (Hresolved
                {| resp_body := body_stats; resp_rateLimit := Some snapshot_stats |}
                (snd (_request svc "GET" "/api/v1/shield/stats" VUndefined fresh))
                (<["success" := VBool true]> (<["data" := data_stats]> ∅)))
      as (_ & Hdata); [vm_compute; reflexivity | reflexivity |].
    rewrite Hdata; [vm_compute; reflexivity | vm_compute; reflexivity].
  - set (svc := always (OnEnd response_200_refused)).
    destruct (getNetworkStats_contract svc fresh
                {| href := "https://elysium-online.xyz/api/v1/shield/stats";
                   protocol := "https:" |}) as (_ & Hresolved);
      [vm_compute; reflexivity |].
    destruct (Hresolved
                {| resp_body := body_check_refused; resp_rateLimit := None |}
                (snd (_request svc "GET" "/api/v1/shield/stats" VUndefined fresh))
                (<["success" := VBool false]>
                   (<["error" := VStr "User not found"]> ∅)))
      as (Hrefused & _); [vm_compute; reflexivity | reflexivity |].
    rewrite (Hrefused eq_refl "User not found");
      [reflexivity | vm_compute; reflexivity].
Defined.

(** X11, witness: [reportAction()] and [reportAction('ban')]. *)
Lemma reportAction_bad_argument_witness :
  reportAction (always (OnEnd response_200_check)) VUndefined fresh
  = (Throw (ErrorObject TypeError
              "Cannot read properties of undefined (reading 'userId')"), fresh)
  /\ reportAction (always (OnEnd response_200_check)) (VStr "ban") fresh
     = (Throw (ErrorObject Error "userId is required"), fresh).
Proof.
  split.
  - rewrite (reportAction_bad_argument (always (OnEnd response_200_check))
               VUndefined fresh); [reflexivity |].
    intros props. discriminate.
  - rewrite (reportAction_bad_argument (always (OnEnd response_200_check))
               (VStr "ban") fresh); [reflexivity |].
    intros props. discriminate.
Defined.

(** The request of [checkUser('123456789')] on the fresh client. *)
Lemma check_goes_out (service : nat -> ClientRequest -> terminal_event) :
  exists req,
    wire (snd (checkUser service (VStr "123456789") fresh)) = wire fresh ++ [req].
Proof.
  destruct (checkUser_one_request service (VStr "123456789") fresh
              {| href := "https://elysium-online.xyz/api/v1/shield/check";
                 protocol := "https:" |}) as (req & Hw & _);
    [reflexivity | vm_compute; reflexivity |].
  now exists req.
Defined.

(** X12, witness: a refused connection and a timeout. *)
Lemma transport_failures_witness :
  fst (_request (always (OnError "connect ECONNREFUSED")) "POST"
         "/api/v1/shield/check" (VObj {["userId" := VStr "123456789"]}) fresh)
  = Throw (PlainObject {| statusCode := None;
                          message := VStr "Network error";
                          error := VStr "connect ECONNREFUSED";
                          rateLimit := None |})
  /\ fst (checkUser (always (OnError "connect ECONNREFUSED"))
            (VStr "123456789") fresh)
     = Throw (ErrorObject Error "Failed to check user: Network error")
  /\ fst (_request (always OnTimeout) "POST" "/api/v1/shield/check"
            (VObj {["userId" := VStr "123456789"]}) fresh)
     = Throw (PlainObject {| statusCode := None;
                             message := VStr "Request timeout";
                             error := VStr "Request exceeded 10000ms";
                             rateLimit := None |})
  /\ fst (checkUser (always OnTimeout) (VStr "123456789") fresh)
     = Throw (ErrorObject Error "Failed to check user: Request timeout").
Proof.
  destruct (check_goes_out (always (OnError "connect ECONNREFUSED")))
    as (req & Hw).
  destruct (check_goes_out (always OnTimeout)) as (req' & Hw').
  destruct (transport_failures (always (OnError "connect ECONNREFUSED"))
              (VStr "123456789") fresh req Hw) as (Herror & _).
  destruct (transport_failures (always OnTimeout)
              (VStr "123456789") fresh req' Hw') as (_ & Htimeout).
  destruct (Herror "connect ECONNREFUSED" eq_refl) as (Hreject & Hthrow).
  destruct (Htimeout "10000" eq_refl) as (Hreject' & Hthrow');
    [vm_compute; reflexivity |].
  split; [exact Hreject |]. split; [exact Hthrow |].
  split; [exact Hreject' | exact Hthrow'].
Defined.

(** X13, witness: a 401 whose body has an [error] and no [message]. *)
Lemma http_error_message_witness :
  fst (checkUser (always (OnEnd response_401)) (VStr "123456789") fresh)
  = Throw (ErrorObject Error "Failed to check user: Invalid API key").
Proof.
  destruct (check_goes_out (always (OnEnd response_401))) as (req & Hw).
  apply (http_error_message (always (OnEnd response_401)) (VStr "123456789")
           fresh req response_401 body_unauthorized VUndefined
           (VStr "Invalid API key")
           {| limit := None; remaining := None; resetAt := None;
              resetTimestamp := None; retryAfter := None |}
           "Invalid API key" Hw).
  - reflexivity.
  - cbn [response_401 res_statusCode]. lia.
  - vm_compute. reflexivity.
  - vm_compute. reflexivity.
  - vm_compute. reflexivity.
  - vm_compute. reflexivity.
  - reflexivity.
Defined.

(** X14, witness: a 200 with a good body and [x-ratelimit-reset: soon]. *)
Lemma unusable_reset_header_rejects_witness :
  fst (_request (always (OnEnd response_200_bad_reset)) "POST"
         "/api/v1/shield/check" (VObj {["userId" := VStr "123456789"]}) fresh)
  = Throw (PlainObject {| statusCode := Some 200;
                          message := VStr "Failed to parse response";
                          error := VStr "Invalid time value";
                          rateLimit := None |})
  /\ fst (checkUser (always (OnEnd response_200_bad_reset))
            (VStr "123456789") fresh)
     = Throw (ErrorObject Error
                "Failed to check user: Failed to parse response").
Proof.
  destruct (check_goes_out (always (OnEnd response_200_bad_reset)))
    as (req & Hw).
  apply (unusable_reset_header_rejects (always (OnEnd response_200_bad_reset))
           (VStr "123456789") fresh req response_200_bad_reset body_check_ok
           "soon" Hw).
  - reflexivity.
  - vm_compute. reflexivity.
  - vm_compute. reflexivity.
  - left. vm_compute. reflexivity.
Defined.

(** X15, witness: a limit of 30, nothing remaining, 42 seconds to wait. *)
Lemma counters_round_trip_witness :
  extract_rate_limit
    (<["x-ratelimit-limit" := "30"]>
       (<["x-ratelimit-remaining" := "0"]> (<["retry-after" := "42"]> ∅)))
  = Normal {| limit := Some (Int 30);
              remaining := Some (Int 0);
              resetAt := None;
              resetTimestamp := None;
              retryAfter := Some (Int 42) |}.
Proof.
  apply (counters_round_trip
           (<["x-ratelimit-limit" := "30"]>
              (<["x-ratelimit-remaining" := "0"]> (<["retry-after" := "42"]> ∅)))
           30 0 42); [lia | lia | lia | vm_compute; reflexivity ..].
Defined.

(** On a service that answers 429 with [retry-after: 42], the helper of
    EXAMPLES.md makes one request and rethrows; with backoff, three
    requests, two lines and the delays of one and two seconds. *)
Example callers_on_429 :
  fst (checkUserWithRetry (always (OnEnd response_429)) (VStr "123456789") 3 app0)
  = Throw (ErrorObject Error "Failed to check user: Rate limit exceeded")
  /\ length (wire (machine (snd (checkUserWithRetry (always (OnEnd response_429))
                                   (VStr "123456789") 3 app0)))) = 1%nat
  /\ slept (snd (checkUserWithRetry (always (OnEnd response_429))
                   (VStr "123456789") 3 app0)) = []
  /\ fst (retryWithBackoff
            (checkUser (always (OnEnd response_429)) (VStr "123456789")) 3 app0)
     = Throw (ErrorObject Error "Failed to check user: Rate limit exceeded")
  /\ length (wire (machine (snd (retryWithBackoff
                                   (checkUser (always (OnEnd response_429))
                                      (VStr "123456789")) 3 app0)))) = 3%nat
  /\ slept (snd (retryWithBackoff
                   (checkUser (always (OnEnd response_429)) (VStr "123456789"))
                   3 app0)) = [Int 1000; Int 2000]
  /\ printed (snd (retryWithBackoff
                     (checkUser (always (OnEnd response_429)) (VStr "123456789"))
                     3 app0)) = [Retry 1 3 1000; Retry 2 3 2000].
Proof. vm_compute. repeat split. Qed.

